(** * Shoekart back end: a shallow embedding of [backend/server.js]

    The Express handlers of [server.js] are modelled as functions from the
    state of the document store to a response and a new state.  Every
    [await] on the store is a point where the driver may reject; a handler's
    [try { ... } catch (err) { ... }] is the [try_catch] combinator below.

    Texts are [string]s.  A number is given as an integer: the requests and
    documents considered hold integer-valued numbers, and where the code
    adds two of them the sum is rounded as a sum of doubles is
    ([double_add]). *)

From Stdlib Require Import ZArith List String Ascii Bool Arith Lia.
From Stdlib Require Import Sorting.Sorted Sorting.Permutation.
Import ListNotations.

Local Open Scope string_scope.
Local Open Scope list_scope.

(** ** Documents (the Mongoose schemas) *)

(** An [ObjectId]; new ids are drawn from a counter.  An id travels in a
    request as a text.  Where a route hands that text to the store, which
    casts it ([findById], [findByIdAndUpdate], [findByIdAndDelete]), the
    request is given by the id the text denotes.  Where the handler itself
    looks at the text (the [productId] of the cart and wishlist bodies, which
    it compares with [toString()] of the stored ids), the request carries
    the text. *)
Definition ObjectId := nat.

Definition hex_digit (d : nat) : ascii :=
  nth d ["0"; "1"; "2"; "3"; "4"; "5"; "6"; "7"; "8"; "9";
         "a"; "b"; "c"; "d"; "e"; "f"]%char "0"%char.

(** The value of a hexadecimal digit, in either letter case. *)
Definition hex_value (c : ascii) : option nat :=
  let n := nat_of_ascii c in
  if Nat.leb 48 n && Nat.leb n 57 then Some (n - 48)
  else if Nat.leb 97 n && Nat.leb n 102 then Some (n - 87)
  else if Nat.leb 65 n && Nat.leb n 70 then Some (n - 55)
  else None.

(** The hexadecimal digits of [n], the least significant first. *)
Fixpoint hex_digits (fuel n : nat) : list nat :=
  match fuel with
  | 0 => []
  | S fuel' => if Nat.eqb n 0 then [] else (n mod 16) :: hex_digits fuel' (n / 16)
  end.

Fixpoint of_hex_digits (ds : list nat) : nat :=
  match ds with
  | [] => 0
  | d :: rest => d + 16 * of_hex_digits rest
  end.

Fixpoint hex_values (cs : list ascii) : option (list nat) :=
  match cs with
  | [] => Some []
  | c :: rest =>
      match hex_value c, hex_values rest with
      | Some d, Some ds => Some (d :: ds)
      | _, _ => None
      end
  end.

Definition pad24 (ds : list nat) : list nat := ds ++ repeat 0 (24 - List.length ds).

(** [id.toString()]: the id in 24 hexadecimal digits, letters in lower case
    (an id is 12 bytes; a number of the model beyond that range prints with
    more digits and is the cast of no text). *)
Definition toString (id : ObjectId) : string :=
  string_of_list_ascii (map hex_digit (rev (pad24 (hex_digits id id)))).

(** The cast Mongoose applies to a text where the schema wants an
    [ObjectId]: a text of 24 hexadecimal digits, letters in either case,
    denotes an id; [None] is the [CastError] for another text. *)
Definition castObjectId (t : string) : option ObjectId :=
  if Nat.eqb (String.length t) 24
  then option_map (fun ds => of_hex_digits (rev ds)) (hex_values (list_ascii_of_string t))
  else None.

Arguments toString : simpl never.
Arguments castObjectId : simpl never.

(** The sum of two integer-valued doubles: the exact sum when it has at most
    53 significant bits, and otherwise the nearest double, ties going to the
    even mantissa.  (A sum beyond the largest finite double, which is
    [Infinity], is outside the numbers considered here.) *)
Definition round_double (z : Z) : Z :=
  let a := Z.abs z in
  if (a <=? 2 ^ 53)%Z then z
  else
    let e := (Z.log2 a - 52)%Z in
    let q := (a / 2 ^ e)%Z in
    let r := (a mod 2 ^ e)%Z in
    let up := (2 ^ (e - 1) <? r)%Z || ((r =? 2 ^ (e - 1))%Z && Z.odd q) in
    (Z.sgn z * ((if up then q + 1 else q) * 2 ^ e))%Z.

Definition double_add (a b : Z) : Z := round_double (a + b).

(** [productSchema]; [rating] is nullable. *)
Record Product := mkProduct {
  p_id : ObjectId;
  p_name : string;
  p_price : Z;
  p_category : string;
  p_description : string;
  p_image : string;
  p_size : string;
  p_brand : string;
  p_rating : option Z;
  p_color : string;
  p_createdAt : Z
}.

(** An element of [UserSchema.cart], with its [productId] set. *)
Record CartItem := mkCartItem {
  productId : ObjectId;
  quantity : Z
}.

(** [UserSchema].  The schema declares exactly these paths (there is no
    [isFirstLogin] path); [name] and [email] are required, which only
    [save()] checks (see [validates]).  [u_cart] is the raw stored field: [None] is a
    stored document without a [cart] array, which only the [lean()] read of
    [GET /cart/:email] can observe; a hydrated document always shows an
    array (see [hydrated_cart]). *)
Record User := mkUser {
  u_id : ObjectId;
  u_name : string;
  u_email : string;
  u_password : string;
  u_role : string;
  u_wishlist : list ObjectId;
  u_cart : option (list CartItem)
}.

(** An element of [OrderSchema.products]. *)
Record OrderLine := mkOrderLine {
  ol_productId : ObjectId;
  productName : string;
  productPrice : Z;
  ol_quantity : Z
}.

(** [OrderSchema]. *)
Record Order := mkOrder {
  o_id : ObjectId;
  userId : ObjectId;
  o_products : list OrderLine;
  totalAmount : Z;
  o_status : string;
  o_createdAt : Z
}.

(** [profileSchema]; a field that was never set is [None]. *)
Record Profile := mkProfile {
  pr_id : ObjectId;
  pr_name : option string;
  pr_email : string;
  pr_phone : option string;
  pr_address : option string
}.

(** The four collections, and the counter new [_id]s are drawn from. *)
Record Store := mkStore {
  users : list User;
  products : list Product;
  orders : list Order;
  profiles : list Profile;
  nextId : ObjectId
}.

Definition empty_store : Store := mkStore [] [] [] [] 0.

Definition set_users (us : list User) (s : Store) : Store :=
  mkStore us (products s) (orders s) (profiles s) (nextId s).
Definition set_products (ps : list Product) (s : Store) : Store :=
  mkStore (users s) ps (orders s) (profiles s) (nextId s).
Definition set_orders (os : list Order) (s : Store) : Store :=
  mkStore (users s) (products s) os (profiles s) (nextId s).
Definition set_profiles (ps : list Profile) (s : Store) : Store :=
  mkStore (users s) (products s) (orders s) ps (nextId s).
Definition bump_id (s : Store) : Store :=
  mkStore (users s) (products s) (orders s) (profiles s) (S (nextId s)).

(** ** Responses *)

(** One line of the denormalised cart view: [{ _id, name, price, quantity }]. *)
Record CartLine := mkCartLine {
  cl_id : ObjectId;
  cl_name : string;
  cl_price : Z;
  cl_quantity : Z
}.

(** [GET /analytics] payload. *)
Record Analytics := mkAnalytics {
  totalUsers : nat;
  totalAdmins : nat;
  totalProducts : nat;
  totalOrders : nat;
  totalRevenue : Z
}.

(** The JSON bodies the handlers send.  An [option] field that is [None] is
    a JavaScript [undefined] (left out by [JSON.stringify]) or [null]. *)
Inductive Body :=
| Failure (message : option string)            (* { success: false, message? } *)
| Success                                      (* { success: true } *)
| SuccessMessage (message : string)            (* { success: true, message } *)
| SuccessRole (role : option string)           (* { success: true, role } *)
| LoginOk (role : string) (isNewUser : option bool)
| ProfileOk (message : option string) (profile : Profile)
| ProductOk (product : option Product)         (* { success: true, product } *)
| OrderOk (order : option Order)               (* { success: true, order } *)
| ProductDoc (product : Product)               (* a bare product object *)
| ProductArray (l : list Product)              (* a bare array of products *)
| CartArray (l : list CartLine)                (* a bare array of cart lines *)
| OrderArray (l : list (Order * option string))(* orders with the owner's email *)
| AnalyticsDoc (a : Analytics).

Definition is_array (b : Body) : bool :=
  match b with
  | ProductArray _ | CartArray _ | OrderArray _ => true
  | _ => false
  end.

Record Response := mkResponse {
  status : nat;
  body : Body
}.

(** [res.status(c).json(b)]; a bare [res.json(b)] is status 200. *)
Definition res_status_json (c : nat) (b : Body) : Response := mkResponse c b.
Definition res_json (b : Body) : Response := mkResponse 200 b.

(** ** The store connection and the handler monad *)

(** What a handler's [catch (err)] can receive: a rejection of the store
    driver, or an [Error] thrown by the handler's own code. *)
Inductive Exn :=
| StoreFault (message : string)
| ProductNotFound (id : ObjectId)   (* new Error(`Product not found: ${id}`) *)
| Thrown (message : string).

(** The connection of one request: [conn k = Some msg] when the [k]-th
    awaited store operation of the request rejects, with an error whose
    message is [msg]. *)
Definition Conn := nat -> option string.

Definition healthy : Conn := fun _ => None.
Definition unreachable : Conn := fun _ => Some "connect ECONNREFUSED".

(** A computation inside a handler: it reads the connection, counts the
    store operations awaited so far, threads the store, and either throws
    or returns. *)
Definition M (A : Type) : Type := Conn -> nat * Store -> (Exn + A) * (nat * Store).

Definition ret {A} (a : A) : M A := fun _ ks => (inr a, ks).

Definition throw {A} (e : Exn) : M A := fun _ ks => (inl e, ks).

Definition bind {A B} (m : M A) (f : A -> M B) : M B :=
  fun conn ks =>
    match m conn ks with
    | (inl e, ks') => (inl e, ks')
    | (inr a, ks') => f a conn ks'
    end.

(** [await op]: one awaited store operation. *)
Definition await {A} (op : Store -> A * Store) : M A :=
  fun conn ks =>
    let '(k, s) := ks in
    match conn k with
    | Some msg => (inl (StoreFault msg), (S k, s))
    | None => let '(a, s') := op s in (inr a, (S k, s'))
    end.

Definition query {A} (q : Store -> A) : Store -> A * Store := fun s => (q s, s).
Definition command (w : Store -> Store) : Store -> unit * Store := fun s => (tt, w s).

Declare Scope handler_scope.
Delimit Scope handler_scope with handler.
Notation "x <- m ;; k" := (bind m (fun x => k))
  (at level 61, m at next level, right associativity) : handler_scope.
Notation "m ;;; k" := (bind m (fun _ => k))
  (at level 61, right associativity) : handler_scope.

Definition Handler := Conn -> Store -> Response * Store.

(** [try { m } catch (err) { res...(onError err) }]. *)
Definition try_catch (m : M Response) (onError : Exn -> Response) : Handler :=
  fun conn s =>
    match m conn (0, s) with
    | (inr r, (_, s')) => (r, s')
    | (inl e, (_, s')) => (onError e, s')
    end.

(** [Promise.all(xs.map(async x => f x))]. *)
Fixpoint promise_all_map {A B} (f : A -> M B) (xs : list A) : M (list B) :=
  match xs with
  | [] => ret []
  | x :: rest =>
      bind (f x) (fun y => bind (promise_all_map f rest) (fun ys => ret (y :: ys)))
  end.

(** ** Model methods (Mongoose queries and writes) *)

Fixpoint findIndex {A} (f : A -> bool) (l : list A) : option nat :=
  match l with
  | [] => None
  | x :: rest => if f x then Some 0 else option_map S (findIndex f rest)
  end.

(** [l[i] = f(l[i])]: the in-place update of one element of an array. *)
Fixpoint update_at {A} (i : nat) (f : A -> A) (l : list A) : list A :=
  match l, i with
  | [], _ => []
  | x :: rest, 0 => f x :: rest
  | x :: rest, S j => x :: update_at j f rest
  end.

(** [Model.updateOne(cond, change)]: the first matching document changes. *)
Fixpoint updateOne {A} (cond : A -> bool) (change : A -> A) (l : list A) : list A :=
  match l with
  | [] => []
  | x :: rest => if cond x then change x :: rest else x :: updateOne cond change rest
  end.

Definition has_email (email : string) (u : User) : bool := String.eqb (u_email u) email.

(** [User.findOne({ email })]. *)
Definition User_findOne (email : string) (s : Store) : option User :=
  find (has_email email) (users s).

(** [Product.findById(id)]. *)
Definition Product_findById (id : ObjectId) (s : Store) : option Product :=
  find (fun p => Nat.eqb (p_id p) id) (products s).

(** The [cart] of a hydrated (non-lean) document: an absent array reads [[]]. *)
Definition hydrated_cart (u : User) : list CartItem :=
  match u_cart u with
  | Some c => c
  | None => []
  end.

(** A document as Mongoose hydrates it: a stored document without a [cart]
    array gets the array it reads as. *)
Definition hydrated (u : User) : User :=
  mkUser (u_id u) (u_name u) (u_email u) (u_password u) (u_role u)
    (u_wishlist u) (Some (hydrated_cart u)).

(** [user.save()] on a document that was loaded from the store: the
    document is written as it was hydrated. *)
Definition User_save (u : User) (s : Store) : Store :=
  set_users (map (fun v => if Nat.eqb (u_id v) (u_id u) then hydrated u else v) (users s)) s.

Definition set_cart (u : User) (c : list CartItem) : User :=
  mkUser (u_id u) (u_name u) (u_email u) (u_password u) (u_role u) (u_wishlist u) (Some c).

Definition set_wishlist (u : User) (w : list ObjectId) : User :=
  mkUser (u_id u) (u_name u) (u_email u) (u_password u) (u_role u) w (u_cart u).

Definition set_name (u : User) (n : string) : User :=
  mkUser (u_id u) n (u_email u) (u_password u) (u_role u) (u_wishlist u) (u_cart u).

(** The validation [save()] runs on a user document before anything is sent
    to the store: [name] and [email] are [required], which the empty text
    does not satisfy. *)
Definition validates (u : User) : bool :=
  negb (String.eqb (u_name u) "") && negb (String.eqb (u_email u) "").

(** [await user.save()]: a document that fails the validation rejects
    without a store operation. *)
Definition user_save (u : User) : M unit :=
  if validates u then await (command (User_save u))
  else throw (Thrown "User validation failed").

Arguments validates : simpl never.

(** A cart element after [populate("cart.productId")]: [productId] now holds
    the product document, or [null] when the reference does not resolve.
    [pi_ref] is the stored reference, which a later [save()] writes back. *)
Record PopulatedItem := mkPopulatedItem {
  pi_ref : ObjectId;
  pi_productId : option Product;
  pi_quantity : Z
}.

Definition populate_cart (s : Store) (c : list CartItem) : list PopulatedItem :=
  map (fun item => mkPopulatedItem (productId item)
                     (Product_findById (productId item) s) (quantity item)) c.

Definition depopulate_cart (c : list PopulatedItem) : list CartItem :=
  map (fun item => mkCartItem (pi_ref item) (pi_quantity item)) c.

(** [populate("wishlist")]: an array of references; ids that do not resolve
    are left out of the populated array. *)
Fixpoint populate_wishlist (s : Store) (w : list ObjectId) : list Product :=
  match w with
  | [] => []
  | id :: rest =>
      match Product_findById id s with
      | Some p => p :: populate_wishlist s rest
      | None => populate_wishlist s rest
      end
  end.

(** [cart.filter(item => item.productId).map(item => ({ _id, name, price,
    quantity }))]. *)
Fixpoint cleanedCart (c : list PopulatedItem) : list CartLine :=
  match c with
  | [] => []
  | item :: rest =>
      match pi_productId item with
      | Some p => mkCartLine (p_id p) (p_name p) (p_price p) (pi_quantity item)
                    :: cleanedCart rest
      | None => cleanedCart rest
      end
  end.

(** ** Cart routes *)

Local Open Scope handler_scope.

(** [GET /cart/:email].  The query is [lean()], so the handler sees the raw
    [cart] field and tests it with [Array.isArray]. *)
Definition get_cart (email : string) : Handler :=
  try_catch
    (user <- await (query (fun s =>
        option_map (fun u => option_map (populate_cart s) (u_cart u))
                   (User_findOne email s))) ;;
     match user with
     | None => ret (res_status_json 200 (CartArray []))
     | Some None => ret (res_status_json 200 (CartArray []))
     | Some (Some cart) => ret (res_status_json 200 (CartArray (cleanedCart cart)))
     end)
    (fun _ => res_status_json 200 (CartArray [])).

(** [quantity || 1]: an absent quantity and the number 0 are both falsy. *)
Definition or_one (q : option Z) : Z :=
  match q with
  | Some 0%Z => 1%Z
  | Some n => n
  | None => 1%Z
  end.

(** [existing.quantity += n]. *)
Definition add_quantity (n : Z) (item : CartItem) : CartItem :=
  mkCartItem (productId item) (double_add (quantity item) n).

(** [item => item.productId.toString() === productId]. *)
Definition is_for (idtext : string) (item : CartItem) : bool :=
  String.eqb (toString (productId item)) idtext.

(** The body of [POST /cart] on the loaded cart: the entry is looked up by
    the text of the request; when there is none, the pushed [productId] is
    cast, and [None] is the failure of that cast, which rejects the save. *)
Definition cart_add (idtext : string) (q : option Z) (cart : list CartItem)
    : option (list CartItem) :=
  match findIndex (is_for idtext) cart with
  | Some existing => Some (update_at existing (add_quantity (or_one q)) cart)
  | None =>
      match castObjectId idtext with
      | Some pid => Some (cart ++ [mkCartItem pid (or_one q)])
      | None => None
      end
  end.

(** [POST /cart { email, productId, quantity }]; [quantity] is a number or
    absent. *)
Definition post_cart (email idtext : string) (q : option Z) : Handler :=
  try_catch
    (user <- await (query (User_findOne email)) ;;
     match user with
     | None => ret (res_status_json 404 (Failure (Some "User not found")))
     | Some u =>
         match cart_add idtext q (hydrated_cart u) with
         | None => throw (Thrown "Cast to ObjectId failed")
         | Some cart =>
             user_save (set_cart u cart) ;;;
             ret (res_json Success)
         end
     end)
    (fun _ => res_status_json 500 (Failure None)).

(** [item => item.productId && item.productId._id.toString() !== productId]. *)
Definition keeps (idtext : string) (item : PopulatedItem) : bool :=
  match pi_productId item with
  | Some p => negb (String.eqb (toString (p_id p)) idtext)
  | None => false
  end.

(** [DELETE /cart/remove { email, productId }]. *)
Definition delete_cart_remove (email idtext : string) : Handler :=
  try_catch
    (user <- await (query (fun s =>
        option_map (fun u => (u, populate_cart s (hydrated_cart u)))
                   (User_findOne email s))) ;;
     match user with
     | None => ret (res_status_json 200 (CartArray []))
     | Some (u, cart) =>
         let cart' := filter (keeps idtext) cart in
         user_save (set_cart u (depopulate_cart cart')) ;;;
         ret (res_status_json 200 (CartArray (cleanedCart cart')))
     end)
    (fun _ => res_status_json 200 (CartArray [])).

(** ** Wishlist routes *)

(** [wishlist.includes(productId)]: the text is compared with the text of
    each stored id. *)
Definition includes (idtext : string) (wishlist : list ObjectId) : bool :=
  existsb (fun id => String.eqb (toString id) idtext) wishlist.

(** [POST /wishlist { email, productId }]; the pushed text is cast. *)
Definition post_wishlist (email idtext : string) : Handler :=
  try_catch
    (user <- await (query (User_findOne email)) ;;
     match user with
     | None => ret (res_status_json 404 (Failure (Some "User not found")))
     | Some u =>
         if includes idtext (u_wishlist u)
         then ret (res_json Success)
         else
           match castObjectId idtext with
           | None => throw (Thrown "Cast to ObjectId failed")
           | Some pid =>
               user_save (set_wishlist u (u_wishlist u ++ [pid])) ;;;
               ret (res_json Success)
           end
     end)
    (fun _ => res_status_json 500 (Failure None)).

(** [GET /wishlist/:email]. *)
Definition get_wishlist (email : string) : Handler :=
  try_catch
    (user <- await (query (fun s =>
        option_map (fun u => populate_wishlist s (u_wishlist u))
                   (User_findOne email s))) ;;
     match user with
     | None => ret (res_status_json 404 (Failure (Some "User not found")))
     | Some wishlist => ret (res_json (ProductArray wishlist))
     end)
    (fun _ => res_status_json 500 (Failure None)).

(** [{ $pull: { wishlist: productId } }], the text having been cast. *)
Definition pull_wishlist (pid : ObjectId) (u : User) : User :=
  set_wishlist u (filter (fun id => negb (Nat.eqb id pid)) (u_wishlist u)).

(** [DELETE /wishlist/remove { email, productId }]; the update casts the
    text. *)
Definition delete_wishlist_remove (email idtext : string) : Handler :=
  try_catch
    (user <- await (query (User_findOne email)) ;;
     match user with
     | None => ret (res_status_json 404 (Failure (Some "User not found")))
     | Some _ =>
         match castObjectId idtext with
         | None => throw (Thrown "Cast to ObjectId failed")
         | Some pid =>
             await (command (fun s =>
               set_users (updateOne (has_email email) (pull_wishlist pid) (users s)) s)) ;;;
             ret (res_json (SuccessMessage "Product removed from wishlist"))
         end
     end)
    (fun _ => res_status_json 500 (Failure (Some "Failed to remove from wishlist"))).

(** ** Profile routes *)

Definition Profile_findOne (email : string) (s : Store) : option Profile :=
  find (fun p => String.eqb (pr_email p) email) (profiles s).

(** [new Model(fields).save()]: the document receives a fresh [_id]. *)
Definition Profile_insert (fields : ObjectId -> Profile) (s : Store) : Profile * Store :=
  let p := fields (nextId s) in
  (p, bump_id (set_profiles (profiles s ++ [p]) s)).

(** [profile.save()] on a loaded profile. *)
Definition Profile_save (p : Profile) (s : Store) : Profile * Store :=
  (p, set_profiles
        (map (fun v => if Nat.eqb (pr_id v) (pr_id p) then p else v) (profiles s)) s).

(** [user?.name || "New User"]. *)
Definition name_or_placeholder (user : option User) : string :=
  match user with
  | Some u => if String.eqb (u_name u) "" then "New User" else u_name u
  | None => "New User"
  end.

(** ** Order routes *)

(** One element of the [products] array of a [POST /orders] body. *)
Record LineItem := mkLineItem {
  li_productId : ObjectId;
  li_quantity : Z
}.

(** The callback of [products.map] in [POST /orders]. *)
Definition resolve_line (p : LineItem) : M OrderLine :=
  product <- await (query (Product_findById (li_productId p))) ;;
  match product with
  | None => throw (ProductNotFound (li_productId p))
  | Some product =>
      ret (mkOrderLine (p_id product) (p_name product) (p_price product) (li_quantity p))
  end.

(** [new Order({ userId, products, totalAmount }).save()]: [status] takes the
    schema default and [createdAt] the current time. *)
Definition Order_insert (now : Z) (uid : ObjectId) (lines : list OrderLine) (total : Z)
    (s : Store) : Order * Store :=
  let o := mkOrder (nextId s) uid lines total "Pending" now in
  (o, bump_id (set_orders (orders s ++ [o]) s)).

(** [POST /orders { email, products, totalAmount }]; [now] is what
    [Date.now()] returns while the request is served. *)
Definition post_orders (now : Z) (email : string) (items : list LineItem) (total : Z)
    : Handler :=
  try_catch
    (user <- await (query (User_findOne email)) ;;
     match user with
     | None => ret (res_status_json 404 (Failure (Some "User not found")))
     | Some u =>
         productData <- promise_all_map resolve_line items ;;
         order <- await (Order_insert now (u_id u) productData total) ;;
         ret (res_json (OrderOk (Some order)))
     end)
    (fun _ => res_status_json 500 (Failure (Some "Failed to create order"))).

(** [sort({ createdAt: -1 })]: newest first. *)
Fixpoint insert_newest (o : Order) (l : list Order) : list Order :=
  match l with
  | [] => [o]
  | x :: rest =>
      if (o_createdAt x <? o_createdAt o)%Z then o :: l else x :: insert_newest o rest
  end.

Definition sort_newest (l : list Order) : list Order :=
  fold_right insert_newest [] l.

(** [populate("userId", "email")]. *)
Definition owner_email (s : Store) (o : Order) : option string :=
  option_map u_email (find (fun u => Nat.eqb (u_id u) (userId o)) (users s)).

(** [GET /orders]. *)
Definition get_orders : Handler :=
  try_catch
    (found <- await (query (fun s =>
        map (fun o => (o, owner_email s o)) (sort_newest (orders s)))) ;;
     ret (res_json (OrderArray found)))
    (fun _ => res_status_json 500 (Failure (Some "Failed to fetch orders"))).

Definition set_status (st : string) (o : Order) : Order :=
  mkOrder (o_id o) (userId o) (o_products o) (totalAmount o) st (o_createdAt o).

(** [Order.findByIdAndUpdate(id, { status }, { new: true })]: update
    validators are off, and an [undefined] status is left out of the update. *)
Definition Order_findByIdAndUpdate (id : ObjectId) (st : option string) (s : Store)
    : option Order * Store :=
  let change o := match st with Some v => set_status v o | None => o end in
  let hit o := Nat.eqb (o_id o) id in
  (option_map change (find hit (orders s)),
   set_orders (updateOne hit change (orders s)) s).

(** [PUT /orders/:id { status }]. *)
Definition put_orders (id : ObjectId) (st : option string) : Handler :=
  try_catch
    (order <- await (Order_findByIdAndUpdate id st) ;;
     ret (res_json (OrderOk order)))
    (fun _ => res_status_json 500 (Failure (Some "Failed to update order"))).

(** ** Analytics *)

Definition is_admin (u : User) : bool := String.eqb (u_role u) "admin".

(** [$group: { _id: null, revenue: { $sum: "$totalAmount" } }], then
    [totalRevenueAgg[0]?.revenue || 0]: the sum of the amounts, as a double.
    It is the exact sum as long as the magnitudes of the amounts add up to
    at most 2^53, which is where the statements below use it. *)
Definition revenue (os : list Order) : Z :=
  round_double (fold_right (fun o acc => (totalAmount o + acc)%Z) 0%Z os).

(** [GET /analytics]. *)
Definition get_analytics : Handler :=
  try_catch
    (nUsers <- await (query (fun s => List.length (users s))) ;;
     nAdmins <- await (query (fun s => List.length (filter is_admin (users s)))) ;;
     nProducts <- await (query (fun s => List.length (products s))) ;;
     nOrders <- await (query (fun s => List.length (orders s))) ;;
     total <- await (query (fun s => revenue (orders s))) ;;
     ret (res_json (AnalyticsDoc (mkAnalytics nUsers nAdmins nProducts nOrders total))))
    (fun _ => res_status_json 500 (Failure (Some "Analytics failed"))).

(** ** Product routes *)

(** [err.message]. *)
Definition err_message (e : Exn) : string :=
  match e with
  | StoreFault m => m
  | ProductNotFound _ => "Product not found"
  | Thrown m => m
  end.

(** [req.query] of [GET /products].  Query values are texts; [None] is an
    absent parameter.  A numeric parameter is given by the number its text
    denotes: such a text is never empty, hence truthy, also when it is "0". *)
Record ProductQuery := mkProductQuery {
  category : option string;
  priceMin : option Z;
  priceMax : option Z;
  size : option string;
  rating : option Z;
  brand : option string;
  color : option string
}.

(** [if (x)] on a text: the empty text is falsy. *)
Definition truthy (x : option string) : option string :=
  match x with
  | Some "" => None
  | _ => x
  end.

(** The query document handed to [Product.find]. *)
Record ProductFilter := mkProductFilter {
  f_category : option string;
  f_size : option string;
  f_brand : option string;
  f_color : option (string -> bool);     (* { $regex: ... } *)
  f_rating_gte : option Z;               (* { $gte: ... } *)
  f_price_gte : option Z;
  f_price_lte : option Z
}.

Definition unless_absent {A} (c : option A) (test : A -> bool) : bool :=
  match c with
  | Some v => test v
  | None => true
  end.

(** A comparison operator on a nullable number only matches a number. *)
Definition rating_gte (p : Product) (r : Z) : bool :=
  match p_rating p with
  | Some x => (r <=? x)%Z
  | None => false
  end.

Definition matches (f : ProductFilter) (p : Product) : bool :=
  unless_absent (f_category f) (String.eqb (p_category p))
  && unless_absent (f_size f) (String.eqb (p_size p))
  && unless_absent (f_brand f) (String.eqb (p_brand p))
  && unless_absent (f_color f) (fun test => test (p_color p))
  && unless_absent (f_rating_gte f) (rating_gte p)
  && unless_absent (f_price_gte f) (fun lo => (lo <=? p_price p)%Z)
  && unless_absent (f_price_lte f) (fun hi => (p_price p <=? hi)%Z).

(** [Product.find(filter)]. *)
Definition Product_find (f : ProductFilter) (s : Store) : list Product :=
  filter (matches f) (products s).

(** [GET /products/:id]. *)
Definition get_product (id : ObjectId) : Handler :=
  try_catch
    (product <- await (query (Product_findById id)) ;;
     match product with
     | None => ret (res_status_json 404 (Failure (Some "Product not found")))
     | Some p => ret (res_json (ProductDoc p))
     end)
    (fun err => res_status_json 500 (Failure (Some (err_message err)))).

(** The [rating] of a product body: a number of a JSON body, or the text
    of a form field (multipart or urlencoded), non-empty and denoting a
    number.  The two differ in truthiness: the number 0 is falsy, the text
    "0" is not. *)
Inductive RatingField :=
| JsonNumber (n : Z)
| NumberText (n : Z).

(** [req.body] of the two product writes.  [None] is an absent field; for
    [b_rating] it is also the empty text of a form field left blank.  The
    price is given by the number that is sent or that its text denotes. *)
Record ProductBody := mkProductBody {
  b_name : option string;
  b_price : option Z;
  b_category : option string;
  b_description : option string;
  b_size : option string;
  b_brand : option string;
  b_rating : option RatingField;
  b_color : option string;
  b_imageUrl : option string
}.

(** [rating ? Number(rating) : null]. *)
Definition rating_or_null (r : option RatingField) : option Z :=
  match r with
  | Some (JsonNumber 0) => None
  | Some (JsonNumber n) => Some n
  | Some (NumberText n) => Some n
  | None => None
  end.

(** [x || ""]. *)
Definition or_empty (x : option string) : string :=
  match x with
  | Some v => v
  | None => ""
  end.

(** The image path both product writes compute from [req.file] (the name the
    upload was stored under) and [imageUrl]. *)
Definition image_path (file : option string) (imageUrl : option string) : option string :=
  match file with
  | Some filename => Some ("/uploads/" ++ filename)%string
  | None => truthy imageUrl
  end.

Definition valid_category (c : string) : bool :=
  String.eqb c "men" || String.eqb c "women" || String.eqb c "kids".

Definition valid_rating (r : option Z) : bool :=
  match r with
  | Some x => (1 <=? x)%Z && (x <=? 5)%Z
  | None => true
  end.

(** Schema validation of [product.save()]: the document that is written,
    given its fresh [_id], or [None] when a validator rejects. *)
Definition new_product (now : Z) (b : ProductBody) (image : string)
    : option (ObjectId -> Product) :=
  match truthy (b_name b), b_price b, b_category b with
  | Some name, Some price, Some cat =>
      let rating := rating_or_null (b_rating b) in
      if valid_category cat && valid_rating rating
      then Some (fun id =>
             mkProduct id name price cat (or_empty (b_description b)) image
               (or_empty (b_size b)) (or_empty (b_brand b)) rating
               (or_empty (b_color b)) now)
      else None
  | _, _, _ => None
  end.

Definition Product_insert (fields : ObjectId -> Product) (s : Store) : Product * Store :=
  let p := fields (nextId s) in
  (p, bump_id (set_products (products s ++ [p]) s)).

(** [POST /products]; [file] is the name the upload was stored under. *)
Definition post_products (now : Z) (file : option string) (b : ProductBody) : Handler :=
  try_catch
    (match image_path file (b_imageUrl b) with
     | None => ret (res_status_json 400 (Failure (Some "Image required")))
     | Some imagePath =>
         match new_product now b imagePath with
         | None => throw (Thrown "Product validation failed")
         | Some fields =>
             product <- await (Product_insert fields) ;;
             ret (res_json (ProductOk (Some product)))
         end
     end)
    (fun _ => res_status_json 500 (Failure (Some "Server error"))).

Definition or_keep {A} (new : option A) (old : A) : A :=
  match new with
  | Some v => v
  | None => old
  end.

(** [updateData] applied to a stored product: keys that are [undefined] are
    left out of the update; [rating] is always written, as
    [rating ? Number(rating) : null]. *)
Definition apply_update (b : ProductBody) (image : option string) (p : Product) : Product :=
  mkProduct (p_id p)
    (or_keep (b_name b) (p_name p))
    (or_keep (b_price b) (p_price p))
    (or_keep (b_category b) (p_category p))
    (or_keep (b_description b) (p_description p))
    (or_keep image (p_image p))
    (or_keep (b_size b) (p_size p))
    (or_keep (b_brand b) (p_brand p))
    (rating_or_null (b_rating b))
    (or_keep (b_color b) (p_color p))
    (p_createdAt p).

(** [PUT /products/:id]. *)
Definition put_products (id : ObjectId) (file : option string) (b : ProductBody) : Handler :=
  try_catch
    (updatedProduct <- await (fun s =>
        let hit p := Nat.eqb (p_id p) id in
        let change := apply_update b (image_path file (b_imageUrl b)) in
        (option_map change (find hit (products s)),
         set_products (updateOne hit change (products s)) s)) ;;
     ret (res_json (ProductOk updatedProduct)))
    (fun _ => res_status_json 500 (Failure (Some "Server error"))).

(** [Model.findByIdAndDelete]: the first matching document is removed. *)
Fixpoint deleteOne {A} (cond : A -> bool) (l : list A) : list A :=
  match l with
  | [] => []
  | x :: rest => if cond x then rest else x :: deleteOne cond rest
  end.

(** [DELETE /products/:id]. *)
Definition delete_products (id : ObjectId) : Handler :=
  try_catch
    (deleted <- await (fun s =>
        let hit p := Nat.eqb (p_id p) id in
        (find hit (products s), set_products (deleteOne hit (products s)) s)) ;;
     match deleted with
     | None => ret (res_status_json 404 (Failure (Some "Product not found")))
     | Some _ => ret (res_json Success)
     end)
    (fun err => res_status_json 500 (Failure (Some (err_message err)))).

(** ** The routes that call into the platform *)

Section Platform.

(** [bcrypt.hash(password, 10)] and [bcrypt.compare(password, hash)]. *)
Variable bcrypt_hash : string -> string.
Variable bcrypt_compare : string -> string -> bool.

(** [new RegExp(source, "i")] together with the matching the store does with
    it: the message of the [SyntaxError] when the constructor throws,
    otherwise the test of a text against the expression. *)
Variable RegExp_i : string -> string + (string -> bool).

(** [decodeURIComponent(text)]; [None] when it throws a [URIError]. *)
Variable decodeURIComponent : string -> option string.

(** [GET /api/profile/:email]; [param] is [req.params.email]. *)
Definition get_profile (param : string) : Handler :=
  try_catch
    (match decodeURIComponent param with
     | None => throw (Thrown "URI malformed")
     | Some email =>
         profile <- await (query (Profile_findOne email)) ;;
         user <- await (query (User_findOne email)) ;;
         match profile with
         | Some p => ret (res_json (ProfileOk None p))
         | None =>
             p <- await (Profile_insert (fun id =>
                    mkProfile id (Some (name_or_placeholder user)) email
                      (Some "") (Some ""))) ;;
             ret (res_json (ProfileOk None p))
         end
     end)
    (fun _ => res_status_json 500 (Failure (Some "Server error"))).

(** [PUT /api/profile/:email { name, phone, address }].  An update whose
    [$set] holds only an [undefined] name is empty, and Mongoose sends no
    empty update to the store: without a name the third operation does not
    take place. *)
Definition put_profile (param : string) (name phone address : option string) : Handler :=
  try_catch
    (match decodeURIComponent param with
     | None => throw (Thrown "URI malformed")
     | Some email =>
         profile <- await (query (Profile_findOne email)) ;;
         saved <- await (match profile with
                         | None =>
                             Profile_insert (fun id => mkProfile id name email phone address)
                         | Some p =>
                             Profile_save (mkProfile (pr_id p) name (pr_email p) phone address)
                         end) ;;
         match name with
         | Some n =>
             await (command (fun s =>
               set_users (updateOne (has_email email) (fun u => set_name u n) (users s)) s))
         | None => ret tt
         end ;;;
         ret (res_json (ProfileOk (Some "Profile updated successfully") saved))
     end)
    (fun _ => res_status_json 500 (Failure (Some "Server error"))).

(** [GET /products]. *)
Definition get_products (q : ProductQuery) : Handler :=
  try_catch
    (colorRegex <- match truthy (color q) with
                   | None => ret None
                   | Some c =>
                       match RegExp_i ("^" ++ c ++ "$")%string with
                       | inr test => ret (Some test)
                       | inl message => throw (Thrown message)
                       end
                   end ;;
     let filter := mkProductFilter (truthy (category q)) (truthy (size q))
                     (truthy (brand q)) colorRegex (rating q)
                     (priceMin q) (priceMax q) in
     found <- await (query (Product_find filter)) ;;
     ret (res_json (ProductArray found)))
    (fun err => res_status_json 500 (Failure (Some (err_message err)))).

(** [new User({ name, email, password, role }).save()]: [name] and [email]
    are required, [role] defaults to "user", the arrays to [[]]. *)
Definition new_user (name email hashed : string) (role : option string)
    : option (ObjectId -> User) :=
  if String.eqb name "" || String.eqb email "" then None
  else Some (fun id =>
         mkUser id name email hashed
           (match role with Some r => r | None => "user" end) [] (Some [])).

Definition User_insert (fields : ObjectId -> User) (s : Store) : User * Store :=
  let u := fields (nextId s) in
  (u, bump_id (set_users (users s ++ [u]) s)).

(** [POST /signup { name, email, password, confirm, role }]. *)
Definition post_signup (name email password confirm : string) (role : option string)
    : Handler :=
  try_catch
    (if negb (String.eqb password confirm)
     then ret (res_status_json 400 (Failure (Some "Passwords do not match")))
     else
       exists_ <- await (query (User_findOne email)) ;;
       match exists_ with
       | Some _ => ret (res_status_json 409 (Failure (Some "Email already exists")))
       | None =>
           let hashed := bcrypt_hash password in
           match new_user name email hashed role with
           | None => throw (Thrown "User validation failed")
           | Some fields =>
               newUser <- await (User_insert fields) ;;
               ret (res_json (SuccessRole (Some (u_role newUser))))
           end
       end)
    (fun _ => res_status_json 500 (Failure (Some "Server error"))).

(** [user.isFirstLogin]: [UserSchema] declares no such path, so on a User
    document the property is [undefined]. *)
Definition isFirstLogin (u : User) : option bool := None.

(** [user.role !== role]. *)
Definition role_differs (u : User) (role : option string) : bool :=
  match role with
  | Some r => negb (String.eqb (u_role u) r)
  | None => true
  end.

Definition is_true (b : option bool) : bool :=
  match b with
  | Some true => true
  | _ => false
  end.

(** [POST /login { email, password, role }]. *)
Definition post_login (email password : string) (role : option string) : Handler :=
  try_catch
    (user <- await (query (User_findOne email)) ;;
     match user with
     | None => ret (res_status_json 404 (Failure (Some "User not found")))
     | Some u =>
         if negb (bcrypt_compare password (u_password u))
         then ret (res_status_json 401 (Failure (Some "Invalid password")))
         else if role_differs u role
         then ret (res_status_json 403
                (Failure (Some ("Incorrect role. Registered as " ++ u_role u)%string)))
         else
           let isNewUser := isFirstLogin u in
           (if is_true isNewUser
            then user_save u   (* user.isFirstLogin = false *)
            else ret tt) ;;;
           ret (res_json (LoginOk (u_role u) isNewUser))
     end)
    (fun _ => res_status_json 500 (Failure (Some "Server error"))).

(** ** The API as a whole *)

Inductive Request :=
| GetProfile (param : string)
| PutProfile (param : string) (name phone address : option string)
| PostSignup (name email password confirm : string) (role : option string)
| PostLogin (email password : string) (role : option string)
| PostWishlist (email idtext : string)
| GetWishlist (email : string)
| DeleteWishlistRemove (email idtext : string)
| GetCart (email : string)
| PostCart (email idtext : string) (q : option Z)
| DeleteCartRemove (email idtext : string)
| GetProducts (q : ProductQuery)
| GetProduct (id : ObjectId)
| PostProducts (now : Z) (file : option string) (b : ProductBody)
| PutProducts (id : ObjectId) (file : option string) (b : ProductBody)
| DeleteProducts (id : ObjectId)
| PostOrders (now : Z) (email : string) (items : list LineItem) (total : Z)
| GetOrders
| PutOrders (id : ObjectId) (st : option string)
| GetAnalytics.

Definition handle (r : Request) : Handler :=
  match r with
  | GetProfile param => get_profile param
  | PutProfile param name phone address => put_profile param name phone address
  | PostSignup name email password confirm role =>
      post_signup name email password confirm role
  | PostLogin email password role => post_login email password role
  | PostWishlist email idtext => post_wishlist email idtext
  | GetWishlist email => get_wishlist email
  | DeleteWishlistRemove email idtext => delete_wishlist_remove email idtext
  | GetCart email => get_cart email
  | PostCart email idtext q => post_cart email idtext q
  | DeleteCartRemove email idtext => delete_cart_remove email idtext
  | GetProducts q => get_products q
  | GetProduct id => get_product id
  | PostProducts now file b => post_products now file b
  | PutProducts id file b => put_products id file b
  | DeleteProducts id => delete_products id
  | PostOrders now email items total => post_orders now email items total
  | GetOrders => get_orders
  | PutOrders id st => put_orders id st
  | GetAnalytics => get_analytics
  end.

(** The store after a sequence of requests, each served over its own
    connection. *)
Fixpoint serve (rs : list (Request * Conn)) (s : Store) : Store :=
  match rs with
  | [] => s
  | (r, conn) :: rest => serve rest (snd (handle r conn s))
  end.

End Platform.

(** ** Vocabulary of the statements *)

(** A product reference resolves when the catalog holds a product with that
    id; otherwise it dangles. *)
Definition resolves (s : Store) (id : ObjectId) : bool :=
  match Product_findById id s with
  | Some _ => true
  | None => false
  end.

(** The cart line a stored item denotes under the current catalog. *)
Definition line_of (s : Store) (item : CartItem) : option CartLine :=
  option_map (fun p => mkCartLine (p_id p) (p_name p) (p_price p) (quantity item))
             (Product_findById (productId item) s).

Definition is_some {A} (o : option A) : bool :=
  match o with
  | Some _ => true
  | None => false
  end.

(** The stored, hydrated cart of the user registered under [email]. *)
Definition cart_of (email : string) (s : Store) : option (list CartItem) :=
  option_map hydrated_cart (User_findOne email s).

Definition refs (c : list CartItem) : list ObjectId := map productId c.

(** What [DELETE /cart/remove] keeps of a stored cart: the entries that
    resolve and whose id does not print as the text of the request. *)
Definition survives (s : Store) (idtext : string) (item : CartItem) : bool :=
  resolves s (productId item) && negb (String.eqb (toString (productId item)) idtext).

(** The part of an order that is fixed when the order is created. *)
Definition frozen (o : Order) : ObjectId * ObjectId * list OrderLine * Z * Z :=
  (o_id o, userId o, o_products o, totalAmount o, o_createdAt o).

(** [s'] holds the orders of [s], in place and with their fixed part intact,
    followed by the orders created since. *)
Definition orders_grow (s s' : Store) : Prop :=
  exists created, map frozen (orders s') = map frozen (orders s) ++ created.

(** The values [OrderSchema.status] enumerates. *)
Definition order_statuses : list string := ["Pending"; "Shipped"; "Delivered"].

(** A triple for handler computations: from a store satisfying [P], the
    computation either returns a value and a store satisfying [Q], or throws
    leaving a store satisfying [E], whatever the connection does. *)
Definition hoare {A} (P : Store -> Prop) (m : M A) (Q : A -> Store -> Prop)
    (E : Store -> Prop) : Prop :=
  forall conn k s, P s ->
    match m conn (k, s) with
    | (inr a, (_, s')) => Q a s'
    | (inl _, (_, s')) => E s'
    end.

(** The order line that snapshots the current name and price of the
    product a line item refers to. *)
Definition snapshot (s : Store) (item : LineItem) : option OrderLine :=
  option_map (fun p => mkOrderLine (p_id p) (p_name p) (p_price p) (li_quantity item))
             (Product_findById (li_productId item) s).

(** The profile stored under [email] has exactly these fields. *)
Definition profile_is (s : Store) (email : string) (name phone address : option string)
    : Prop :=
  exists p, Profile_findOne email s = Some p
            /\ pr_email p = email /\ pr_name p = name
            /\ pr_phone p = phone /\ pr_address p = address.

(** The first two steps of [PUT /api/profile/:email]: the profile is found
    or not, then written. *)
Definition profile_written (s : Store) (email : string) (name phone address : option string)
    : Profile * Store :=
  match Profile_findOne email s with
  | None => Profile_insert (fun id => mkProfile id name email phone address) s
  | Some p => Profile_save (mkProfile (pr_id p) name (pr_email p) phone address) s
  end.

(** A connection on which the first two store operations of a request
    succeed and the third one rejects. *)
Definition fails_third : Conn :=
  fun k => if Nat.eqb k 2 then Some "connection closed" else None.

(** Case-insensitive equality of texts: equality after lower-casing the
    letters A to Z. *)
Definition lower (c : ascii) : ascii :=
  let n := nat_of_ascii c in
  if Nat.leb 65 n && Nat.leb n 90 then ascii_of_nat (n + 32) else c.

Fixpoint ci_eqb (a b : string) : bool :=
  match a, b with
  | EmptyString, EmptyString => true
  | String x a', String y b' => Ascii.eqb (lower x) (lower y) && ci_eqb a' b'
  | _, _ => false
  end.

(** The products a query asks for, in the words of the specification: exact
    match on category, size and brand, case-insensitive exact match on
    color, a minimum on rating, an inclusive range on price; a parameter
    that is absent (or empty) does not constrain. *)
Definition satisfies (q : ProductQuery) (p : Product) : bool :=
  unless_absent (truthy (category q)) (fun c => String.eqb (p_category p) c)
  && unless_absent (truthy (size q)) (fun v => String.eqb (p_size p) v)
  && unless_absent (truthy (brand q)) (fun v => String.eqb (p_brand p) v)
  && unless_absent (truthy (color q)) (fun c => ci_eqb c (p_color p))
  && unless_absent (rating q)
       (fun r => match p_rating p with Some x => (r <=? x)%Z | None => false end)
  && unless_absent (priceMin q) (fun lo => (lo <=? p_price p)%Z)
  && unless_absent (priceMax q) (fun hi => (p_price p <=? hi)%Z).

(** The query [?color=c]. *)
Definition by_color (c : string) : ProductQuery :=
  mkProductQuery None None None None None None (Some c).

(** ** Vocabulary of the further properties *)

(** The routes that only read: every [GET] but the profile read, which
    creates a missing profile. *)
Definition read_only (r : Request) : bool :=
  match r with
  | GetWishlist _ | GetCart _ | GetProducts _ | GetProduct _ | GetOrders
  | GetAnalytics => true
  | _ => false
  end.

(** The routes that can change each collection. *)
Definition writes_users (r : Request) : bool :=
  match r with
  | PutProfile _ _ _ _ | PostSignup _ _ _ _ _ | PostWishlist _ _
  | DeleteWishlistRemove _ _ | PostCart _ _ _ | DeleteCartRemove _ _ => true
  | _ => false
  end.

Definition writes_products (r : Request) : bool :=
  match r with
  | PostProducts _ _ _ | PutProducts _ _ _ | DeleteProducts _ => true
  | _ => false
  end.

Definition writes_orders (r : Request) : bool :=
  match r with
  | PostOrders _ _ _ _ | PutOrders _ _ => true
  | _ => false
  end.

Definition writes_profiles (r : Request) : bool :=
  match r with
  | GetProfile _ | PutProfile _ _ _ _ => true
  | _ => false
  end.

(** The ids of a collection are pairwise distinct and were all drawn from
    the counter. *)
Definition ids_ok (next : ObjectId) (ids : list ObjectId) : Prop :=
  NoDup ids /\ Forall (fun id => id < next) ids.

Definition store_wf (s : Store) : Prop :=
  ids_ok (nextId s) (map u_id (users s))
  /\ ids_ok (nextId s) (map p_id (products s))
  /\ ids_ok (nextId s) (map o_id (orders s))
  /\ ids_ok (nextId s) (map pr_id (profiles s)).

(** No two users are registered under one email. *)
Definition emails_unique (s : Store) : Prop := NoDup (map u_email (users s)).

(** No wishlist holds a reference twice. *)
Definition wishlist_inv (s : Store) : Prop :=
  Forall (fun u => NoDup (u_wishlist u)) (users s).

(** A text that is the way its id prints: 24 hexadecimal digits, letters in
    lower case. *)
Definition canonical (idtext : string) : bool :=
  match castObjectId idtext with
  | Some id => String.eqb (toString id) idtext
  | None => false
  end.

(** A request that, if it adds to a wishlist, names the product by the text
    its id prints as. *)
Definition adds_canonically (r : Request) : bool :=
  match r with
  | PostWishlist _ idtext => canonical idtext
  | _ => true
  end.

(** The invariant of the users collection; the part about wishlists is
    carried along when [w] is set. *)
Definition users_inv (w : bool) (s : Store) : Prop :=
  store_wf s /\ emails_unique s /\ (w = true -> wishlist_inv s).

(** The magnitudes of these numbers add up to at most 2^53, so that every
    sum of some of them is exact in double arithmetic. *)
Definition exactly_summable (l : list Z) : Prop :=
  (fold_right (fun x acc => Z.abs x + acc) 0 l <= 2 ^ 53)%Z.

(** The role a signup stores: the one sent, or the schema default. *)
Definition stored_role (role : option string) : string :=
  match role with
  | Some r => r
  | None => "user"
  end.

(** The store after a user with these fields was inserted. *)
Definition with_new_user (s : Store) (name email hashed : string) (role : option string)
    : Store :=
  bump_id (set_users
    (users s ++ [mkUser (nextId s) name email hashed (stored_role role) [] (Some [])]) s).

(** The stored wishlist of the user registered under [email]. *)
Definition wishlist_of (email : string) (s : Store) : option (list ObjectId) :=
  option_map u_wishlist (User_findOne email s).

(** The lines of a cart answer. *)
Definition lines_of (r : Response) : list CartLine :=
  match body r with
  | CartArray l => l
  | _ => []
  end.

(** A list of orders runs from the newest to the oldest. *)
Definition newest_first (l : list Order) : Prop :=
  StronglySorted (fun a b => (o_createdAt b <= o_createdAt a)%Z) l.

(** The orders of an order listing. *)
Definition listed_orders (r : Response) : list (Order * option string) :=
  match body r with
  | OrderArray l => l
  | _ => []
  end.

(** The figures of an analytics answer. *)
Definition figures (r : Response) : option Analytics :=
  match body r with
  | AnalyticsDoc a => Some a
  | _ => None
  end.

(** [s'] holds the users of [s], in place and under their ids, followed by
    the users that signed up since. *)
Definition users_grow (s s' : Store) : Prop :=
  exists signed_up, map u_id (users s') = map u_id (users s) ++ signed_up.

(** Every order belongs to a stored user. *)
Definition owners_exist (s : Store) : Prop :=
  Forall (fun o => In (userId o) (map u_id (users s))) (orders s).

(** ** Stand-ins for the platform, used in the examples *)

Module Standin.

Definition bcrypt_hash (password : string) : string := ("$2a$10$" ++ password)%string.

Definition bcrypt_compare (password hash : string) : bool :=
  String.eqb (bcrypt_hash password) hash.

(** Percent-decoding of the escapes of ASCII characters.  A [%] that is not
    followed by two hexadecimal digits is malformed, as it is for the real
    function; the escape of a byte beyond 127, which the real function
    reads as part of a UTF-8 sequence, is rejected here. *)
Fixpoint decodeURIComponent (t : string) : option string :=
  match t with
  | EmptyString => Some EmptyString
  | String "%" (String a (String b rest)) =>
      match hex_value a, hex_value b with
      | Some x, Some y =>
          if Nat.ltb (16 * x + y) 128
          then option_map (String (ascii_of_nat (16 * x + y))) (decodeURIComponent rest)
          else None
      | _, _ => None
      end
  | String "%" _ => None
  | String c rest => option_map (String c) (decodeURIComponent rest)
  end.

(** A regular-expression engine for the expressions [^...$] whose body is
    made of plain characters, [.] and a [*] after either; it rejects every
    other expression.  Matching ignores the case of letters. *)
Inductive atom :=
| Lit (c : ascii)
| AnyChar.

Inductive item :=
| One (a : atom)
| Many (a : atom).

Definition is_meta (c : ascii) : bool :=
  existsb (Ascii.eqb c)
    ["092"; "^"; "$"; "."; "|"; "?"; "*"; "+"; "("; ")"; "["; "]"; "{"; "}"]%char.

Definition atom_of (c : ascii) : option atom :=
  if Ascii.eqb c "." then Some AnyChar
  else if is_meta c then None
  else Some (Lit c).

Definition atom_ok (a : atom) (c : ascii) : bool :=
  match a with
  | Lit d => Ascii.eqb (lower d) (lower c)
  | AnyChar => negb (Ascii.eqb c "010")
  end.

Fixpoint parse_items (src : string) : option (list item) :=
  match src with
  | EmptyString => None
  | String c rest =>
      if Ascii.eqb c "$"
      then match rest with
           | EmptyString => Some []
           | _ => None
           end
      else match atom_of c with
           | None => None
           | Some a =>
               match rest with
               | String next rest' =>
                   if Ascii.eqb next "*"
                   then option_map (cons (Many a)) (parse_items rest')
                   else option_map (cons (One a)) (parse_items rest)
               | EmptyString => None
               end
           end
  end.

Fixpoint match_items (p : list item) (t : string) : bool :=
  match p with
  | [] => match t with EmptyString => true | _ => false end
  | One a :: p' =>
      match t with
      | String c t' => atom_ok a c && match_items p' t'
      | EmptyString => false
      end
  | Many a :: p' =>
      (fix star (t : string) : bool :=
         match_items p' t
         || match t with
            | String c t' => atom_ok a c && star t'
            | EmptyString => false
            end) t
  end.

(** A text without any character that is special in an expression. *)
Fixpoint plain (c : string) : bool :=
  match c with
  | EmptyString => true
  | String a c' => negb (is_meta a) && plain c'
  end.

Fixpoint literally (c : string) : list item :=
  match c with
  | EmptyString => []
  | String a c' => One (Lit a) :: literally c'
  end.

Definition RegExp_i (source : string) : string + (string -> bool) :=
  match source with
  | String "^" body =>
      match parse_items body with
      | Some p => inr (match_items p)
      | None => inl "Invalid regular expression"
      end
  | _ => inl "Invalid regular expression"
  end.

End Standin.

(** ** Sample data *)

Module Sample.

Definition runner : Product :=
  mkProduct 1 "Runner" 100 "women" "" "/uploads/runner.png" "7" "Acme" (Some 4%Z) "red" 0.

Definition boot : Product :=
  mkProduct 2 "Boot" 200 "women" "" "/uploads/boot.png" "8" "Acme" None "Black" 0.

(** A product whose id prints with a letter: "00000000000000000000000b". *)
Definition clog : Product :=
  mkProduct 11 "Clog" 50 "kids" "" "/uploads/clog.png" "3" "Acme" (Some 5%Z) "green" 0.

Definition email : string := "alice@shoekart.test".

Definition alice (cart : list CartItem) (wishlist : list ObjectId) : User :=
  mkUser 10 "Alice" email "$2a$10$abcdefghijklmnopqrstuv" "user" wishlist (Some cart).

(** A shop with two products and one customer; no product has id 3. *)
Definition shop (cart : list CartItem) (wishlist : list ObjectId) : Store :=
  mkStore [alice cart wishlist] [runner; boot] [] [] 20.

(** The same shop with the clog in the catalog as well. *)
Definition shop_with_clog (cart : list CartItem) (wishlist : list ObjectId) : Store :=
  mkStore [alice cart wishlist] [runner; boot; clog] [] [] 20.

(** The shop after Alice's profile was updated with an empty name: the
    update has pushed the empty name to her user record. *)
Definition shop_after_empty_name (cart : list CartItem) : Store :=
  snd (put_profile Standin.decodeURIComponent email (Some "") None None healthy
         (shop cart [])).

(** An order Alice placed for two pairs of the runner. *)
Definition order : Order :=
  mkOrder 30 10 [mkOrderLine 1 "Runner" 100 2] 200 "Pending" 5.

Definition shop_with_order : Store :=
  mkStore [alice [] []] [runner; boot] [order] [] 40.

End Sample.

(** * Properties *)

Ltac run_handler :=
  cbv beta delta [try_catch bind await query command ret throw user_save] ; cbn beta iota.

(** ** Lookups *)

Lemma Product_findById_id (s : Store) (id : ObjectId) (p : Product) :
  Product_findById id s = Some p -> p_id p = id.
Proof.
  unfold Product_findById. intro H.
  apply find_some in H. destruct H as [_ H].
  now apply Nat.eqb_eq in H.
Qed.

Lemma User_findOne_email (s : Store) (email : string) (u : User) :
  User_findOne email s = Some u -> u_email u = email.
Proof.
  unfold User_findOne, has_email. intro H.
  apply find_some in H. destruct H as [_ H].
  now apply String.eqb_eq in H.
Qed.

(** ** Reading the cart *)

Lemma cleanedCart_populate (s : Store) (c : list CartItem) :
  map Some (cleanedCart (populate_cart s c)) = filter is_some (map (line_of s) c).
Proof.
  induction c as [|item c IH]; [reflexivity|].
  cbn [populate_cart map cleanedCart pi_productId pi_quantity filter].
  fold (populate_cart s c).
  unfold line_of at 1 2.
  destruct (Product_findById (productId item) s); cbn [option_map is_some map].
  - now rewrite IH.
  - exact IH.
Qed.

Lemma cleanedCart_resolves (s : Store) (c : list CartItem) :
  Forall (fun l => resolves s (cl_id l) = true) (cleanedCart (populate_cart s c)).
Proof.
  induction c as [|item c IH]; [constructor|].
  cbn [populate_cart map cleanedCart pi_productId pi_quantity].
  fold (populate_cart s c).
  destruct (Product_findById (productId item) s) as [p|] eqn:E; [|exact IH].
  constructor; [|exact IH]. cbn [cl_id]. unfold resolves.
  rewrite (Product_findById_id _ _ _ E). now rewrite E.
Qed.

(** C1.  [GET /cart/:email] always answers 200 with a bare array and leaves
    the store alone, whatever the connection does.  The array is empty when
    the store rejects, when no user has the email, and when the stored user
    has no cart array; otherwise it lists, in order, the lines of exactly
    those stored entries whose product reference resolves, so that no
    dangling reference ever shows up in it. *)
Theorem get_cart_always_array (conn : Conn) (email : string) (s : Store) :
  exists lines,
    get_cart email conn s = (mkResponse 200 (CartArray lines), s)
    /\ is_array (body (fst (get_cart email conn s))) = true
    /\ Forall (fun l => resolves s (cl_id l) = true) lines
    /\ (conn 0 <> None -> lines = [])
    /\ (User_findOne email s = None -> lines = [])
    /\ (forall u, User_findOne email s = Some u -> u_cart u = None -> lines = [])
    /\ (forall u c, conn 0 = None -> User_findOne email s = Some u ->
          u_cart u = Some c ->
          map Some lines = filter is_some (map (line_of s) c)).
Proof.
  unfold get_cart. run_handler.
  destruct (conn 0) as [msg|] eqn:Hc.
  - exists []. repeat split; try reflexivity; try constructor; intros; congruence.
  - destruct (User_findOne email s) as [u|] eqn:Hu; simpl.
    + destruct (u_cart u) as [c|] eqn:Hcart; simpl.
      * exists (cleanedCart (populate_cart s c)).
        repeat split; try reflexivity; try congruence.
        -- apply cleanedCart_resolves.
        -- intros u' c' _ Hu' Hc'. inversion Hu'; subst u'.
           rewrite Hcart in Hc'. inversion Hc'; subst c'.
           apply cleanedCart_populate.
      * exists []. repeat split; try reflexivity; try constructor; intros; congruence.
    + exists []. repeat split; try reflexivity; try constructor; intros; congruence.
Qed.

(** ** Arrays *)

Lemma findIndex_None {A} (f : A -> bool) (l : list A) :
  findIndex f l = None <-> (forall x, In x l -> f x = false).
Proof.
  induction l as [|a l IH]; simpl.
  - split; [intros _ x []|reflexivity].
  - destruct (f a) eqn:Fa.
    + split; [discriminate|]. intro H. rewrite (H a) in Fa by now left. discriminate.
    + destruct (findIndex f l) as [i|]; simpl.
      * split; [discriminate|]. intro H.
        assert (Hn : @None nat = None) by reflexivity.
        destruct IH as [_ IH]. discriminate IH. intros x Hx. apply H. now right.
      * split; [|reflexivity]. intros _ x [<-|Hx]; [exact Fa|].
        destruct IH as [IH _]. now apply IH.
Qed.

Lemma findIndex_Some {A} (f : A -> bool) (g : A -> A) (l : list A) (i : nat) :
  findIndex f l = Some i ->
  exists l1 x l2,
    l = l1 ++ x :: l2 /\ f x = true /\ (forall y, In y l1 -> f y = false)
    /\ update_at i g l = l1 ++ g x :: l2.
Proof.
  revert i. induction l as [|a l IH]; simpl; [discriminate|].
  intros i. destruct (f a) eqn:Fa.
  - intros [= <-]. exists [], a, l. repeat split; auto. intros y [].
  - destruct (findIndex f l) as [j|]; simpl; [|discriminate].
    intros [= <-]. destruct (IH j eq_refl) as (l1 & x & l2 & -> & Fx & Hl1 & Hu).
    exists (a :: l1), x, l2. simpl. repeat split; auto.
    + intros y [<-|Hy]; auto.
    + now rewrite Hu.
Qed.

(** ** The text of an id *)

Lemma hex_value_digit (d : nat) : d < 16 -> hex_value (hex_digit d) = Some d.
Proof.
  intro H. do 16 (destruct d as [|d]; [reflexivity|]). lia.
Qed.

Lemma hex_digits_lt (fuel n : nat) : Forall (fun d => d < 16) (hex_digits fuel n).
Proof.
  revert n. induction fuel as [|fuel IH]; intro n; cbn [hex_digits]; [constructor|].
  destruct (Nat.eqb n 0); [constructor|]. constructor; [|apply IH].
  apply Nat.mod_upper_bound. discriminate.
Qed.

Lemma of_hex_digits_hex_digits (fuel n : nat) :
  n <= fuel -> of_hex_digits (hex_digits fuel n) = n.
Proof.
  revert n. induction fuel as [|fuel IH]; intros n H; cbn [hex_digits].
  - cbn. lia.
  - destruct (Nat.eqb n 0) eqn:E; [apply Nat.eqb_eq in E; cbn; lia|].
    apply Nat.eqb_neq in E. cbn [of_hex_digits]. rewrite IH.
    + pose proof (Nat.div_mod_eq n 16). lia.
    + assert (n / 16 < n) by (apply Nat.div_lt; lia). lia.
Qed.

Lemma of_hex_digits_pad (ds : list nat) (k : nat) :
  of_hex_digits (ds ++ repeat 0 k) = of_hex_digits ds.
Proof.
  induction ds as [|d ds IH]; cbn [app of_hex_digits].
  - induction k as [|k IHk]; cbn; [reflexivity|]. cbn in IHk. lia.
  - now rewrite IH.
Qed.

Lemma hex_values_digits (ds : list nat) :
  Forall (fun d => d < 16) ds -> hex_values (map hex_digit ds) = Some ds.
Proof.
  induction 1 as [|d ds Hd Hds IH]; [reflexivity|].
  cbn [map hex_values]. now rewrite (hex_value_digit d Hd), IH.
Qed.

Lemma hex_values_toString (id : ObjectId) :
  hex_values (list_ascii_of_string (toString id)) = Some (rev (pad24 (hex_digits id id))).
Proof.
  unfold toString. rewrite list_ascii_of_string_of_list_ascii.
  apply hex_values_digits, Forall_rev. unfold pad24. apply Forall_app.
  split; [apply hex_digits_lt|].
  apply Forall_forall. intros x Hx. apply repeat_spec in Hx. lia.
Qed.

(** The text an id prints as denotes that id and no other. *)
Lemma castObjectId_toString (id pid : ObjectId) :
  castObjectId (toString id) = Some pid -> pid = id.
Proof.
  unfold castObjectId. destruct (Nat.eqb (String.length (toString id)) 24); [|discriminate].
  rewrite hex_values_toString. cbn [option_map]. intros [= <-].
  rewrite rev_involutive. unfold pad24.
  now rewrite of_hex_digits_pad, of_hex_digits_hex_digits.
Qed.

(** Two ids that print the same are the same. *)
Lemma toString_inj (id id' : ObjectId) : toString id = toString id' -> id = id'.
Proof.
  intro H.
  assert (H1 : Some (rev (pad24 (hex_digits id id)))
               = Some (rev (pad24 (hex_digits id' id')))).
  { rewrite <- !hex_values_toString. now rewrite H. }
  injection H1 as H1. apply (f_equal (@rev nat)) in H1. rewrite !rev_involutive in H1.
  apply (f_equal of_hex_digits) in H1. unfold pad24 in H1.
  now rewrite !of_hex_digits_pad, !of_hex_digits_hex_digits in H1.
Qed.

Lemma toString_cast (id pid : ObjectId) (idtext : string) :
  toString id = idtext -> castObjectId idtext = Some pid -> id = pid.
Proof. intros <- H. symmetry. now apply castObjectId_toString. Qed.

Lemma canonical_printed (idtext : string) (pid : ObjectId) :
  castObjectId idtext = Some pid -> canonical idtext = true -> idtext = toString pid.
Proof.
  unfold canonical. intros ->. intro H. symmetry. now apply String.eqb_eq.
Qed.

Lemma round_double_exact (z : Z) : (Z.abs z <= 2 ^ 53)%Z -> round_double z = z.
Proof.
  intro H. unfold round_double. cbv zeta.
  destruct (Z.abs z <=? 2 ^ 53)%Z eqn:E; [reflexivity|].
  apply Z.leb_gt in E. lia.
Qed.

(** ** Adding to the cart *)

Lemma is_for_id (idtext : string) (pid : ObjectId) (item : CartItem) :
  castObjectId idtext = Some pid -> is_for idtext item = true -> productId item = pid.
Proof.
  unfold is_for. intros Hc H. apply String.eqb_eq in H. now apply toString_cast with idtext.
Qed.

Lemma is_for_printed (pid : ObjectId) (item : CartItem) :
  is_for (toString pid) item = Nat.eqb (productId item) pid.
Proof.
  unfold is_for. destruct (Nat.eqb (productId item) pid) eqn:E.
  - apply Nat.eqb_eq in E. rewrite E. apply String.eqb_refl.
  - apply String.eqb_neq. intro H. apply toString_inj in H. apply Nat.eqb_neq in E.
    contradiction.
Qed.

(** No entry of a cart without the product prints as a text that denotes
    the product. *)
Lemma no_entry_absent (idtext : string) (pid : ObjectId) (c : list CartItem) :
  castObjectId idtext = Some pid -> ~ In pid (refs c) ->
  forall x, In x c -> is_for idtext x = false.
Proof.
  intros Hc Hn x Hx. destruct (is_for idtext x) eqn:E; [|reflexivity].
  exfalso. apply Hn. rewrite <- (is_for_id _ _ _ Hc E). unfold refs. now apply in_map.
Qed.

(** No entry at all prints as a text that spells its id in another way than
    the id prints. *)
Lemma no_entry_other_spelling (idtext : string) (pid : ObjectId) (c : list CartItem) :
  castObjectId idtext = Some pid -> idtext <> toString pid ->
  forall x, In x c -> is_for idtext x = false.
Proof.
  intros Hc Hn x _. destruct (is_for idtext x) eqn:E; [|reflexivity].
  exfalso. apply Hn. pose proof (is_for_id _ _ _ Hc E) as Hid.
  unfold is_for in E. apply String.eqb_eq in E. now rewrite <- Hid.
Qed.

Lemma cart_add_no_entry (idtext : string) (pid : ObjectId) (q : option Z)
    (c : list CartItem) :
  castObjectId idtext = Some pid ->
  (forall x, In x c -> is_for idtext x = false) ->
  cart_add idtext q c = Some (c ++ [mkCartItem pid (or_one q)]).
Proof.
  intros Hc H. unfold cart_add.
  now rewrite (proj2 (findIndex_None _ c) H), Hc.
Qed.

Lemma cart_add_entry (idtext : string) (pid : ObjectId) (q : option Z)
    (c : list CartItem) (i : nat) :
  castObjectId idtext = Some pid ->
  findIndex (is_for idtext) c = Some i ->
  exists before item after,
    c = before ++ item :: after /\ productId item = pid /\ toString pid = idtext
    /\ (forall x, In x before -> is_for idtext x = false)
    /\ cart_add idtext q c
       = Some (before ++ mkCartItem pid (double_add (quantity item) (or_one q)) :: after).
Proof.
  intros Hc E. unfold cart_add. rewrite E.
  destruct (findIndex_Some _ (add_quantity (or_one q)) _ _ E)
    as (l1 & x & l2 & Hl & Hx & Hl1 & Hu).
  pose proof (is_for_id _ _ _ Hc Hx) as Hid.
  exists l1, x, l2. repeat split; auto.
  - unfold is_for in Hx. apply String.eqb_eq in Hx. now rewrite <- Hid.
  - rewrite Hu. unfold add_quantity. now rewrite Hid.
Qed.

Lemma cart_add_present (pid : ObjectId) (q : option Z) (c : list CartItem) :
  In pid (refs c) ->
  exists before item after,
    c = before ++ item :: after /\ productId item = pid /\ ~ In pid (refs before)
    /\ cart_add (toString pid) q c
       = Some (before ++ mkCartItem pid (double_add (quantity item) (or_one q)) :: after).
Proof.
  intro H. unfold cart_add.
  destruct (findIndex (is_for (toString pid)) c) as [i|] eqn:E.
  - destruct (findIndex_Some _ (add_quantity (or_one q)) _ _ E)
      as (l1 & x & l2 & Hc & Hx & Hl1 & Hu).
    rewrite is_for_printed in Hx. apply Nat.eqb_eq in Hx.
    exists l1, x, l2. repeat split; auto.
    + intro Hin. unfold refs in Hin. apply in_map_iff in Hin.
      destruct Hin as (y & Hy & Hin). specialize (Hl1 y Hin).
      rewrite is_for_printed, Hy, Nat.eqb_refl in Hl1. discriminate.
    + rewrite Hu. unfold add_quantity. now rewrite Hx.
  - exfalso. pose proof (proj1 (findIndex_None _ c) E) as E1.
    unfold refs in H. apply in_map_iff in H. destruct H as (y & Hy & Hin).
    specialize (E1 y Hin). rewrite is_for_printed, Hy, Nat.eqb_refl in E1. discriminate.
Qed.

(** A text that denotes [pid] adds to the cart: the outcome holds an entry
    for [pid]. *)
Lemma cart_add_refs (idtext : string) (pid : ObjectId) (q : option Z) (c : list CartItem) :
  castObjectId idtext = Some pid ->
  exists c', cart_add idtext q c = Some c' /\ In pid (refs c').
Proof.
  intro Hc. destruct (findIndex (is_for idtext) c) as [i|] eqn:E.
  - destruct (cart_add_entry idtext pid q c i Hc E) as (l1 & x & l2 & _ & _ & _ & _ & ->).
    eexists. split; [reflexivity|]. unfold refs. rewrite map_app. apply in_or_app.
    right. now left.
  - rewrite (cart_add_no_entry idtext pid q c Hc (proj1 (findIndex_None _ c) E)).
    eexists. split; [reflexivity|]. unfold refs. rewrite map_app. apply in_or_app.
    right. now left.
Qed.

(** ** Saving a user *)

Lemma hydrated_set_cart (u : User) (c : list CartItem) :
  hydrated (set_cart u c) = set_cart u c.
Proof. reflexivity. Qed.

Lemma User_findOne_save (s : Store) (email : string) (u u' : User) :
  User_findOne email s = Some u -> u_id u' = u_id u -> u_email u' = email ->
  User_findOne email (User_save u' s) = Some (hydrated u').
Proof.
  unfold User_findOne, User_save. cbn [users set_users].
  intros H Hid Hem. induction (users s) as [|v l IH]; [discriminate|].
  cbn [find map] in *.
  destruct (has_email email v) eqn:Ev.
  - injection H as ->. rewrite Hid, Nat.eqb_refl.
    unfold has_email. cbn [hydrated u_email]. now rewrite Hem, String.eqb_refl.
  - destruct (Nat.eqb (u_id v) (u_id u')) eqn:Eid.
    + unfold has_email. cbn [hydrated u_email]. now rewrite Hem, String.eqb_refl.
    + rewrite Ev. now apply IH.
Qed.

Lemma validates_true (u : User) :
  u_name u <> "" -> u_email u <> "" -> validates u = true.
Proof.
  intros Hn He. unfold validates.
  apply String.eqb_neq in Hn. apply String.eqb_neq in He. now rewrite Hn, He.
Qed.

Lemma validates_set_cart (u : User) (c : list CartItem) :
  validates (set_cart u c) = validates u.
Proof. reflexivity. Qed.

Lemma validates_set_wishlist (u : User) (w : list ObjectId) :
  validates (set_wishlist u w) = validates u.
Proof. reflexivity. Qed.

Lemma post_cart_run (s : Store) (email idtext : string) (q : option Z) (u : User)
    (cart : list CartItem) :
  User_findOne email s = Some u ->
  validates u = true ->
  cart_add idtext q (hydrated_cart u) = Some cart ->
  post_cart email idtext q healthy s
  = (res_json Success, User_save (set_cart u cart) s).
Proof.
  intros H Hv Hc. unfold post_cart. run_handler. cbn. rewrite H, Hc.
  rewrite validates_set_cart, Hv. reflexivity.
Qed.

(** A user record that fails the validation cannot be saved: the add
    answers 500 and the store stays as it is. *)
Lemma post_cart_invalid (s : Store) (email idtext : string) (q : option Z) (u : User) :
  User_findOne email s = Some u ->
  validates u = false ->
  post_cart email idtext q healthy s = (mkResponse 500 (Failure None), s).
Proof.
  intros H Hv. unfold post_cart. run_handler. cbn. rewrite H.
  destruct (cart_add idtext q (hydrated_cart u)); [|reflexivity].
  rewrite validates_set_cart, Hv. reflexivity.
Qed.

Lemma cart_of_post_cart (s : Store) (email idtext : string) (q : option Z) (u : User)
    (cart : list CartItem) :
  User_findOne email s = Some u ->
  validates u = true ->
  cart_add idtext q (hydrated_cart u) = Some cart ->
  User_findOne email (snd (post_cart email idtext q healthy s)) = Some (set_cart u cart).
Proof.
  intros H Hv Hc. rewrite (post_cart_run _ _ _ _ _ _ H Hv Hc). cbn [snd].
  rewrite <- (hydrated_set_cart u cart).
  apply (User_findOne_save s email u); [exact H|reflexivity|].
  cbn [set_cart u_email]. now apply User_findOne_email with s.
Qed.

Lemma or_one_spec (q : option Z) :
  (q = None \/ q = Some 0%Z -> or_one q = 1%Z)
  /\ (forall n, q = Some n -> n <> 0%Z -> or_one q = n).
Proof.
  split.
  - intros [->| ->]; reflexivity.
  - intros n -> Hn. destruct n; [contradiction|reflexivity|reflexivity].
Qed.

(** When the request names a product of the cart by the text its id prints
    as, the first entry for the product gets the amount added and nothing
    else changes. *)
Lemma post_cart_printed_id_merges (s : Store) (email : string) (q : option Z)
    (u : User) (pid : ObjectId) :
  User_findOne email s = Some u ->
  validates u = true ->
  In pid (refs (hydrated_cart u)) ->
  exists before item after,
    hydrated_cart u = before ++ item :: after /\ productId item = pid
    /\ ~ In pid (refs before)
    /\ cart_of email (snd (post_cart email (toString pid) q healthy s))
       = Some (before ++ mkCartItem pid (double_add (quantity item) (or_one q)) :: after).
Proof.
  intros H Hv Hin.
  destruct (cart_add_present pid q _ Hin) as (l1 & x & l2 & Hc & Hx & Hl1 & Ha).
  exists l1, x, l2. repeat split; auto.
  unfold cart_of. now rewrite (cart_of_post_cart s email _ q u _ H Hv Ha).
Qed.

(** C4.  [POST /cart] looks for the entry of the product by comparing the
    text of the request with the text each stored id prints as.  When the
    request spells the id otherwise than it prints (a letter of the
    hexadecimal text in upper case), the comparison finds no entry, whatever
    the cart holds: for a user whose record passes the validation of
    [save()] (its name and email are not empty), the handler answers success
    and appends an entry for the product.  If the cart already had an entry for that product, it now has
    two entries for one product reference, and no quantity was summed. *)
Theorem post_cart_other_spelling (s : Store) (email idtext : string) (q : option Z)
    (u : User) (pid : ObjectId) :
  User_findOne email s = Some u ->
  u_name u <> "" -> u_email u <> "" ->
  castObjectId idtext = Some pid ->
  idtext <> toString pid ->
  let cart := hydrated_cart u in
  let s' := snd (post_cart email idtext q healthy s) in
  fst (post_cart email idtext q healthy s) = mkResponse 200 Success
  /\ cart_of email s' = Some (cart ++ [mkCartItem pid (or_one q)])
  /\ (In pid (refs cart) -> ~ NoDup (refs (cart ++ [mkCartItem pid (or_one q)]))).
Proof.
  intros H Hname Hmail Hc Hn cart s'.
  pose proof (validates_true u Hname Hmail) as Hv.
  assert (Ha : cart_add idtext q cart = Some (cart ++ [mkCartItem pid (or_one q)])).
  { apply cart_add_no_entry; [exact Hc|]. now apply no_entry_other_spelling with pid. }
  split; [now rewrite (post_cart_run _ _ _ _ _ _ H Hv Ha)|]. split.
  - unfold s', cart_of. now rewrite (cart_of_post_cart s email idtext q u _ H Hv Ha).
  - intros Hin Hd. unfold refs in Hd. rewrite map_app in Hd. cbn [map productId] in Hd.
    apply NoDup_remove_2 in Hd. apply Hd. rewrite app_nil_r. exact Hin.
Qed.

(** The clog's id prints as "00000000000000000000000b".  Alice has two clogs
    in her cart and adds three more under the id with its letter in upper
    case: her cart then holds two entries for the clog. *)
Lemma post_cart_other_spelling_witness :
  User_findOne Sample.email (Sample.shop_with_clog [mkCartItem 11 2] [])
  = Some (Sample.alice [mkCartItem 11 2] [])
  /\ u_name (Sample.alice [mkCartItem 11 2] []) <> ""
  /\ u_email (Sample.alice [mkCartItem 11 2] []) <> ""
  /\ castObjectId "00000000000000000000000B" = Some 11
  /\ "00000000000000000000000B" <> toString 11
  /\ cart_of Sample.email
       (snd (post_cart Sample.email "00000000000000000000000B" (Some 3%Z) healthy
               (Sample.shop_with_clog [mkCartItem 11 2] [])))
     = Some [mkCartItem 11 2; mkCartItem 11 3].
Proof.
  assert (Hname : u_name (Sample.alice [mkCartItem 11 2] []) <> "") by (cbn; discriminate).
  assert (Hmail : u_email (Sample.alice [mkCartItem 11 2] []) <> "") by (cbn; discriminate).
  assert (Hn : "00000000000000000000000B" <> toString 11) by (vm_compute; discriminate).
  split; [reflexivity|]. split; [exact Hname|]. split; [exact Hmail|].
  split; [reflexivity|]. split; [exact Hn|].
  exact (proj1 (proj2 (post_cart_other_spelling
                         (Sample.shop_with_clog [mkCartItem 11 2] []) Sample.email
                         "00000000000000000000000B" (Some 3%Z)
                         (Sample.alice [mkCartItem 11 2] []) 11 eq_refl Hname Hmail
                         eq_refl Hn))).
Defined.

(** The same request with the id as it prints merges: one entry, with the
    quantities summed. *)
Example post_cart_printed_id_example :
  cart_of Sample.email
    (snd (post_cart Sample.email "00000000000000000000000b" (Some 3%Z) healthy
            (Sample.shop_with_clog [mkCartItem 11 2] [])))
  = Some [mkCartItem 11 5].
Proof. reflexivity. Qed.

(** A request for quantity 0 adds 1: [quantity || 1] takes the number 0 for
    an absent quantity. *)
Example post_cart_zero_quantity_adds_one :
  cart_of Sample.email
    (snd (post_cart Sample.email "000000000000000000000001" (Some 0%Z) healthy
            (Sample.shop [mkCartItem 1 2] [])))
  = Some [mkCartItem 1 3].
Proof. reflexivity. Qed.

(** ** Removing from the cart *)

Lemma filter_keeps_populate (s : Store) (idtext : string) (c : list CartItem) :
  filter (keeps idtext) (populate_cart s c) = populate_cart s (filter (survives s idtext) c).
Proof.
  induction c as [|item c IH]; [reflexivity|].
  cbn [populate_cart map filter]. fold (populate_cart s c).
  unfold keeps at 1, survives at 1, resolves. cbn [pi_productId].
  destruct (Product_findById (productId item) s) as [p|] eqn:E; cbn [andb].
  - rewrite (Product_findById_id _ _ _ E).
    destruct (negb (String.eqb (toString (productId item)) idtext)); rewrite IH;
      [|reflexivity].
    cbn [populate_cart map]. now rewrite E.
  - exact IH.
Qed.

Lemma depopulate_populate (s : Store) (c : list CartItem) :
  depopulate_cart (populate_cart s c) = c.
Proof.
  unfold depopulate_cart, populate_cart. rewrite map_map.
  induction c as [|[id n] c IH]; [reflexivity|].
  cbn [map]. rewrite IH. reflexivity.
Qed.

Lemma delete_cart_remove_run (s : Store) (email idtext : string) (u : User) :
  User_findOne email s = Some u ->
  validates u = true ->
  let kept := filter (survives s idtext) (hydrated_cart u) in
  delete_cart_remove email idtext healthy s
  = (mkResponse 200 (CartArray (cleanedCart (populate_cart s kept))),
     User_save (set_cart u kept) s).
Proof.
  intros H Hv kept. unfold delete_cart_remove. run_handler. cbn. rewrite H. cbn.
  rewrite validates_set_cart, Hv.
  now rewrite filter_keeps_populate, depopulate_populate.
Qed.

(** A user record that fails the validation cannot be saved: the remove
    lands in the handler's [catch], which answers an empty array, and the
    store stays as it is. *)
Lemma delete_cart_remove_invalid (s : Store) (email idtext : string) (u : User) :
  User_findOne email s = Some u ->
  validates u = false ->
  delete_cart_remove email idtext healthy s = (mkResponse 200 (CartArray []), s).
Proof.
  intros H Hv. unfold delete_cart_remove. run_handler. cbn. rewrite H. cbn.
  rewrite validates_set_cart, Hv. reflexivity.
Qed.

Lemma filter_idem {A} (f : A -> bool) (l : list A) : filter f (filter f l) = filter f l.
Proof.
  induction l as [|a l IH]; [reflexivity|]. cbn.
  destruct (f a) eqn:E; cbn; [rewrite E, IH|]; auto.
Qed.

Lemma filter_all {A} (f : A -> bool) (l : list A) :
  (forall x, In x l -> f x = true) -> filter f l = l.
Proof.
  induction l as [|a l IH]; [reflexivity|]. intro H. cbn.
  rewrite (H a) by now left. f_equal. apply IH. intros x Hx. apply H. now right.
Qed.

Lemma User_save_idem (u : User) (s : Store) : User_save u (User_save u s) = User_save u s.
Proof.
  unfold User_save, set_users. cbn. f_equal. rewrite map_map.
  apply map_ext. intro v. destruct (Nat.eqb (u_id v) (u_id u)) eqn:E.
  - cbn [hydrated u_id]. now rewrite Nat.eqb_refl.
  - now rewrite E.
Qed.

Lemma cleanedCart_survivors (s : Store) (idtext : string) (c : list CartItem) :
  (forall x, In x c -> is_for idtext x = false) ->
  cleanedCart (populate_cart s (filter (survives s idtext) c))
  = cleanedCart (populate_cart s c).
Proof.
  induction c as [|item c IH]; [reflexivity|]. intro H.
  assert (Hc : forall x, In x c -> is_for idtext x = false)
    by (intros x Hx; apply H; now right).
  assert (Hi : String.eqb (toString (productId item)) idtext = false)
    by (apply (H item); now left).
  cbn [filter]. unfold survives at 1, resolves. rewrite Hi.
  cbn [populate_cart map cleanedCart pi_productId]. fold (populate_cart s c).
  destruct (Product_findById (productId item) s) as [p|] eqn:E; cbn [andb negb].
  - cbn [populate_cart map cleanedCart pi_productId pi_quantity].
    rewrite E. fold (populate_cart s (filter (survives s idtext) c)). now rewrite IH.
  - now apply IH.
Qed.

Lemma cart_of_delete_cart_remove (s : Store) (email idtext : string) (u : User) :
  User_findOne email s = Some u ->
  validates u = true ->
  User_findOne email (snd (delete_cart_remove email idtext healthy s))
  = Some (set_cart u (filter (survives s idtext) (hydrated_cart u))).
Proof.
  intros H Hv. rewrite (delete_cart_remove_run _ _ _ _ H Hv). cbn [snd].
  rewrite <- (hydrated_set_cart u (filter (survives s idtext) (hydrated_cart u))).
  apply (User_findOne_save s email u); [exact H|reflexivity|].
  cbn [set_cart u_email]. now apply User_findOne_email with s.
Qed.



(** The comparison is one of texts: a request that spells the clog's id
    with its letter in upper case removes no entry for the clog, and still
    prunes the dangling entry for product 3. *)
Example delete_cart_remove_other_spelling :
  cart_of Sample.email
    (snd (delete_cart_remove Sample.email "00000000000000000000000B" healthy
            (Sample.shop_with_clog [mkCartItem 3 1; mkCartItem 11 2] [])))
  = Some [mkCartItem 11 2]
  /\ cart_of Sample.email
       (snd (delete_cart_remove Sample.email "00000000000000000000000b" healthy
               (Sample.shop_with_clog [mkCartItem 3 1; mkCartItem 11 2] [])))
     = Some [].
Proof. split; reflexivity. Qed.

(** ** Removing from the wishlist *)

Lemma updateOne_fixed {A} (cond : A -> bool) (change : A -> A) (l : list A) (x : A) :
  find cond l = Some x -> change x = x -> updateOne cond change l = l.
Proof.
  induction l as [|a l IH]; [discriminate|]. cbn.
  destruct (cond a).
  - intros [= ->] ->. reflexivity.
  - intros H Hx. now rewrite IH.
Qed.

Lemma find_updateOne {A} (cond : A -> bool) (change : A -> A) (l : list A) (x : A) :
  find cond l = Some x -> cond (change x) = true ->
  find cond (updateOne cond change l) = Some (change x).
Proof.
  induction l as [|a l IH]; [discriminate|]. cbn.
  destruct (cond a) eqn:E.
  - intros [= ->] Hc. cbn. now rewrite Hc.
  - intros H Hc. cbn. rewrite E. now apply IH.
Qed.

Lemma updateOne_idem {A} (cond : A -> bool) (change : A -> A) (l : list A) :
  (forall x, cond x = true -> cond (change x) = true) ->
  (forall x, change (change x) = change x) ->
  updateOne cond change (updateOne cond change l) = updateOne cond change l.
Proof.
  intros Hc Hi. induction l as [|a l IH]; [reflexivity|]. cbn.
  destruct (cond a) eqn:E; cbn.
  - now rewrite (Hc a E), Hi.
  - now rewrite E, IH.
Qed.

Lemma updateOne_none {A} (cond : A -> bool) (change : A -> A) (l : list A) :
  find cond l = None -> updateOne cond change l = l.
Proof.
  induction l as [|a l IH]; [reflexivity|]. cbn.
  destruct (cond a); [discriminate|]. intro H. now rewrite IH.
Qed.

Lemma set_users_same (s : Store) : set_users (users s) s = s.
Proof. now destruct s. Qed.

Lemma pull_wishlist_absent (pid : ObjectId) (u : User) :
  ~ In pid (u_wishlist u) -> pull_wishlist pid u = u.
Proof.
  intro H. unfold pull_wishlist. rewrite filter_all.
  - now destruct u.
  - intros x Hx. apply negb_true_iff, Nat.eqb_neq. intros ->. contradiction.
Qed.

Lemma pull_wishlist_idem (pid : ObjectId) (u : User) :
  pull_wishlist pid (pull_wishlist pid u) = pull_wishlist pid u.
Proof.
  unfold pull_wishlist, set_wishlist. cbn. now rewrite filter_idem.
Qed.

Lemma delete_wishlist_remove_run (s : Store) (email idtext : string) (pid : ObjectId)
    (u : User) :
  User_findOne email s = Some u ->
  castObjectId idtext = Some pid ->
  delete_wishlist_remove email idtext healthy s
  = (mkResponse 200 (SuccessMessage "Product removed from wishlist"),
     set_users (updateOne (has_email email) (pull_wishlist pid) (users s)) s).
Proof.
  intros H Hc. unfold delete_wishlist_remove. run_handler. cbn. rewrite H, Hc. reflexivity.
Qed.

Lemma delete_wishlist_remove_uncast (s : Store) (email idtext : string) (u : User) :
  User_findOne email s = Some u ->
  castObjectId idtext = None ->
  delete_wishlist_remove email idtext healthy s
  = (mkResponse 500 (Failure (Some "Failed to remove from wishlist")), s).
Proof.
  intros H Hc. unfold delete_wishlist_remove. run_handler. cbn. rewrite H, Hc. reflexivity.
Qed.

(** C8, as amended.  For an existing user and a product reference that is not
    in the wishlist, [DELETE /wishlist/remove] changes nothing in the store
    and answers [{ success: true, message }], a body that carries no
    collection.  For a reference that is not in the cart, and a user record
    that passes the validation of [save()] (its name and email are not
    empty), [DELETE /cart/remove] answers 200
    with the same array a cart read gives, and stores back the cart without
    its dangling entries, every entry that resolves staying in place.  For
    either route a second identical request gives the same response and
    leaves the store as the first one left it.  The reference is given by
    any text that denotes it. *)
Theorem remove_absent_reference (s : Store) (email idtext : string) (pid : ObjectId)
    (u : User) :
  User_findOne email s = Some u ->
  castObjectId idtext = Some pid ->
  let rw := delete_wishlist_remove email idtext healthy s in
  let rc := delete_cart_remove email idtext healthy s in
  (~ In pid (u_wishlist u) ->
     rw = (mkResponse 200 (SuccessMessage "Product removed from wishlist"), s))
  /\ (~ In pid (refs (hydrated_cart u)) -> u_name u <> "" -> u_email u <> "" ->
        fst rc = fst (get_cart email healthy s)
        /\ status (fst rc) = 200
        /\ cart_of email (snd rc)
           = Some (filter (fun item => resolves s (productId item)) (hydrated_cart u)))
  /\ delete_wishlist_remove email idtext healthy (snd rw) = rw
  /\ delete_cart_remove email idtext healthy (snd rc) = rc.
Proof.
  intros H Hcast rw rc.
  pose proof (User_findOne_email _ _ _ H) as Hem.
  assert (Hrw : rw = (mkResponse 200 (SuccessMessage "Product removed from wishlist"),
                      set_users (updateOne (has_email email) (pull_wishlist pid) (users s)) s))
    by (apply delete_wishlist_remove_run with u; assumption).
  assert (Hrc : validates u = true ->
                rc = (mkResponse 200 (CartArray (cleanedCart
                        (populate_cart s (filter (survives s idtext) (hydrated_cart u))))),
                      User_save (set_cart u (filter (survives s idtext) (hydrated_cart u))) s))
    by (intro Hv; apply delete_cart_remove_run; [exact H|exact Hv]).
  split; [|split; [|split]].
  - intro Hn. rewrite Hrw. f_equal.
    rewrite (updateOne_fixed _ _ _ u H (pull_wishlist_absent pid u Hn)).
    apply set_users_same.
  - intros Hn Hname Hmail. pose proof (validates_true u Hname Hmail) as Hv.
    pose proof (no_entry_absent idtext pid _ Hcast Hn) as Hno.
    specialize (Hrc Hv).
    split; [|split].
    + rewrite Hrc. cbn [fst]. rewrite (cleanedCart_survivors s idtext _ Hno).
      unfold get_cart. run_handler. cbn. rewrite H. cbn.
      unfold hydrated_cart. now destruct (u_cart u).
    + now rewrite Hrc.
    + unfold cart_of, rc. rewrite (cart_of_delete_cart_remove s email idtext u H Hv).
      cbn [option_map].
      change (hydrated_cart (set_cart u ?c)) with c. f_equal.
      apply filter_ext_in. intros item Hin. unfold survives.
      assert (Hi : String.eqb (toString (productId item)) idtext = false)
        by (now apply Hno).
      rewrite Hi. apply andb_true_r.
  - rewrite Hrw. cbn [snd].
    assert (Hf : User_findOne email
                   (set_users (updateOne (has_email email) (pull_wishlist pid) (users s)) s)
                 = Some (pull_wishlist pid u)).
    { unfold User_findOne. cbn [users set_users].
      apply find_updateOne; [exact H|]. unfold has_email. cbn. rewrite Hem.
      apply String.eqb_refl. }
    rewrite (delete_wishlist_remove_run _ _ _ _ _ Hf Hcast). f_equal.
    unfold set_users. cbn. f_equal.
    apply updateOne_idem; [|apply pull_wishlist_idem].
    intros x Hx. exact Hx.
  - destruct (validates u) eqn:Hv;
      [|unfold rc; rewrite (delete_cart_remove_invalid _ _ idtext _ H Hv); cbn [snd];
        apply (delete_cart_remove_invalid _ _ idtext _ H Hv)].
    rewrite (Hrc eq_refl). cbn [snd].
    set (kept := filter (survives s idtext) (hydrated_cart u)).
    assert (Hf : User_findOne email (User_save (set_cart u kept) s) = Some (set_cart u kept)).
    { rewrite <- (hydrated_set_cart u kept) at 2.
      apply (User_findOne_save s email u (set_cart u kept) H eq_refl Hem). }
    rewrite (delete_cart_remove_run _ _ _ _ Hf Hv).
    change (hydrated_cart (set_cart u kept)) with kept.
    assert (Hk : filter (survives (User_save (set_cart u kept) s) idtext) kept = kept).
    { change (survives (User_save (set_cart u kept) s) idtext) with (survives s idtext).
      unfold kept. apply filter_idem. }
    rewrite Hk. f_equal. apply User_save_idem.
Qed.

(** C8, the claim as stated fails.  Product 2 is neither in the cart nor in
    the wishlist.  Removing it from the cart changes the stored cart, whose
    entry for product 3 dangles; removing it from the wishlist returns a
    body that is no collection. *)
Lemma remove_absent_reference_not_noop :
  cart_of Sample.email (Sample.shop [mkCartItem 3 1; mkCartItem 1 2] [1])
  = Some [mkCartItem 3 1; mkCartItem 1 2]
  /\ cart_of Sample.email
       (snd (delete_cart_remove Sample.email "000000000000000000000002" healthy
               (Sample.shop [mkCartItem 3 1; mkCartItem 1 2] [1])))
     = Some [mkCartItem 1 2]
  /\ fst (delete_wishlist_remove Sample.email "000000000000000000000002" healthy
            (Sample.shop [mkCartItem 3 1; mkCartItem 1 2] [1]))
     = mkResponse 200 (SuccessMessage "Product removed from wishlist")
  /\ is_array (SuccessMessage "Product removed from wishlist") = false.
Proof. repeat split. Qed.

Lemma remove_absent_reference_witness :
  User_findOne Sample.email (Sample.shop [mkCartItem 1 2] [1])
  = Some (Sample.alice [mkCartItem 1 2] [1])
  /\ castObjectId "000000000000000000000002" = Some 2
  /\ delete_wishlist_remove Sample.email "000000000000000000000002" healthy
       (Sample.shop [mkCartItem 1 2] [1])
     = (mkResponse 200 (SuccessMessage "Product removed from wishlist"),
        Sample.shop [mkCartItem 1 2] [1]).
Proof.
  split; [reflexivity|]. split; [reflexivity|].
  apply (proj1 (remove_absent_reference (Sample.shop [mkCartItem 1 2] [1]) Sample.email
                  "000000000000000000000002" 2
                  (Sample.alice [mkCartItem 1 2] [1]) eq_refl eq_refl)).
  cbn. intros [H|[]]. discriminate H.
Defined.

(** ** A program logic for handlers *)

Section Hoare.

Context {A B : Type}.

Lemma hoare_ret (P : Store -> Prop) (a : A) (Q : A -> Store -> Prop) (E : Store -> Prop) :
  (forall s, P s -> Q a s) -> hoare P (ret a) Q E.
Proof. intros H conn k s Hs. now apply H. Qed.

Lemma hoare_throw (P : Store -> Prop) (e : Exn) (Q : A -> Store -> Prop) (E : Store -> Prop) :
  (forall s, P s -> E s) -> hoare P (@throw A e) Q E.
Proof. intros H conn k s Hs. now apply H. Qed.

Lemma hoare_await (P : Store -> Prop) (op : Store -> A * Store)
    (Q : A -> Store -> Prop) (E : Store -> Prop) :
  (forall s, P s -> E s /\ Q (fst (op s)) (snd (op s))) -> hoare P (await op) Q E.
Proof.
  intros H conn k s Hs. unfold await. destruct (H s Hs) as [He Hq].
  destruct (conn k); [exact He|]. now destruct (op s).
Qed.

Lemma hoare_bind (P : Store -> Prop) (m : M A) (Q : A -> Store -> Prop)
    (f : A -> M B) (Q' : B -> Store -> Prop) (E : Store -> Prop) :
  hoare P m Q E -> (forall a, hoare (Q a) (f a) Q' E) -> hoare P (bind m f) Q' E.
Proof.
  intros Hm Hf conn k s Hs. unfold bind. specialize (Hm conn k s Hs).
  destruct (m conn (k, s)) as [[e|a] [k' s']]; [exact Hm|].
  now apply Hf.
Qed.

Lemma hoare_weaken (P P' : Store -> Prop) (m : M A) (Q : A -> Store -> Prop)
    (E : Store -> Prop) :
  (forall s, P' s -> P s) -> hoare P m Q E -> hoare P' m Q E.
Proof. intros H Hm conn k s Hs. apply Hm. now apply H. Qed.

End Hoare.

Lemma hoare_try_catch (P Q : Store -> Prop) (m : M Response) (onError : Exn -> Response) :
  hoare P m (fun _ => Q) Q ->
  forall conn s, P s -> Q (snd (try_catch m onError conn s)).
Proof.
  intros Hm conn s Hs. unfold try_catch. specialize (Hm conn 0 s Hs).
  now destruct (m conn (0, s)) as [[e|r] [k s']].
Qed.

Lemma hoare_promise_all_map {A B} (I : Store -> Prop) (f : A -> M B) (xs : list A) :
  (forall x, hoare I (f x) (fun _ => I) I) ->
  hoare I (promise_all_map f xs) (fun _ => I) I.
Proof.
  intro Hf. induction xs as [|x xs IH]; cbn [promise_all_map].
  - now apply hoare_ret.
  - apply hoare_bind with (Q := fun _ => I); [apply Hf|]. intro y.
    apply hoare_bind with (Q := fun _ => I); [exact IH|]. intro ys.
    now apply hoare_ret.
Qed.

(** A save either writes the document or throws before the store is
    touched. *)
Lemma hoare_user_save (P : Store -> Prop) (u : User) (Q : unit -> Store -> Prop)
    (E : Store -> Prop) :
  (forall s, P s -> E s /\ Q tt (User_save u s)) -> hoare P (user_save u) Q E.
Proof.
  intro H. unfold user_save. destruct (validates u).
  - apply hoare_await. intros s Hs. exact (H s Hs).
  - apply hoare_throw. intros s Hs. exact (proj1 (H s Hs)).
Qed.

(** A query leaves the store as it is. *)
Lemma hoare_query {A} (P : Store -> Prop) (q : Store -> A) :
  hoare P (await (query q)) (fun a s => P s /\ a = q s) P.
Proof. apply hoare_await. intros s Hs. cbn. auto. Qed.

Ltac unfold_handler :=
  unfold get_profile, put_profile, post_signup, post_login, post_wishlist,
    get_wishlist, delete_wishlist_remove, get_cart, post_cart, delete_cart_remove,
    get_products, get_product, post_products, put_products, delete_products,
    post_orders, get_orders, put_orders, get_analytics, resolve_line.

Ltac hoare_invariant I :=
  repeat match goal with
  | |- hoare _ (bind _ _) _ _ => apply hoare_bind with (Q := fun _ => I); [|intro]
  | |- hoare _ (ret _) _ _ => apply hoare_ret; intros; assumption
  | |- hoare _ (throw _) _ _ => apply hoare_throw; intros; assumption
  | |- hoare _ (promise_all_map _ _) _ _ => apply hoare_promise_all_map; intro
  | |- hoare _ (await _) _ _ => apply hoare_await; intros ? ?; split; [assumption|]
  | |- hoare _ (user_save _) _ _ => apply hoare_user_save; intros ? ?; split; [assumption|]
  | |- hoare _ (match ?x with _ => _ end) _ _ => destruct x
  end.

(** ** Orders are append-only *)

Lemma orders_grow_refl (s : Store) : orders_grow s s.
Proof. exists []. now rewrite app_nil_r. Qed.

Lemma orders_grow_same (s0 s s' : Store) :
  map frozen (orders s') = map frozen (orders s) -> orders_grow s0 s -> orders_grow s0 s'.
Proof. intros H [created Hc]. exists created. now rewrite H. Qed.

Lemma orders_grow_insert (s0 s : Store) (now : Z) (uid : ObjectId)
    (lines : list OrderLine) (total : Z) :
  orders_grow s0 s -> orders_grow s0 (snd (Order_insert now uid lines total s)).
Proof.
  intros [created Hc].
  exists (created ++ [frozen (mkOrder (nextId s) uid lines total "Pending" now)]).
  cbn [Order_insert snd bump_id set_orders orders].
  now rewrite map_app, Hc, app_assoc.
Qed.

Lemma frozen_updateOne (cond : Order -> bool) (change : Order -> Order) (l : list Order) :
  (forall o, frozen (change o) = frozen o) ->
  map frozen (updateOne cond change l) = map frozen l.
Proof.
  intro H. induction l as [|o l IH]; [reflexivity|]. cbn.
  destruct (cond o); cbn; [now rewrite H|now rewrite IH].
Qed.

Lemma orders_grow_update (s0 s : Store) (id : ObjectId) (st : option string) :
  orders_grow s0 s -> orders_grow s0 (snd (Order_findByIdAndUpdate id st s)).
Proof.
  apply orders_grow_same. cbn. apply frozen_updateOne.
  intro o. now destruct st.
Qed.

Lemma handle_orders_grow (bcrypt_hash : string -> string)
    (bcrypt_compare : string -> string -> bool)
    (RegExp_i : string -> string + (string -> bool))
    (decodeURIComponent : string -> option string)
    (r : Request) (conn : Conn) (s : Store) :
  orders_grow s (snd (handle bcrypt_hash bcrypt_compare RegExp_i decodeURIComponent r conn s)).
Proof.
  destruct r; cbn [handle]; unfold_handler;
    (apply hoare_try_catch with (P := orders_grow s); [|apply orders_grow_refl]);
    hoare_invariant (orders_grow s);
    try (eapply orders_grow_same; [|eassumption]; reflexivity);
    try (now apply orders_grow_insert);
    try (now apply orders_grow_update).
  destruct a; (eapply orders_grow_same; [|eassumption]; reflexivity).
Qed.

Lemma orders_grow_trans (s s' s'' : Store) :
  orders_grow s s' -> orders_grow s' s'' -> orders_grow s s''.
Proof.
  intros [c1 H1] [c2 H2]. exists (c1 ++ c2). now rewrite H2, H1, app_assoc.
Qed.

Lemma serve_orders_grow (bcrypt_hash : string -> string)
    (bcrypt_compare : string -> string -> bool)
    (RegExp_i : string -> string + (string -> bool))
    (decodeURIComponent : string -> option string)
    (rs : list (Request * Conn)) (s : Store) :
  orders_grow s (serve bcrypt_hash bcrypt_compare RegExp_i decodeURIComponent rs s).
Proof.
  revert s. induction rs as [|[r conn] rs IH]; intro s; cbn [serve].
  - apply orders_grow_refl.
  - eapply orders_grow_trans; [apply handle_orders_grow|apply IH].
Qed.

Lemma find_split {A} (cond : A -> bool) (change : A -> A) (l : list A) (x : A) :
  find cond l = Some x ->
  exists before after,
    l = before ++ x :: after
    /\ (forall y, In y before -> cond y = false)
    /\ updateOne cond change l = before ++ change x :: after.
Proof.
  induction l as [|a l IH]; [discriminate|]. cbn.
  destruct (cond a) eqn:E.
  - intros [= ->]. exists [], l. repeat split. intros y [].
  - intro H. destruct (IH H) as (before & after & -> & Hb & Hu).
    exists (a :: before), after. cbn. rewrite Hu. repeat split.
    intros y [<-|Hy]; auto.
Qed.

(** C9.  [PUT /orders/:id] with one of the three statuses, on an existing
    order in any prior status, answers with that order carrying the new
    status and stores it in the order's place: the order's id, owner,
    products, total amount and creation time are as before, and so is
    every other document of the store.  Moreover no sequence of requests
    of the API, over whatever connections, removes an order or changes the
    products (or the id, owner, total amount, creation time) of an order
    that exists. *)
Theorem put_orders_overwrites_status (s : Store) (id : ObjectId) (o : Order) (st : string) :
  find (fun o => Nat.eqb (o_id o) id) (orders s) = Some o ->
  In st order_statuses ->
  (exists before after,
     orders s = before ++ o :: after
     /\ put_orders id (Some st) healthy s
        = (mkResponse 200 (OrderOk (Some (set_status st o))),
           set_orders (before ++ set_status st o :: after) s)
     /\ orders (snd (put_orders id (Some st) healthy s))
        = before ++ set_status st o :: after)
  /\ o_status (set_status st o) = st
  /\ o_products (set_status st o) = o_products o
  /\ totalAmount (set_status st o) = totalAmount o
  /\ userId (set_status st o) = userId o
  /\ o_createdAt (set_status st o) = o_createdAt o
  /\ o_id (set_status st o) = o_id o
  /\ (forall bcrypt_hash bcrypt_compare RegExp_i decodeURIComponent rs,
        orders_grow s (serve bcrypt_hash bcrypt_compare RegExp_i decodeURIComponent rs s)).
Proof.
  intros H _. split; [|repeat split].
  - destruct (find_split _ (set_status st) _ _ H) as (before & after & Ho & _ & Hu).
    exists before, after. split; [exact Ho|].
    assert (Hr : put_orders id (Some st) healthy s
                 = (mkResponse 200 (OrderOk (Some (set_status st o))),
                    set_orders (before ++ set_status st o :: after) s)).
    { unfold put_orders. run_handler.
      change (healthy 0) with (@None string). cbv beta iota.
      unfold Order_findByIdAndUpdate. cbv zeta. rewrite H. cbn [option_map].
      unfold res_json. f_equal. f_equal. exact Hu. }
    split; [exact Hr|]. now rewrite Hr.
  - intros. apply serve_orders_grow.
Qed.

Lemma put_orders_overwrites_status_witness :
  In "Shipped" order_statuses
  /\ put_orders 30 (Some "Shipped") healthy Sample.shop_with_order
     = (mkResponse 200 (OrderOk (Some (set_status "Shipped" Sample.order))),
        set_orders [set_status "Shipped" Sample.order] Sample.shop_with_order).
Proof.
  split; [right; left; reflexivity|].
  destruct (put_orders_overwrites_status Sample.shop_with_order 30 Sample.order "Shipped"
              eq_refl (or_intror (or_introl eq_refl)))
    as [(before & after & Ho & Hr & _) _].
  cbn in Ho. destruct before as [|x before].
  - injection Ho as <-. exact Hr.
  - destruct before; discriminate Ho.
Defined.

(** ** Creating an order *)

Lemma resolve_all_store (items : list LineItem) (conn : Conn) (k : nat) (s : Store) :
  snd (snd (promise_all_map resolve_line items conn (k, s))) = s.
Proof.
  assert (H : hoare (eq s) (promise_all_map resolve_line items) (fun _ => eq s) (eq s)).
  { apply hoare_promise_all_map. intro x. unfold resolve_line.
    hoare_invariant (eq s). cbn. assumption. }
  specialize (H conn k s eq_refl).
  destruct (promise_all_map resolve_line items conn (k, s)) as [[e|a] [k' s']];
    now subst.
Qed.

Lemma resolve_all_unresolved (items : list LineItem) (conn : Conn) (k : nat) (s : Store) :
  (exists item, In item items /\ Product_findById (li_productId item) s = None) ->
  exists e k', promise_all_map resolve_line items conn (k, s) = (inl e, (k', s)).
Proof.
  revert k. induction items as [|x items IH]; intros k (item & Hin & Hnone).
  - destruct Hin.
  - cbn [promise_all_map]. unfold bind at 1, resolve_line at 1. run_handler.
    destruct (conn k) as [msg|]; [now eexists _, _|]. cbn.
    destruct (Product_findById (li_productId x) s) as [p|] eqn:E; [|now eexists _, _].
    destruct Hin as [->|Hin]; [congruence|].
    destruct (IH (S k) (ex_intro _ item (conj Hin Hnone))) as (e & k' & ->).
    now eexists _, _.
Qed.

(** C2.  When an existing user orders a line item whose product reference
    does not resolve, [POST /orders] answers 500 with the message "Failed to
    create order", the answer it gives to any failure of the store, and not
    the 404 it gives for an unknown user; the store is left as it was, so no
    order is persisted.  This holds whatever the connection does. *)
Theorem post_orders_unresolved (s : Store) (now : Z) (email : string)
    (items : list LineItem) (total : Z) (u : User) (conn : Conn) :
  User_findOne email s = Some u ->
  (exists item, In item items /\ Product_findById (li_productId item) s = None) ->
  post_orders now email items total conn s
  = (mkResponse 500 (Failure (Some "Failed to create order")), s).
Proof.
  intros Hu Hitems. unfold post_orders, try_catch.
  unfold bind at 1. unfold await at 1. cbn [query].
  destruct (conn 0) as [msg|]; [reflexivity|]. rewrite Hu.
  unfold bind at 1.
  destruct (resolve_all_unresolved items conn 1 s Hitems) as (e & k' & ->).
  reflexivity.
Qed.

Lemma post_orders_unresolved_witness :
  User_findOne Sample.email (Sample.shop [] []) = Some (Sample.alice [] [])
  /\ Product_findById 3 (Sample.shop [] []) = None
  /\ post_orders 7 Sample.email [mkLineItem 1 1; mkLineItem 3 1] 300 healthy (Sample.shop [] [])
     = (mkResponse 500 (Failure (Some "Failed to create order")), Sample.shop [] [])
  /\ fst (post_orders 7 "nobody@shoekart.test" [mkLineItem 1 1] 100 healthy (Sample.shop [] []))
     = mkResponse 404 (Failure (Some "User not found")).
Proof.
  split; [reflexivity|]. split; [reflexivity|]. split; [|reflexivity].
  apply (post_orders_unresolved (Sample.shop [] []) 7 Sample.email
           [mkLineItem 1 1; mkLineItem 3 1] 300 (Sample.alice [] []) healthy eq_refl).
  exists (mkLineItem 3 1). split; [right; left; reflexivity|reflexivity].
Defined.

Lemma resolve_all_resolved (items : list LineItem) (lines : list OrderLine)
    (k : nat) (s : Store) :
  map (snapshot s) items = map Some lines ->
  promise_all_map resolve_line items healthy (k, s)
  = (inr lines, (k + List.length items, s)).
Proof.
  revert lines k. induction items as [|x items IH]; intros [|l lines] k H;
    try discriminate H.
  - cbn. now rewrite Nat.add_0_r.
  - cbn [map] in H. injection H as Hx Hrest.
    cbn [promise_all_map]. unfold bind at 1, resolve_line at 1. run_handler.
    change (healthy k) with (@None string). cbv beta iota.
    unfold snapshot in Hx.
    destruct (Product_findById (li_productId x) s) as [p|]; [|discriminate Hx].
    injection Hx as <-. cbn [query].
    rewrite (IH lines (S k) Hrest).
    cbn [List.length]. now rewrite Nat.add_succ_r.
Qed.

(** When every line item resolves, the order that is created snapshots the
    current name and price of each product. *)
Lemma post_orders_snapshots (s : Store) (now : Z) (email : string)
    (items : list LineItem) (total : Z) (u : User) (lines : list OrderLine) :
  User_findOne email s = Some u ->
  map (snapshot s) items = map Some lines ->
  post_orders now email items total healthy s
  = (mkResponse 200 (OrderOk (Some (mkOrder (nextId s) (u_id u) lines total "Pending" now))),
     bump_id (set_orders
       (orders s ++ [mkOrder (nextId s) (u_id u) lines total "Pending" now]) s)).
Proof.
  intros Hu Hl. unfold post_orders, try_catch.
  unfold bind at 1. unfold await at 1. cbn [query].
  change (healthy 0) with (@None string). cbv beta iota. rewrite Hu.
  unfold bind at 1. rewrite (resolve_all_resolved items lines 1 s Hl).
  reflexivity.
Qed.

(** ** Reading the wishlist *)

(** On a healthy connection the wishlist read answers 404 for an unknown
    user and otherwise the products of the references that resolve. *)
Lemma get_wishlist_healthy (email : string) (s : Store) :
  get_wishlist email healthy s
  = (match User_findOne email s with
     | None => mkResponse 404 (Failure (Some "User not found"))
     | Some u => mkResponse 200 (ProductArray (populate_wishlist s (u_wishlist u)))
     end, s).
Proof.
  unfold get_wishlist. run_handler. cbn. now destruct (User_findOne email s).
Qed.

Lemma populate_wishlist_ids (s : Store) (w : list ObjectId) :
  map p_id (populate_wishlist s w) = filter (resolves s) w.
Proof.
  induction w as [|id w IH]; [reflexivity|]. cbn [populate_wishlist filter].
  unfold resolves at 1.
  destruct (Product_findById id s) as [p|] eqn:E; [|exact IH].
  cbn [map]. now rewrite IH, (Product_findById_id _ _ _ E).
Qed.

Lemma populate_wishlist_in (s : Store) (w : list ObjectId) :
  Forall (fun p => In p (products s) /\ In (p_id p) w) (populate_wishlist s w).
Proof.
  induction w as [|id w IH]; [constructor|]. cbn [populate_wishlist].
  assert (IH' : Forall (fun p => In p (products s) /\ In (p_id p) (id :: w))
                  (populate_wishlist s w)).
  { revert IH. apply Forall_impl. intros p [H1 H2]. split; [exact H1|now right]. }
  destruct (Product_findById id s) as [p|] eqn:E; [|exact IH'].
  constructor; [|exact IH'].
  split; [|left; symmetry; now apply Product_findById_id with s].
  unfold Product_findById in E. now apply find_some in E.
Qed.

(** C5, as amended.  When the store rejects the query of
    [GET /wishlist/:email], the handler answers 500 with
    [{ success: false }]: the fault is reported to the caller, no
    collection is returned, and the store is untouched.  Over a healthy
    connection the handler answers 404 for an unknown user, and otherwise
    200 with the products of the wishlist references that resolve, in the
    order of the wishlist. *)
Theorem get_wishlist_store_fault (conn : Conn) (email : string) (s : Store) (msg : string) :
  conn 0 = Some msg ->
  get_wishlist email conn s = (mkResponse 500 (Failure None), s)
  /\ is_array (body (fst (get_wishlist email conn s))) = false
  /\ (User_findOne email s = None ->
      get_wishlist email healthy s
      = (mkResponse 404 (Failure (Some "User not found")), s))
  /\ (forall u, User_findOne email s = Some u ->
      exists l,
        get_wishlist email healthy s = (mkResponse 200 (ProductArray l), s)
        /\ map p_id l = filter (resolves s) (u_wishlist u)
        /\ Forall (fun p => In p (products s)) l).
Proof.
  intro H.
  assert (H1 : get_wishlist email conn s = (mkResponse 500 (Failure None), s))
    by (unfold get_wishlist; run_handler; now rewrite H).
  split; [exact H1|]. split; [now rewrite H1|]. split.
  - intro Hu. now rewrite get_wishlist_healthy, Hu.
  - intros u Hu. exists (populate_wishlist s (u_wishlist u)).
    rewrite get_wishlist_healthy, Hu.
    split; [reflexivity|]. split; [apply populate_wishlist_ids|].
    generalize (populate_wishlist_in s (u_wishlist u)). apply Forall_impl. now intros p [Hp _].
Qed.

(** C5, the claim as stated fails: with the store unreachable the wishlist
    read does not answer an empty collection but a 500 with an object. *)
Lemma get_wishlist_unreachable_is_500 :
  get_wishlist Sample.email unreachable (Sample.shop [] [1])
  = (mkResponse 500 (Failure None), Sample.shop [] [1])
  /\ is_array (Failure None) = false
  /\ Failure None <> ProductArray [].
Proof. repeat split. discriminate. Qed.

Lemma get_wishlist_store_fault_witness :
  unreachable 0 = Some "connect ECONNREFUSED"
  /\ get_wishlist Sample.email unreachable (Sample.shop [] [1])
     = (mkResponse 500 (Failure None), Sample.shop [] [1]).
Proof.
  split; [reflexivity|].
  exact (proj1 (get_wishlist_store_fault unreachable Sample.email (Sample.shop [] [1])
                  "connect ECONNREFUSED" eq_refl)).
Defined.

(** ** Updating a profile *)

Lemma find_app_new {A} (f : A -> bool) (l : list A) (x : A) :
  find f l = None -> f x = true -> find f (l ++ [x]) = Some x.
Proof.
  intros Hn Hx. induction l as [|a l IH]; cbn in *; [now rewrite Hx|].
  destruct (f a); [discriminate|now apply IH].
Qed.

Lemma Profile_findOne_save (s : Store) (email : string) (p p' : Profile) :
  Profile_findOne email s = Some p -> pr_id p' = pr_id p -> pr_email p' = email ->
  Profile_findOne email (snd (Profile_save p' s)) = Some p'.
Proof.
  unfold Profile_findOne, Profile_save. cbn [snd profiles set_profiles].
  intros H Hid Hem. induction (profiles s) as [|v l IH]; [discriminate|].
  cbn [find map] in *.
  destruct (String.eqb (pr_email v) email) eqn:Ev.
  - injection H as ->. rewrite Hid, Nat.eqb_refl. now rewrite Hem, String.eqb_refl.
  - destruct (Nat.eqb (pr_id v) (pr_id p')) eqn:Eid.
    + now rewrite Hem, String.eqb_refl.
    + rewrite Ev. now apply IH.
Qed.

(** The profile that was written is the one the store then holds under the
    email, with the fields that were sent; no user is touched. *)
Lemma profile_written_is (s : Store) (email : string) (name phone address : option string) :
  Profile_findOne email (snd (profile_written s email name phone address))
  = Some (fst (profile_written s email name phone address))
  /\ profile_is (snd (profile_written s email name phone address)) email name phone address
  /\ users (snd (profile_written s email name phone address)) = users s.
Proof.
  unfold profile_written, profile_is.
  destruct (Profile_findOne email s) as [p|] eqn:E.
  - assert (Hem : pr_email p = email).
    { unfold Profile_findOne in E. apply find_some in E. now apply String.eqb_eq. }
    pose proof (Profile_findOne_save s email p
                  (mkProfile (pr_id p) name (pr_email p) phone address) E eq_refl Hem) as Hf.
    split; [exact Hf|]. split; [|reflexivity].
    exists (mkProfile (pr_id p) name (pr_email p) phone address).
    split; [exact Hf|]. now cbn.
  - assert (Hf : Profile_findOne email
                   (snd (Profile_insert (fun id => mkProfile id name email phone address) s))
                 = Some (mkProfile (nextId s) name email phone address)).
    { unfold Profile_findOne, Profile_insert. cbn [snd profiles bump_id set_profiles].
      apply find_app_new; [exact E|]. cbn. apply String.eqb_refl. }
    split; [exact Hf|]. split; [|reflexivity].
    exists (mkProfile (nextId s) name email phone address). split; [exact Hf|]. now cbn.
Qed.

Lemma put_profile_run (decodeURIComponent : string -> option string) (s : Store)
    (param email : string) (name phone address : option string) (conn : Conn) :
  decodeURIComponent param = Some email ->
  conn 0 = None -> conn 1 = None ->
  put_profile decodeURIComponent param name phone address conn s
  = let w := profile_written s email name phone address in
    match name with
    | None => (mkResponse 200 (ProfileOk (Some "Profile updated successfully") (fst w)), snd w)
    | Some n =>
        match conn 2 with
        | Some _ => (mkResponse 500 (Failure (Some "Server error")), snd w)
        | None =>
            (mkResponse 200 (ProfileOk (Some "Profile updated successfully") (fst w)),
             set_users (updateOne (has_email email) (fun u => set_name u n) (users (snd w)))
               (snd w))
        end
    end.
Proof.
  intros Hd H0 H1. unfold put_profile, profile_written. rewrite Hd. run_handler.
  rewrite H0. cbn [query]. rewrite H1.
  destruct (Profile_findOne email s) as [p|]; cbn; destruct name as [n|];
    try reflexivity; destruct (conn 2); reflexivity.
Qed.

(** A rejected URL parameter fails the update before anything is written. *)
Lemma put_profile_undecodable (decodeURIComponent : string -> option string) (s : Store)
    (param : string) (name phone address : option string) (conn : Conn) :
  decodeURIComponent param = None ->
  put_profile decodeURIComponent param name phone address conn s
  = (mkResponse 500 (Failure (Some "Server error")), s).
Proof. intro Hd. unfold put_profile. now rewrite Hd. Qed.

(** C7, as amended.  [PUT /api/profile/:email] first writes the profile of
    the decoded email and then, when a name was sent, pushes the name to the
    user record.  When that second write is rejected, the profile stays
    written with the new fields (nothing is rolled back) and no user record
    changes, but the caller is answered 500 "Server error": the failure of
    the push fails the request.  Over a healthy connection the request
    succeeds and answers with the profile that is then stored, and the name
    is set on the first user with that email, if there is one, every other
    field and every other user staying as it was.  When no name is sent
    there is no push: the request succeeds as soon as the profile is
    written and no user record changes. *)
Theorem put_profile_sync_failure (decodeURIComponent : string -> option string)
    (s : Store) (param email name : string) (phone address : option string)
    (conn : Conn) (msg : string) :
  decodeURIComponent param = Some email ->
  conn 0 = None -> conn 1 = None -> conn 2 = Some msg ->
  let failed := put_profile decodeURIComponent param (Some name) phone address conn s in
  let done := put_profile decodeURIComponent param (Some name) phone address healthy s in
  let unnamed := put_profile decodeURIComponent param None phone address conn s in
  fst failed = mkResponse 500 (Failure (Some "Server error"))
  /\ profile_is (snd failed) email (Some name) phone address
  /\ users (snd failed) = users s
  /\ (exists p, fst done = mkResponse 200 (ProfileOk (Some "Profile updated successfully") p)
                /\ Profile_findOne email (snd done) = Some p)
  /\ profile_is (snd done) email (Some name) phone address
  /\ (User_findOne email s = None -> users (snd done) = users s)
  /\ (forall u, User_findOne email s = Some u ->
        exists before after,
          users s = before ++ u :: after
          /\ users (snd done)
             = before ++ mkUser (u_id u) name (u_email u) (u_password u) (u_role u)
                           (u_wishlist u) (u_cart u) :: after)
  /\ (exists p, fst unnamed
                = mkResponse 200 (ProfileOk (Some "Profile updated successfully") p))
  /\ profile_is (snd unnamed) email None phone address
  /\ users (snd unnamed) = users s.
Proof.
  intros Hd H0 H1 H2 failed done unnamed.
  unfold failed, done, unnamed.
  rewrite (put_profile_run _ _ _ _ _ _ _ conn Hd H0 H1).
  rewrite (put_profile_run _ _ _ _ _ _ _ healthy Hd eq_refl eq_refl).
  rewrite (put_profile_run _ _ _ _ _ _ _ conn Hd H0 H1).
  cbv zeta. rewrite H2. change (healthy 2) with (@None string). cbv iota. cbn [fst snd].
  destruct (profile_written_is s email (Some name) phone address) as (Hf & Hp & Hu).
  destruct (profile_written_is s email None phone address) as (Hf0 & Hp0 & Hu0).
  split; [reflexivity|]. split; [exact Hp|]. split; [exact Hu|].
  split; [eexists; split; [reflexivity|exact Hf]|].
  split; [exact Hp|]. split; [|split; [|split; [|split]]].
  - intro Hn. cbn [users set_users]. rewrite Hu. now apply updateOne_none.
  - intros u Hfound. cbn [users set_users]. rewrite Hu.
    destruct (find_split _ (fun u => set_name u name) _ _ Hfound)
      as (before & after & Hb & _ & Hup).
    exists before, after. split; [exact Hb|exact Hup].
  - eexists. reflexivity.
  - exact Hp0.
  - exact Hu0.
Qed.

(** C7, the claim as stated fails: the push of the name is rejected, and the
    caller is told the update failed although the profile was written. *)
Lemma put_profile_push_failure_reported :
  fst (put_profile Standin.decodeURIComponent Sample.email (Some "Alice B") (Some "555") None
         fails_third (Sample.shop [] []))
  = mkResponse 500 (Failure (Some "Server error"))
  /\ Profile_findOne Sample.email
       (snd (put_profile Standin.decodeURIComponent Sample.email (Some "Alice B") (Some "555")
               None fails_third (Sample.shop [] [])))
     = Some (mkProfile 20 (Some "Alice B") Sample.email (Some "555") None).
Proof. split; reflexivity. Qed.

Lemma put_profile_sync_failure_witness :
  Standin.decodeURIComponent "alice%40shoekart.test" = Some Sample.email
  /\ fails_third 0 = None /\ fails_third 1 = None
  /\ fails_third 2 = Some "connection closed"
  /\ fst (put_profile Standin.decodeURIComponent "alice%40shoekart.test" (Some "Alice B")
            None None fails_third (Sample.shop [] []))
     = mkResponse 500 (Failure (Some "Server error")).
Proof.
  split; [reflexivity|]. split; [reflexivity|]. split; [reflexivity|].
  split; [reflexivity|].
  exact (proj1 (put_profile_sync_failure Standin.decodeURIComponent (Sample.shop [] [])
                  "alice%40shoekart.test" Sample.email "Alice B" None None fails_third
                  "connection closed" eq_refl eq_refl eq_refl eq_refl)).
Defined.

(** Without a name the same connection does not fail the request: no third
    store operation takes place. *)
Example put_profile_without_name :
  fst (put_profile Standin.decodeURIComponent Sample.email None (Some "555") None
         fails_third (Sample.shop [] []))
  = mkResponse 200 (ProfileOk (Some "Profile updated successfully")
                      (mkProfile 20 None Sample.email (Some "555") None)).
Proof. reflexivity. Qed.

(** ** Logging in *)

(** The three refusals of [POST /login], in the order the handler tests
    them, and its success. *)
Lemma post_login_cases (bcrypt_compare : string -> string -> bool)
    (email password : string) (role : option string) (s : Store) :
  post_login bcrypt_compare email password role healthy s
  = (match User_findOne email s with
     | None => mkResponse 404 (Failure (Some "User not found"))
     | Some u =>
         if negb (bcrypt_compare password (u_password u))
         then mkResponse 401 (Failure (Some "Invalid password"))
         else if role_differs u role
         then mkResponse 403
                (Failure (Some ("Incorrect role. Registered as " ++ u_role u)%string))
         else mkResponse 200 (LoginOk (u_role u) None)
     end, s).
Proof.
  unfold post_login. run_handler. change (healthy 0) with (@None string).
  cbn [query]. destruct (User_findOne email s) as [u|]; [|reflexivity].
  destruct (negb (bcrypt_compare password (u_password u))); [reflexivity|].
  destruct (role_differs u role); reflexivity.
Qed.

(** C6.  A login with a known email, the right password and the stored role
    succeeds, but its answer never carries [isNewUser]: the user schema has
    no first-login flag, so the property read is [undefined], nothing is
    cleared, and the store is left as it was.  This is so for the first
    successful login as for any later one. *)
Theorem post_login_success (bcrypt_compare : string -> string -> bool)
    (s : Store) (email password : string) (role : option string) (u : User) :
  User_findOne email s = Some u ->
  bcrypt_compare password (u_password u) = true ->
  role = Some (u_role u) ->
  post_login bcrypt_compare email password role healthy s
  = (mkResponse 200 (LoginOk (u_role u) None), s).
Proof.
  intros Hu Hp ->. rewrite post_login_cases, Hu, Hp.
  unfold role_differs. now rewrite String.eqb_refl.
Qed.

(** Bob signs up and logs in for the first time: the answer does not say
    that this is his first login. *)
Lemma post_login_success_witness :
  User_findOne "bob@shoekart.test"
    (snd (post_signup Standin.bcrypt_hash "Bob" "bob@shoekart.test" "secret" "secret"
            (Some "user") healthy empty_store))
  = Some (mkUser 0 "Bob" "bob@shoekart.test" "$2a$10$secret" "user" [] (Some []))
  /\ post_login Standin.bcrypt_compare "bob@shoekart.test" "secret" (Some "user") healthy
       (snd (post_signup Standin.bcrypt_hash "Bob" "bob@shoekart.test" "secret" "secret"
               (Some "user") healthy empty_store))
     = (mkResponse 200 (LoginOk "user" None),
        snd (post_signup Standin.bcrypt_hash "Bob" "bob@shoekart.test" "secret" "secret"
               (Some "user") healthy empty_store)).
Proof.
  split; [reflexivity|].
  exact (post_login_success Standin.bcrypt_compare
           (snd (post_signup Standin.bcrypt_hash "Bob" "bob@shoekart.test" "secret" "secret"
                   (Some "user") healthy empty_store))
           "bob@shoekart.test" "secret" (Some "user")
           (mkUser 0 "Bob" "bob@shoekart.test" "$2a$10$secret" "user" [] (Some []))
           eq_refl eq_refl eq_refl).
Defined.

(** No login, over any connection, answers [isNewUser: true] or changes the
    store. *)
Lemma post_login_never_new (bcrypt_compare : string -> string -> bool)
    (email password : string) (role : option string) (conn : Conn) (s : Store) :
  snd (post_login bcrypt_compare email password role conn s) = s
  /\ forall r, body (fst (post_login bcrypt_compare email password role conn s))
               <> LoginOk r (Some true).
Proof.
  unfold post_login. run_handler. destruct (conn 0); [split; [reflexivity|discriminate]|].
  cbn [query]. destruct (User_findOne email s) as [u|]; [|split; [reflexivity|discriminate]].
  destruct (negb (bcrypt_compare password (u_password u)));
    [split; [reflexivity|discriminate]|].
  destruct (role_differs u role); split; try reflexivity; discriminate.
Qed.

(** ** Listing products *)

Lemma get_products_run (RegExp_i : string -> string + (string -> bool))
    (q : ProductQuery) (s : Store) (colorRegex : option (string -> bool)) :
  match truthy (color q) with
  | None => colorRegex = None
  | Some c => exists test, RegExp_i ("^" ++ c ++ "$")%string = inr test
                           /\ colorRegex = Some test
  end ->
  get_products RegExp_i q healthy s
  = (mkResponse 200 (ProductArray
       (Product_find (mkProductFilter (truthy (category q)) (truthy (size q))
                        (truthy (brand q)) colorRegex (rating q) (priceMin q) (priceMax q)) s)),
     s).
Proof.
  intro H. unfold get_products. run_handler.
  destruct (truthy (color q)) as [c|].
  - destruct H as (test & -> & ->). reflexivity.
  - subst. reflexivity.
Qed.

(** C3.  The color parameter is used as the source of a regular expression:
    a product is listed under [?color=c] as soon as the expression [^c$]
    matches its color, whether or not the two texts are equal up to case. *)
Theorem get_products_color_is_pattern (RegExp_i : string -> string + (string -> bool))
    (c : string) (test : string -> bool) (s : Store) (p : Product) :
  c <> "" ->
  RegExp_i ("^" ++ c ++ "$")%string = inr test ->
  In p (products s) ->
  test (p_color p) = true ->
  exists l, get_products RegExp_i (by_color c) healthy s
            = (mkResponse 200 (ProductArray l), s)
            /\ In p l.
Proof.
  intros Hc Hre Hin Ht.
  assert (Htr : truthy (color (by_color c)) = Some c) by (destruct c; [contradiction|reflexivity]).
  eexists. split.
  - apply get_products_run with (colorRegex := Some test). rewrite Htr.
    exists test. split; [exact Hre|reflexivity].
  - apply filter_In. split; [exact Hin|]. unfold matches. cbn. now rewrite Ht.
Qed.

(** The runner is red; it is listed under [?color=r.d], and "r.d" is not
    "red" in any letter case. *)
Lemma get_products_color_is_pattern_witness :
  ci_eqb "r.d" (p_color Sample.runner) = false
  /\ exists l, get_products Standin.RegExp_i (by_color "r.d") healthy (Sample.shop [] [])
               = (mkResponse 200 (ProductArray l), Sample.shop [] [])
               /\ In Sample.runner l.
Proof.
  split; [reflexivity|].
  apply (get_products_color_is_pattern Standin.RegExp_i "r.d"
           (Standin.match_items [Standin.One (Standin.Lit "r"); Standin.One Standin.AnyChar;
                                 Standin.One (Standin.Lit "d")])).
  - discriminate.
  - reflexivity.
  - left. reflexivity.
  - reflexivity.
Defined.

(** An expression the constructor rejects turns the request into a 500. *)
Lemma get_products_bad_pattern (RegExp_i : string -> string + (string -> bool))
    (c message : string) (conn : Conn) (s : Store) :
  c <> "" ->
  RegExp_i ("^" ++ c ++ "$")%string = inl message ->
  get_products RegExp_i (by_color c) conn s
  = (mkResponse 500 (Failure (Some message)), s).
Proof.
  intros Hc Hre. unfold get_products. run_handler.
  destruct c; [contradiction|]. cbn [by_color color truthy]. now rewrite Hre.
Qed.

Lemma matches_satisfies (q : ProductQuery) (colorRegex : option (string -> bool))
    (p : Product) :
  match truthy (color q) with
  | None => colorRegex = None
  | Some c => exists test, colorRegex = Some test /\ forall t, test t = ci_eqb c t
  end ->
  matches (mkProductFilter (truthy (category q)) (truthy (size q)) (truthy (brand q))
             colorRegex (rating q) (priceMin q) (priceMax q)) p
  = satisfies q p.
Proof.
  intro H. unfold matches, satisfies, rating_gte.
  cbn [f_category f_size f_brand f_color f_rating_gte f_price_gte f_price_lte].
  destruct (truthy (color q)) as [c|].
  - destruct H as (test & -> & Ht). cbn [unless_absent]. now rewrite Ht.
  - now subst.
Qed.

(** As long as the expression built from the color matches exactly the texts
    equal to the color up to case, [GET /products] lists exactly the
    products that satisfy every parameter of the query. *)
Lemma get_products_exact (RegExp_i : string -> string + (string -> bool))
    (q : ProductQuery) (s : Store) :
  (forall c, truthy (color q) = Some c ->
     exists test, RegExp_i ("^" ++ c ++ "$")%string = inr test
                  /\ forall t, test t = ci_eqb c t) ->
  get_products RegExp_i q healthy s
  = (mkResponse 200 (ProductArray (filter (satisfies q) (products s))), s).
Proof.
  intro H.
  destruct (truthy (color q)) as [c|] eqn:E.
  - destruct (H c eq_refl) as (test & Hre & Ht).
    rewrite (get_products_run RegExp_i q s (Some test)).
    + unfold Product_find. do 3 f_equal. apply filter_ext. intro p.
      apply matches_satisfies. rewrite E. now exists test.
    + rewrite E. now exists test.
  - rewrite (get_products_run RegExp_i q s None).
    + unfold Product_find. do 3 f_equal. apply filter_ext. intro p.
      apply matches_satisfies. now rewrite E.
    + now rewrite E.
Qed.

(** The stand-in engine reads a plain text as itself. *)
Lemma is_meta_false (a : ascii) :
  Standin.is_meta a = false ->
  Ascii.eqb a "$" = false /\ Ascii.eqb a "." = false /\ Ascii.eqb a "*" = false.
Proof.
  unfold Standin.is_meta. cbn [existsb]. intro H.
  repeat (apply orb_false_iff in H; destruct H as [? H]). auto.
Qed.

Lemma parse_items_plain (c : string) :
  Standin.plain c = true ->
  Standin.parse_items (c ++ "$")%string = Some (Standin.literally c).
Proof.
  induction c as [|a c IH]; [reflexivity|].
  cbn [Standin.plain]. intro H. apply andb_true_iff in H. destruct H as [Ha Hc].
  apply negb_true_iff in Ha. destruct (is_meta_false a Ha) as (H1 & H2 & H3).
  cbn [String.append Standin.parse_items Standin.literally].
  rewrite H1. unfold Standin.atom_of. rewrite H2, Ha.
  destruct c as [|b c].
  - reflexivity.
  - assert (Hb : Ascii.eqb b "*" = false).
    { cbn [Standin.plain] in Hc. apply andb_true_iff in Hc. destruct Hc as [Hb _].
      apply negb_true_iff in Hb. now destruct (is_meta_false b Hb) as (_ & _ & ?). }
    change ((String b c ++ "$")%string) with (String b (c ++ "$")%string) at 1.
    cbv iota beta. rewrite Hb. now rewrite (IH Hc).
Qed.

Lemma match_items_literally (c t : string) :
  Standin.match_items (Standin.literally c) t = ci_eqb c t.
Proof.
  revert t. induction c as [|a c IH]; intros [|b t]; try reflexivity.
  cbn [Standin.literally Standin.match_items Standin.atom_ok ci_eqb]. now rewrite IH.
Qed.

Lemma Standin_plain (c : string) :
  Standin.plain c = true ->
  exists test, Standin.RegExp_i ("^" ++ c ++ "$")%string = inr test
               /\ forall t, test t = ci_eqb c t.
Proof.
  intro H. exists (Standin.match_items (Standin.literally c)). split.
  - cbn [String.append]. unfold Standin.RegExp_i. now rewrite (parse_items_plain c H).
  - apply match_items_literally.
Qed.

(** With the stand-in engine, a query whose color is a plain text lists
    exactly the products that satisfy it. *)
Lemma get_products_exact_plain (q : ProductQuery) (s : Store) :
  (forall c, truthy (color q) = Some c -> Standin.plain c = true) ->
  get_products Standin.RegExp_i q healthy s
  = (mkResponse 200 (ProductArray (filter (satisfies q) (products s))), s).
Proof.
  intro H. apply get_products_exact. intros c Hc. apply Standin_plain. now apply H.
Qed.

(** The example of the specification: of two women's shoes priced 100 and
    200, a query for women's shoes up to 150 lists the first only. *)
Example get_products_women_up_to_150 :
  get_products Standin.RegExp_i
    (mkProductQuery (Some "women") None (Some 150%Z) None None None None) healthy
    (Sample.shop [] [])
  = (mkResponse 200 (ProductArray [Sample.runner]), Sample.shop [] []).
Proof. reflexivity. Qed.

(** ** Worked examples *)

(** A user with an empty cart adds 2 and then 3 of the runner: the cart read
    shows one line for it, with quantity 5. *)
Example cart_add_twice_then_read :
  fst (get_cart Sample.email healthy
         (snd (post_cart Sample.email "000000000000000000000001" (Some 3%Z) healthy
                 (snd (post_cart Sample.email "000000000000000000000001" (Some 2%Z) healthy
                         (Sample.shop [] []))))))
  = mkResponse 200 (CartArray [mkCartLine 1 "Runner" 100 5]).
Proof. reflexivity. Qed.

(** The boot is in the cart and is then deleted from the catalog: the cart
    read answers 200 and omits it, while the stored cart still holds the
    reference. *)
Example cart_read_after_product_delete :
  fst (get_cart Sample.email healthy
         (snd (delete_products 2 healthy
                 (Sample.shop [mkCartItem 2 1; mkCartItem 1 4] []))))
  = mkResponse 200 (CartArray [mkCartLine 1 "Runner" 100 4])
  /\ cart_of Sample.email
       (snd (delete_products 2 healthy (Sample.shop [mkCartItem 2 1; mkCartItem 1 4] [])))
     = Some [mkCartItem 2 1; mkCartItem 1 4].
Proof. split; reflexivity. Qed.

(** A profile update with an empty name leaves the user record with a name
    that [save()] does not accept.  From then on an add to the cart answers
    500 and a remove answers an empty array, the store staying as it is,
    while the cart read still shows the lines of the cart. *)
Example cart_after_empty_name :
  User_findOne Sample.email (Sample.shop_after_empty_name [mkCartItem 1 2])
  = Some (mkUser 10 "" Sample.email "$2a$10$abcdefghijklmnopqrstuv" "user" []
            (Some [mkCartItem 1 2]))
  /\ post_cart Sample.email "000000000000000000000002" None healthy
       (Sample.shop_after_empty_name [mkCartItem 1 2])
     = (mkResponse 500 (Failure None), Sample.shop_after_empty_name [mkCartItem 1 2])
  /\ delete_cart_remove Sample.email "000000000000000000000002" healthy
       (Sample.shop_after_empty_name [mkCartItem 1 2])
     = (mkResponse 200 (CartArray []), Sample.shop_after_empty_name [mkCartItem 1 2])
  /\ fst (get_cart Sample.email healthy (Sample.shop_after_empty_name [mkCartItem 1 2]))
     = mkResponse 200 (CartArray [mkCartLine 1 "Runner" 100 2]).
Proof. repeat split. Qed.

(** Adding the runner to the wishlist twice leaves one reference. *)
Example wishlist_add_twice :
  option_map u_wishlist
    (User_findOne Sample.email
       (snd (post_wishlist Sample.email "000000000000000000000001" healthy
               (snd (post_wishlist Sample.email "000000000000000000000001" healthy
                       (Sample.shop [] []))))))
  = Some [1].
Proof. reflexivity. Qed.

(** A signup whose confirmation differs from the password is refused with
    400 and creates no user. *)
Example signup_mismatch :
  post_signup Standin.bcrypt_hash "Bob" "bob@shoekart.test" "secret" "secres" None
    healthy empty_store
  = (mkResponse 400 (Failure (Some "Passwords do not match")), empty_store).
Proof. reflexivity. Qed.

(** An order for two runners snapshots the runner's name and price. *)
Example order_snapshot :
  fst (post_orders 7 Sample.email [mkLineItem 1 2] 200 healthy (Sample.shop [] []))
  = mkResponse 200
      (OrderOk (Some (mkOrder 20 10 [mkOrderLine 1 "Runner" 100 2] 200 "Pending" 7))).
Proof. reflexivity. Qed.

(** * Further properties *)

(** ** What a request leaves alone *)

Ltac frame_goals :=
  try (cbn; assumption);
  try match goal with
      | |- context [match ?x with _ => _ end] => destruct x; cbn; assumption
      end.

Lemma post_login_store (bcrypt_compare : string -> string -> bool)
    (email password : string) (role : option string) (conn : Conn) (s : Store) :
  snd (post_login bcrypt_compare email password role conn s) = s.
Proof. apply post_login_never_new. Qed.

(** A read route never changes the store, whatever the connection does. *)
Theorem reads_never_write (bcrypt_hash : string -> string)
    (bcrypt_compare : string -> string -> bool)
    (RegExp_i : string -> string + (string -> bool))
    (decodeURIComponent : string -> option string)
    (r : Request) (conn : Conn) (s : Store) :
  read_only r = true ->
  snd (handle bcrypt_hash bcrypt_compare RegExp_i decodeURIComponent r conn s) = s.
Proof.
  intro H. symmetry. revert H.
  destruct r; cbn [read_only]; try discriminate; intros _; cbn [handle];
    unfold_handler; (apply hoare_try_catch with (P := eq s); [|reflexivity]);
    hoare_invariant (eq s); frame_goals.
Qed.

Lemma reads_never_write_witness :
  read_only (GetCart Sample.email) = true
  /\ snd (handle Standin.bcrypt_hash Standin.bcrypt_compare Standin.RegExp_i
      Standin.decodeURIComponent
            (GetCart Sample.email) unreachable (Sample.shop [mkCartItem 3 1] []))
     = Sample.shop [mkCartItem 3 1] [].
Proof.
  split; [reflexivity|].
  exact (reads_never_write Standin.bcrypt_hash Standin.bcrypt_compare Standin.RegExp_i
      Standin.decodeURIComponent
           (GetCart Sample.email) unreachable (Sample.shop [mkCartItem 3 1] []) eq_refl).
Defined.

(** A route other than the two order writes leaves the orders as they are. *)
Lemma handle_orders_frame (bcrypt_hash : string -> string)
    (bcrypt_compare : string -> string -> bool)
    (RegExp_i : string -> string + (string -> bool))
    (decodeURIComponent : string -> option string)
    (r : Request) (conn : Conn) (s : Store) :
  writes_orders r = false ->
  orders (snd (handle bcrypt_hash bcrypt_compare RegExp_i decodeURIComponent r conn s)) = orders s.
Proof.
  destruct r; cbn [writes_orders]; try discriminate; intros _; cbn [handle];
    try (now rewrite post_login_store);
    unfold_handler;
    (apply hoare_try_catch with (P := fun s' => orders s' = orders s); [|reflexivity]);
    hoare_invariant (fun s' => orders s' = orders s); frame_goals.
Qed.

(** Each request can change only the collections of its own concern: the
    user routes the users, the product routes the catalog, the order routes
    the orders, the profile routes the profiles (and, for the profile
    update, the users).  In particular an order leaves the cart it was made
    from as it is, and deleting a product leaves every cart, wishlist and
    order that refers to it as it is. *)
Theorem handle_frame (bcrypt_hash : string -> string)
    (bcrypt_compare : string -> string -> bool)
    (RegExp_i : string -> string + (string -> bool))
    (decodeURIComponent : string -> option string)
    (r : Request) (conn : Conn) (s : Store) :
  (writes_users r = false ->
     users (snd (handle bcrypt_hash bcrypt_compare RegExp_i decodeURIComponent r conn s)) = users s)
  /\ (writes_products r = false ->
     products (snd (handle bcrypt_hash bcrypt_compare RegExp_i decodeURIComponent r conn s)) = products s)
  /\ (writes_orders r = false ->
     orders (snd (handle bcrypt_hash bcrypt_compare RegExp_i decodeURIComponent r conn s)) = orders s)
  /\ (writes_profiles r = false ->
     profiles (snd (handle bcrypt_hash bcrypt_compare RegExp_i decodeURIComponent r conn s)) = profiles s).
Proof.
  repeat split.
  - destruct r; cbn [writes_users]; try discriminate; intros _; cbn [handle];
      try (now rewrite post_login_store);
      unfold_handler;
      (apply hoare_try_catch with (P := fun s' => users s' = users s); [|reflexivity]);
      hoare_invariant (fun s' => users s' = users s); frame_goals.
  - destruct r; cbn [writes_products]; try discriminate; intros _; cbn [handle];
      try (now rewrite post_login_store);
      unfold_handler;
      (apply hoare_try_catch with (P := fun s' => products s' = products s); [|reflexivity]);
      hoare_invariant (fun s' => products s' = products s); frame_goals.
  - destruct r; cbn [writes_orders]; try discriminate; intros _; cbn [handle];
      try (now rewrite post_login_store);
      unfold_handler;
      (apply hoare_try_catch with (P := fun s' => orders s' = orders s); [|reflexivity]);
      hoare_invariant (fun s' => orders s' = orders s); frame_goals.
  - destruct r; cbn [writes_profiles]; try discriminate; intros _; cbn [handle];
      try (now rewrite post_login_store);
      unfold_handler;
      (apply hoare_try_catch with (P := fun s' => profiles s' = profiles s); [|reflexivity]);
      hoare_invariant (fun s' => profiles s' = profiles s); frame_goals.
Qed.

(** ** Ids are unique and fresh *)

Lemma ids_ok_bump (n : ObjectId) (ids : list ObjectId) : ids_ok n ids -> ids_ok (S n) ids.
Proof.
  intros [Hd Hb]. split; [exact Hd|]. revert Hb. apply Forall_impl. intros; lia.
Qed.

Lemma ids_ok_insert (n : ObjectId) (ids : list ObjectId) :
  ids_ok n ids -> ids_ok (S n) (ids ++ [n]).
Proof.
  intros [Hd Hb]. split.
  - apply NoDup_app; [exact Hd|repeat constructor; intros []|].
    intros x Hx [<-|[]]. rewrite Forall_forall in Hb. specialize (Hb _ Hx). lia.
  - apply Forall_app. split; [|repeat constructor].
    revert Hb. apply Forall_impl. intros; lia.
Qed.

Lemma map_id_replace {A} (id : A -> ObjectId) (x y : A) (l : list A) :
  id y = id x ->
  map id (map (fun v => if Nat.eqb (id v) (id x) then y else v) l) = map id l.
Proof.
  intro H. rewrite map_map. apply map_ext. intro v.
  destruct (Nat.eqb (id v) (id x)) eqn:E; [|reflexivity].
  apply Nat.eqb_eq in E. now rewrite E.
Qed.

Lemma map_id_updateOne {A} (id : A -> ObjectId) (cond : A -> bool) (change : A -> A)
    (l : list A) :
  (forall x, id (change x) = id x) -> map id (updateOne cond change l) = map id l.
Proof.
  intro H. induction l as [|a l IH]; [reflexivity|]. cbn.
  destruct (cond a); cbn; [now rewrite H|now rewrite IH].
Qed.

Lemma deleteOne_incl {A} (cond : A -> bool) (l : list A) : incl (deleteOne cond l) l.
Proof.
  induction l as [|a l IH]; [easy|]. cbn. destruct (cond a).
  - now apply incl_tl.
  - apply incl_cons; [now left|now apply incl_tl].
Qed.

Lemma ids_ok_deleteOne {A} (id : A -> ObjectId) (cond : A -> bool) (n : ObjectId)
    (l : list A) :
  ids_ok n (map id l) -> ids_ok n (map id (deleteOne cond l)).
Proof.
  intros [Hd Hb]. split.
  - clear Hb. induction l as [|a l IH]; [constructor|]. cbn in *.
    inversion Hd as [|? ? Ha Hl]; subst. destruct (cond a); [exact Hl|].
    cbn. constructor; [|now apply IH].
    intro Hin. apply Ha. apply in_map_iff in Hin. destruct Hin as (x & <- & Hx).
    apply in_map. now apply (deleteOne_incl cond l).
  - rewrite Forall_forall in *. intros i Hi. apply Hb.
    apply in_map_iff in Hi. destruct Hi as (x & <- & Hx).
    apply in_map. now apply (deleteOne_incl cond l).
Qed.

Lemma store_wf_bump (s : Store) : store_wf s -> store_wf (bump_id s).
Proof.
  intros (H1 & H2 & H3 & H4). unfold store_wf. cbn.
  split; [|split; [|split]]; now apply ids_ok_bump.
Qed.

Lemma store_wf_User_save (u : User) (s : Store) : store_wf s -> store_wf (User_save u s).
Proof.
  intros (H1 & H2 & H3 & H4). unfold store_wf, User_save. cbn [users products orders profiles nextId set_users].
  now rewrite (map_id_replace u_id u (hydrated u) _ eq_refl).
Qed.

Lemma store_wf_users_updateOne (cond : User -> bool) (change : User -> User) (s : Store) :
  (forall u, u_id (change u) = u_id u) ->
  store_wf s -> store_wf (set_users (updateOne cond change (users s)) s).
Proof.
  intros Hc (H1 & H2 & H3 & H4). unfold store_wf.
  cbn [users products orders profiles nextId set_users].
  now rewrite (map_id_updateOne u_id _ _ _ Hc).
Qed.

Lemma store_wf_User_insert (fields : ObjectId -> User) (s : Store) :
  (forall id, u_id (fields id) = id) ->
  store_wf s -> store_wf (snd (User_insert fields s)).
Proof.
  intros Hf (H1 & H2 & H3 & H4). unfold store_wf, User_insert.
  cbn [snd users products orders profiles nextId bump_id set_users].
  rewrite map_app. cbn [map]. rewrite Hf.
  split; [|split; [|split]]; try (now apply ids_ok_bump); now apply ids_ok_insert.
Qed.

Lemma store_wf_Profile_insert (fields : ObjectId -> Profile) (s : Store) :
  (forall id, pr_id (fields id) = id) ->
  store_wf s -> store_wf (snd (Profile_insert fields s)).
Proof.
  intros Hf (H1 & H2 & H3 & H4). unfold store_wf, Profile_insert.
  cbn [snd users products orders profiles nextId bump_id set_profiles].
  rewrite map_app. cbn [map]. rewrite Hf.
  split; [|split; [|split]]; try (now apply ids_ok_bump); now apply ids_ok_insert.
Qed.

Lemma store_wf_Profile_save (p : Profile) (s : Store) :
  store_wf s -> store_wf (snd (Profile_save p s)).
Proof.
  intros (H1 & H2 & H3 & H4). unfold store_wf, Profile_save.
  cbn [snd users products orders profiles nextId set_profiles].
  now rewrite (map_id_replace pr_id p p _ eq_refl).
Qed.

Lemma store_wf_Product_insert (fields : ObjectId -> Product) (s : Store) :
  (forall id, p_id (fields id) = id) ->
  store_wf s -> store_wf (snd (Product_insert fields s)).
Proof.
  intros Hf (H1 & H2 & H3 & H4). unfold store_wf, Product_insert.
  cbn [snd users products orders profiles nextId bump_id set_products].
  rewrite map_app. cbn [map]. rewrite Hf.
  split; [|split; [|split]]; try (now apply ids_ok_bump); now apply ids_ok_insert.
Qed.

Lemma new_product_id (now : Z) (b : ProductBody) (image : string)
    (fields : ObjectId -> Product) :
  new_product now b image = Some fields -> forall id, p_id (fields id) = id.
Proof.
  unfold new_product.
  destruct (truthy (b_name b)), (b_price b), (b_category b); try discriminate.
  cbv zeta.
  destruct (valid_category s0 && valid_rating (rating_or_null (b_rating b)));
    [|discriminate].
  now intros [= <-].
Qed.

Lemma new_user_id (name email hashed : string) (role : option string)
    (fields : ObjectId -> User) :
  new_user name email hashed role = Some fields -> forall id, u_id (fields id) = id.
Proof.
  unfold new_user. destruct (String.eqb name "" || String.eqb email ""); [discriminate|].
  now intros [= <-].
Qed.

Lemma store_wf_products_updateOne (cond : Product -> bool) (change : Product -> Product)
    (s : Store) :
  (forall p, p_id (change p) = p_id p) ->
  store_wf s -> store_wf (set_products (updateOne cond change (products s)) s).
Proof.
  intros Hc (H1 & H2 & H3 & H4). unfold store_wf.
  cbn [users products orders profiles nextId set_products].
  now rewrite (map_id_updateOne p_id _ _ _ Hc).
Qed.

Lemma store_wf_products_deleteOne (cond : Product -> bool) (s : Store) :
  store_wf s -> store_wf (set_products (deleteOne cond (products s)) s).
Proof.
  intros (H1 & H2 & H3 & H4). unfold store_wf.
  cbn [users products orders profiles nextId set_products].
  split; [|split; [|split]]; auto; now apply ids_ok_deleteOne.
Qed.

Lemma store_wf_Order_insert (now : Z) (uid : ObjectId) (lines : list OrderLine) (total : Z)
    (s : Store) :
  store_wf s -> store_wf (snd (Order_insert now uid lines total s)).
Proof.
  intros (H1 & H2 & H3 & H4). unfold store_wf, Order_insert.
  cbn [snd users products orders profiles nextId bump_id set_orders].
  rewrite map_app. cbn [map o_id].
  split; [|split; [|split]]; try (now apply ids_ok_bump); now apply ids_ok_insert.
Qed.

Lemma store_wf_Order_update (id : ObjectId) (st : option string) (s : Store) :
  store_wf s -> store_wf (snd (Order_findByIdAndUpdate id st s)).
Proof.
  intros (H1 & H2 & H3 & H4). unfold store_wf, Order_findByIdAndUpdate.
  cbn [snd users products orders profiles nextId set_orders].
  rewrite (map_id_updateOne o_id); [easy|]. intro o. now destruct st.
Qed.

(** ** Emails are unique and wishlists have no duplicates *)

Ltac hoare_invariant_eq I :=
  repeat match goal with
  | |- hoare _ (bind _ _) _ _ => apply hoare_bind with (Q := fun _ => I); [|intro]
  | |- hoare _ (ret _) _ _ => apply hoare_ret; intros; assumption
  | |- hoare _ (throw _) _ _ => apply hoare_throw; intros; assumption
  | |- hoare _ (promise_all_map _ _) _ _ => apply hoare_promise_all_map; intro
  | |- hoare _ (await _) _ _ => apply hoare_await; intros ? ?; split; [assumption|]
  | |- hoare _ (match ?x with _ => _ end) _ _ => destruct x eqn:?
  end.

Lemma unique_by_id {A} (id : A -> ObjectId) (l : list A) (x y : A) :
  NoDup (map id l) -> In x l -> In y l -> id x = id y -> x = y.
Proof.
  induction l as [|a l IH]; [intros _ []|]. cbn. intros Hd Hx Hy Hid.
  inversion Hd as [|? ? Ha Hl]; subst.
  destruct Hx as [->|Hx], Hy as [->|Hy]; auto.
  - exfalso. apply Ha. rewrite Hid. now apply in_map.
  - exfalso. apply Ha. rewrite <- Hid. now apply in_map.
Qed.

Lemma users_inv_frame (w : bool) (s s' : Store) :
  store_wf s' -> users s' = users s -> users_inv w s -> users_inv w s'.
Proof.
  intros Hwf Hu (_ & He & Hw). unfold users_inv, emails_unique, wishlist_inv in *.
  rewrite Hu. auto.
Qed.

Lemma users_inv_save_found (w : bool) (s : Store) (email : string) (u u' : User) :
  users_inv w s -> User_findOne email s = Some u ->
  u_id u' = u_id u -> u_email u' = u_email u ->
  (w = true -> NoDup (u_wishlist u')) ->
  users_inv w (User_save u' s).
Proof.
  intros (Hwf & He & Hw) Hu Hid Hem Hnd.
  split; [now apply store_wf_User_save|]. split.
  - unfold emails_unique, User_save in *. cbn [users set_users].
    rewrite map_map.
    rewrite (map_ext_in _ u_email); [exact He|].
    intros v Hv. destruct (Nat.eqb (u_id v) (u_id u')) eqn:E; [|reflexivity].
    apply Nat.eqb_eq in E. cbn [hydrated u_email]. rewrite Hem. f_equal.
    destruct Hwf as ((Hd & _) & _).
    apply (unique_by_id u_id (users s)); auto; [|congruence].
    unfold User_findOne in Hu. now apply find_some in Hu.
  - intro Ew. specialize (Hw Ew). specialize (Hnd Ew).
    unfold wishlist_inv, User_save in *. cbn [users set_users].
    apply Forall_map. revert Hw. apply Forall_impl. intros v Hv.
    now destruct (Nat.eqb (u_id v) (u_id u')).
Qed.

Lemma users_inv_found (w : bool) (s : Store) (email : string) (u : User) :
  users_inv w s -> User_findOne email s = Some u -> w = true -> NoDup (u_wishlist u).
Proof.
  intros (_ & _ & Hw) Hu Ew. specialize (Hw Ew).
  unfold wishlist_inv in Hw. rewrite Forall_forall in Hw.
  apply Hw. unfold User_findOne in Hu. now apply find_some in Hu.
Qed.

Lemma users_inv_updateOne (w : bool) (cond : User -> bool) (change : User -> User)
    (s : Store) :
  (forall u, u_id (change u) = u_id u) ->
  (forall u, u_email (change u) = u_email u) ->
  (forall u, NoDup (u_wishlist u) -> NoDup (u_wishlist (change u))) ->
  users_inv w s -> users_inv w (set_users (updateOne cond change (users s)) s).
Proof.
  intros Hid Hem Hnd (Hwf & He & Hw).
  split; [now apply store_wf_users_updateOne|]. split.
  - unfold emails_unique in *. cbn [users set_users].
    clear Hw Hwf. induction (users s) as [|v l IH]; [constructor|].
    cbn in *. inversion He as [|? ? Hv Hl]; subst.
    destruct (cond v); cbn; [now rewrite Hem|].
    constructor; [|now apply IH].
    intro Hin. apply Hv. clear IH He Hv Hl.
    induction l as [|x l IH]; [easy|]. cbn in *.
    destruct (cond x); cbn in *; [rewrite Hem in Hin; exact Hin|].
    destruct Hin as [Hin|Hin]; [now left|right; now apply IH].
  - intro Ew. specialize (Hw Ew). unfold wishlist_inv in *. cbn [users set_users].
    induction Hw as [|v l Hv Hl IH]; cbn; [constructor|].
    destruct (cond v); constructor; auto.
Qed.

Lemma find_none_email (email : string) (l : list User) :
  find (has_email email) l = None -> ~ In email (map u_email l).
Proof.
  intros H Hin. apply in_map_iff in Hin. destruct Hin as (u & Hu & Hin).
  pose proof (find_none _ _ H u Hin) as Hf. unfold has_email in Hf.
  rewrite Hu, String.eqb_refl in Hf. discriminate.
Qed.

Lemma users_inv_insert (w : bool) (s : Store) (name email hashed : string)
    (role : option string) (fields : ObjectId -> User) :
  new_user name email hashed role = Some fields ->
  User_findOne email s = None ->
  users_inv w s -> users_inv w (snd (User_insert fields s)).
Proof.
  intros Hn Hf (Hwf & He & Hw).
  split; [apply store_wf_User_insert;
          [now apply new_user_id with name email hashed role|exact Hwf]|].
  unfold new_user in Hn.
  destruct (String.eqb name "" || String.eqb email ""); [discriminate|].
  injection Hn as <-. split.
  - unfold emails_unique, User_insert in *. cbn [snd users bump_id set_users].
    rewrite map_app. cbn [map u_email].
    apply NoDup_app; [exact He|repeat constructor; intros []|].
    intros x Hx [<-|[]]. now apply (find_none_email _ _ Hf).
  - intro Ew. specialize (Hw Ew).
    unfold wishlist_inv, User_insert in *. cbn [snd users bump_id set_users].
    apply Forall_app. split; [exact Hw|]. repeat constructor.
Qed.

Lemma post_cart_users_inv (w : bool) (email idtext : string) (q : option Z)
    (conn : Conn) (s : Store) :
  users_inv w s -> users_inv w (snd (post_cart email idtext q conn s)).
Proof.
  unfold post_cart. apply hoare_try_catch with (P := users_inv w).
  eapply hoare_bind; [apply hoare_query|]. intros [u|].
  - destruct (cart_add idtext q (hydrated_cart u)) as [cart|];
      [|apply hoare_throw; now intros s0 [Hinv _]].
    apply hoare_bind with (Q := fun _ => users_inv w); [|intro; now apply hoare_ret].
    apply hoare_user_save. intros s0 [Hinv Hu]. split; [exact Hinv|].
    symmetry in Hu.
    apply (users_inv_save_found w s0 email u); auto.
    intro Ew. change (NoDup (u_wishlist u)). now apply users_inv_found with w s0 email.
  - apply hoare_ret. now intros s0 [Hinv _].
Qed.

Lemma delete_cart_remove_users_inv (w : bool) (email idtext : string)
    (conn : Conn) (s : Store) :
  users_inv w s -> users_inv w (snd (delete_cart_remove email idtext conn s)).
Proof.
  unfold delete_cart_remove. apply hoare_try_catch with (P := users_inv w).
  eapply hoare_bind; [apply hoare_query|]. intros [[u cart]|].
  - apply hoare_bind with (Q := fun _ => users_inv w); [|intro; now apply hoare_ret].
    apply hoare_user_save. intros s0 [Hinv Hu]. split; [exact Hinv|].
    destruct (User_findOne email s0) as [u0|] eqn:E; [|discriminate Hu].
    cbn in Hu. injection Hu as -> _.
    apply (users_inv_save_found w s0 email u0); auto.
    intro Ew. change (NoDup (u_wishlist u0)). now apply users_inv_found with w s0 email.
  - apply hoare_ret. now intros s0 [Hinv _].
Qed.

Lemma includes_printed (pid : ObjectId) (w : list ObjectId) :
  includes (toString pid) w = true <-> In pid w.
Proof.
  unfold includes. rewrite existsb_exists. split.
  - intros (x & Hx & E). apply String.eqb_eq, toString_inj in E. now subst.
  - intro H. exists pid. split; [exact H|apply String.eqb_refl].
Qed.

Lemma NoDup_push (pid : ObjectId) (w : list ObjectId) :
  includes (toString pid) w = false -> NoDup w -> NoDup (w ++ [pid]).
Proof.
  intros He Hw. apply NoDup_app; [exact Hw|repeat constructor; intros []|].
  intros x Hx [->|[]].
  assert (includes (toString x) w = true) by (now apply includes_printed).
  congruence.
Qed.

Lemma post_wishlist_users_inv (w : bool) (email idtext : string) (conn : Conn) (s : Store) :
  (w = true -> canonical idtext = true) ->
  users_inv w s -> users_inv w (snd (post_wishlist email idtext conn s)).
Proof.
  intro Hcan. unfold post_wishlist. apply hoare_try_catch with (P := users_inv w).
  eapply hoare_bind; [apply hoare_query|]. intros [u|].
  - destruct (includes idtext (u_wishlist u)) eqn:Ex.
    + apply hoare_ret. now intros s0 [Hinv _].
    + destruct (castObjectId idtext) as [pid|] eqn:Ec;
        [|apply hoare_throw; now intros s0 [Hinv _]].
      apply hoare_bind with (Q := fun _ => users_inv w); [|intro; now apply hoare_ret].
      apply hoare_user_save. intros s0 [Hinv Hu]. split; [exact Hinv|].
      symmetry in Hu.
      apply (users_inv_save_found w s0 email u); auto.
      intro Ew. cbn. apply NoDup_push.
      * now rewrite <- (canonical_printed idtext pid Ec (Hcan Ew)).
      * now apply users_inv_found with w s0 email.
  - apply hoare_ret. now intros s0 [Hinv _].
Qed.

Lemma post_signup_users_inv (w : bool) (bcrypt_hash : string -> string)
    (name email password confirm : string) (role : option string) (conn : Conn) (s : Store) :
  users_inv w s ->
  users_inv w (snd (post_signup bcrypt_hash name email password confirm role conn s)).
Proof.
  unfold post_signup. apply hoare_try_catch with (P := users_inv w).
  destruct (negb (String.eqb password confirm)); [now apply hoare_ret|].
  eapply hoare_bind; [apply hoare_query|].
  intros [u|]; [apply hoare_ret; now intros s0 [Hinv _]|].
  destruct (new_user name email (bcrypt_hash password) role) as [fields|] eqn:E;
    [|apply hoare_throw; now intros s0 [Hinv _]].
  apply hoare_bind with (Q := fun _ => users_inv w); [|intro; now apply hoare_ret].
  apply hoare_await. intros s0 [Hinv Hu]. split; [exact Hinv|].
  now apply users_inv_insert with name email (bcrypt_hash password) role.
Qed.

Lemma pull_wishlist_NoDup (pid : ObjectId) (u : User) :
  NoDup (u_wishlist u) -> NoDup (u_wishlist (pull_wishlist pid u)).
Proof. cbn. apply NoDup_filter. Qed.

Lemma handle_users_inv (w : bool) (bcrypt_hash : string -> string)
    (bcrypt_compare : string -> string -> bool)
    (RegExp_i : string -> string + (string -> bool))
    (decodeURIComponent : string -> option string)
    (r : Request) (conn : Conn) (s : Store) :
  (w = true -> adds_canonically r = true) ->
  users_inv w s ->
  users_inv w (snd (handle bcrypt_hash bcrypt_compare RegExp_i decodeURIComponent r conn s)).
Proof.
  intro Hcan.
  destruct r; cbn [handle];
    try apply post_cart_users_inv; try apply delete_cart_remove_users_inv;
    try (apply post_wishlist_users_inv; exact Hcan); try apply post_signup_users_inv;
    try (intro; now rewrite post_login_store);
    unfold_handler; apply hoare_try_catch with (P := users_inv w);
    hoare_invariant_eq (users_inv w);
    try (cbn; assumption).
  all: try match goal with
           | H : users_inv ?w0 ?s0 |- users_inv ?w0 (snd (Profile_insert _ ?s0)) =>
               apply users_inv_frame with s0;
               [apply store_wf_Profile_insert; [reflexivity|apply H]|reflexivity|exact H]
           | H : users_inv ?w0 ?s0 |- users_inv ?w0 (snd (Profile_save _ ?s0)) =>
               apply users_inv_frame with s0;
               [apply store_wf_Profile_save; apply H|reflexivity|exact H]
           | H : users_inv ?w0 ?s0 |- users_inv ?w0 (snd (Product_insert _ ?s0)) =>
               apply users_inv_frame with s0;
               [apply store_wf_Product_insert; [eapply new_product_id; eassumption|apply H]
               |reflexivity|exact H]
           | H : users_inv ?w0 ?s0 |- users_inv ?w0 (snd (Order_insert _ _ _ _ ?s0)) =>
               apply users_inv_frame with s0;
               [apply store_wf_Order_insert; apply H|reflexivity|exact H]
           | H : users_inv ?w0 ?s0 |- users_inv ?w0 (snd (Order_findByIdAndUpdate _ _ ?s0)) =>
               apply users_inv_frame with s0;
               [apply store_wf_Order_update; apply H|reflexivity|exact H]
           end.
  all: try (cbn [snd command]; apply users_inv_updateOne;
            [reflexivity|reflexivity| |assumption]; intros ?;
            first [apply pull_wishlist_NoDup|exact (fun H => H)]).
  - destruct a;
      (match goal with
       | H : users_inv _ ?s0 |- _ =>
           apply users_inv_frame with s0;
           [first [apply store_wf_Profile_save|apply store_wf_Profile_insert; [reflexivity|]];
            apply H
           |reflexivity|exact H]
       end).
  - apply users_inv_frame with s0; [|reflexivity|assumption].
    apply store_wf_products_updateOne; [reflexivity|].
    now match goal with H : users_inv _ _ |- _ => apply H end.
  - apply users_inv_frame with s0; [|reflexivity|assumption].
    apply store_wf_products_deleteOne.
    now match goal with H : users_inv _ _ |- _ => apply H end.
Qed.

Lemma serve_users_inv (w : bool) (bcrypt_hash : string -> string)
    (bcrypt_compare : string -> string -> bool)
    (RegExp_i : string -> string + (string -> bool))
    (decodeURIComponent : string -> option string)
    (rs : list (Request * Conn)) (s : Store) :
  (w = true -> Forall (fun rc => adds_canonically (fst rc) = true) rs) ->
  users_inv w s ->
  users_inv w (serve bcrypt_hash bcrypt_compare RegExp_i decodeURIComponent rs s).
Proof.
  revert s. induction rs as [|[r conn] rs IH]; intros s Hcan H; cbn [serve]; [exact H|].
  apply IH.
  - intro Ew. specialize (Hcan Ew). now inversion Hcan.
  - apply handle_users_inv; [|exact H].
    intro Ew. specialize (Hcan Ew). now inversion Hcan.
Qed.

Lemma users_inv_empty (w : bool) : users_inv w empty_store.
Proof.
  unfold users_inv, store_wf, ids_ok, emails_unique, wishlist_inv. cbn.
  repeat split; constructor.
Qed.

(** Starting from an empty store, whatever requests are served over whatever
    connections, the ids of each collection stay pairwise distinct and
    below the id counter. *)
Theorem ids_always_unique (bcrypt_hash : string -> string)
    (bcrypt_compare : string -> string -> bool)
    (RegExp_i : string -> string + (string -> bool))
    (decodeURIComponent : string -> option string)
    (rs : list (Request * Conn)) :
  store_wf (serve bcrypt_hash bcrypt_compare RegExp_i decodeURIComponent rs empty_store).
Proof.
  apply (serve_users_inv false); [discriminate|apply users_inv_empty].
Qed.

(** Starting from an empty store, whatever requests are served over whatever
    connections, no two users are ever registered under one email: the
    lookup a signup makes before it inserts keeps emails unique, and no
    other route changes the email of a user. *)
Theorem emails_always_unique (bcrypt_hash : string -> string)
    (bcrypt_compare : string -> string -> bool)
    (RegExp_i : string -> string + (string -> bool))
    (decodeURIComponent : string -> option string)
    (rs : list (Request * Conn)) :
  emails_unique (serve bcrypt_hash bcrypt_compare RegExp_i decodeURIComponent rs empty_store).
Proof.
  apply (serve_users_inv false); [discriminate|apply users_inv_empty].
Qed.

(** Starting from an empty store, whatever requests are served over whatever
    connections, no wishlist ever holds a product reference twice, as long
    as every request that adds to a wishlist names the product by the text
    its id prints as (24 hexadecimal digits with the letters in lower
    case), which is how every answer of the API shows an id. *)
Theorem wishlists_never_repeat (bcrypt_hash : string -> string)
    (bcrypt_compare : string -> string -> bool)
    (RegExp_i : string -> string + (string -> bool))
    (decodeURIComponent : string -> option string)
    (rs : list (Request * Conn)) :
  Forall (fun rc => adds_canonically (fst rc) = true) rs ->
  wishlist_inv (serve bcrypt_hash bcrypt_compare RegExp_i decodeURIComponent rs empty_store).
Proof.
  intro H.
  now apply (serve_users_inv true bcrypt_hash bcrypt_compare RegExp_i decodeURIComponent
               rs empty_store (fun _ => H) (users_inv_empty true)).
Qed.

(** Bob signs up and puts the clog on his wishlist twice, by the text its id
    prints as: his wishlist holds it once. *)
Lemma wishlists_never_repeat_witness :
  Forall (fun rc => adds_canonically (fst rc) = true)
    [(PostSignup "Bob" "bob@shoekart.test" "secret" "secret" None, healthy);
     (PostWishlist "bob@shoekart.test" "00000000000000000000000b", healthy);
     (PostWishlist "bob@shoekart.test" "00000000000000000000000b", healthy)]
  /\ wishlist_inv
       (serve Standin.bcrypt_hash Standin.bcrypt_compare Standin.RegExp_i
          Standin.decodeURIComponent
          [(PostSignup "Bob" "bob@shoekart.test" "secret" "secret" None, healthy);
           (PostWishlist "bob@shoekart.test" "00000000000000000000000b", healthy);
           (PostWishlist "bob@shoekart.test" "00000000000000000000000b", healthy)]
          empty_store)
  /\ option_map u_wishlist
       (User_findOne "bob@shoekart.test"
          (serve Standin.bcrypt_hash Standin.bcrypt_compare Standin.RegExp_i
             Standin.decodeURIComponent
             [(PostSignup "Bob" "bob@shoekart.test" "secret" "secret" None, healthy);
              (PostWishlist "bob@shoekart.test" "00000000000000000000000b", healthy);
              (PostWishlist "bob@shoekart.test" "00000000000000000000000b", healthy)]
             empty_store))
     = Some [11].
Proof.
  assert (H : Forall (fun rc => adds_canonically (fst rc) = true)
    [(PostSignup "Bob" "bob@shoekart.test" "secret" "secret" None, healthy);
     (PostWishlist "bob@shoekart.test" "00000000000000000000000b", healthy);
     (PostWishlist "bob@shoekart.test" "00000000000000000000000b", healthy)])
    by (repeat constructor).
  split; [exact H|]. split; [|reflexivity].
  exact (wishlists_never_repeat Standin.bcrypt_hash Standin.bcrypt_compare Standin.RegExp_i
           Standin.decodeURIComponent _ H).
Defined.

(** With the letter of the id in upper case the second request is not
    recognised as a repetition: the wishlist holds the clog twice. *)
Example wishlist_other_spelling_repeats :
  option_map u_wishlist
    (User_findOne Sample.email
       (snd (post_wishlist Sample.email "00000000000000000000000B" healthy
               (Sample.shop_with_clog [] [11]))))
  = Some [11; 11].
Proof. reflexivity. Qed.

(** ** Signing up *)

(** The signup handler, by what the connection and the lookup give. *)
Lemma post_signup_run_conn (bcrypt_hash : string -> string)
    (name email password confirm : string) (role : option string)
    (conn : Conn) (s : Store) :
  post_signup bcrypt_hash name email password confirm role conn s
  = if negb (String.eqb password confirm)
    then (mkResponse 400 (Failure (Some "Passwords do not match")), s)
    else match conn 0 with
         | Some _ => (mkResponse 500 (Failure (Some "Server error")), s)
         | None =>
             match User_findOne email s with
             | Some _ => (mkResponse 409 (Failure (Some "Email already exists")), s)
             | None =>
                 match new_user name email (bcrypt_hash password) role with
                 | None => (mkResponse 500 (Failure (Some "Server error")), s)
                 | Some fields =>
                     match conn 1 with
                     | Some _ => (mkResponse 500 (Failure (Some "Server error")), s)
                     | None =>
                         (mkResponse 200 (SuccessRole (Some (u_role (fields (nextId s))))),
                          snd (User_insert fields s))
                     end
                 end
             end
         end.
Proof.
  unfold post_signup. run_handler.
  destruct (negb (String.eqb password confirm)); [reflexivity|].
  destruct (conn 0); [reflexivity|]. cbn [query].
  destruct (User_findOne email s); [reflexivity|].
  destruct (new_user name email (bcrypt_hash password) role); [|reflexivity].
  destruct (conn 1); reflexivity.
Qed.

(** Whatever the connection does, a signup either answers 200 and has
    inserted exactly one user, with the name, email and role sent (the
    role defaulting to "user"), the hash of the password, an empty wishlist
    and an empty cart, or it answers another status and has left the store
    as it was.  It succeeds only when the confirmation equals the password,
    no user has the email yet, and neither the name nor the email is
    empty. *)
Theorem post_signup_all_or_nothing (bcrypt_hash : string -> string)
    (name email password confirm : string) (role : option string)
    (conn : Conn) (s : Store) :
  (post_signup bcrypt_hash name email password confirm role conn s
   = (mkResponse 200 (SuccessRole (Some (stored_role role))),
      with_new_user s name email (bcrypt_hash password) role)
   /\ password = confirm /\ User_findOne email s = None
   /\ name <> "" /\ email <> ""
   /\ users (snd (post_signup bcrypt_hash name email password confirm role conn s))
      = users s ++ [mkUser (nextId s) name email (bcrypt_hash password)
                      (match role with Some r => r | None => "user" end) [] (Some [])])
  \/ (status (fst (post_signup bcrypt_hash name email password confirm role conn s)) <> 200
      /\ snd (post_signup bcrypt_hash name email password confirm role conn s) = s).
Proof.
  unfold post_signup. run_handler.
  destruct (String.eqb password confirm) eqn:Ep; cbn [negb];
    [|right; split; [discriminate|reflexivity]].
  apply String.eqb_eq in Ep.
  destruct (conn 0); [right; split; [discriminate|reflexivity]|].
  cbn [query]. destruct (User_findOne email s) as [u|] eqn:Eu;
    [right; split; [discriminate|reflexivity]|].
  unfold new_user.
  destruct (String.eqb name "") eqn:En; cbn [orb];
    [right; split; [discriminate|reflexivity]|].
  destruct (String.eqb email "") eqn:Ee;
    [right; split; [discriminate|reflexivity]|].
  destruct (conn 1); [right; split; [discriminate|reflexivity]|].
  left. apply String.eqb_neq in En, Ee. repeat split; auto.
Qed.

Lemma post_signup_success (bcrypt_hash : string -> string)
    (name email password confirm : string) (role : option string)
    (conn : Conn) (s : Store) :
  status (fst (post_signup bcrypt_hash name email password confirm role conn s)) = 200 ->
  snd (post_signup bcrypt_hash name email password confirm role conn s)
  = with_new_user s name email (bcrypt_hash password) role
  /\ User_findOne email
       (snd (post_signup bcrypt_hash name email password confirm role conn s))
     = Some (mkUser (nextId s) name email (bcrypt_hash password) (stored_role role)
               [] (Some [])).
Proof.
  rewrite post_signup_run_conn.
  destruct (negb (String.eqb password confirm)); [discriminate|].
  destruct (conn 0); [discriminate|].
  destruct (User_findOne email s) eqn:Hu; [discriminate|].
  unfold new_user. destruct (String.eqb name "" || String.eqb email ""); [discriminate|].
  destruct (conn 1); [discriminate|]. intros _.
  cbn [snd User_insert]. split; [reflexivity|].
  unfold User_findOne. cbn [users bump_id set_users].
  apply find_app_new; [exact Hu|]. unfold has_email. cbn. apply String.eqb_refl.
Qed.

(** After a successful signup, a login with the same email and password and
    the stored role succeeds, provided the password comparison accepts the
    hash that was made of the password. *)
Theorem signup_then_login (bcrypt_hash : string -> string)
    (bcrypt_compare : string -> string -> bool)
    (name email password confirm : string) (role : option string)
    (conn : Conn) (s : Store) :
  bcrypt_compare password (bcrypt_hash password) = true ->
  status (fst (post_signup bcrypt_hash name email password confirm role conn s)) = 200 ->
  fst (post_login bcrypt_compare email password (Some (stored_role role)) healthy
         (snd (post_signup bcrypt_hash name email password confirm role conn s)))
  = mkResponse 200 (LoginOk (stored_role role) None).
Proof.
  intros Hb H. destruct (post_signup_success _ _ _ _ _ _ _ _ H) as [_ Hu].
  rewrite post_login_cases, Hu. cbn [fst u_password u_role]. rewrite Hb.
  unfold role_differs. cbn [u_role negb]. now rewrite String.eqb_refl.
Qed.

Lemma signup_then_login_witness :
  Standin.bcrypt_compare "secret" (Standin.bcrypt_hash "secret") = true
  /\ status (fst (post_signup Standin.bcrypt_hash "Bob" "bob@shoekart.test" "secret"
                    "secret" None healthy (Sample.shop [] []))) = 200
  /\ fst (post_login Standin.bcrypt_compare "bob@shoekart.test" "secret" (Some "user") healthy
            (snd (post_signup Standin.bcrypt_hash "Bob" "bob@shoekart.test" "secret"
                    "secret" None healthy (Sample.shop [] []))))
     = mkResponse 200 (LoginOk "user" None).
Proof.
  split; [reflexivity|]. split; [reflexivity|].
  exact (signup_then_login Standin.bcrypt_hash Standin.bcrypt_compare
           "Bob" "bob@shoekart.test" "secret" "secret" None healthy (Sample.shop [] [])
           eq_refl eq_refl).
Defined.

(** After a successful signup, a login with another password is refused
    with 401 when the comparison rejects it, and a login under another role
    with 403. *)
Theorem signup_then_wrong_login (bcrypt_hash : string -> string)
    (bcrypt_compare : string -> string -> bool)
    (name email password confirm other : string) (role : option string)
    (conn : Conn) (s : Store) :
  bcrypt_compare password (bcrypt_hash password) = true ->
  bcrypt_compare other (bcrypt_hash password) = false ->
  status (fst (post_signup bcrypt_hash name email password confirm role conn s)) = 200 ->
  fst (post_login bcrypt_compare email other (Some (stored_role role)) healthy
         (snd (post_signup bcrypt_hash name email password confirm role conn s)))
  = mkResponse 401 (Failure (Some "Invalid password"))
  /\ forall r, r <> stored_role role ->
       fst (post_login bcrypt_compare email password (Some r) healthy
              (snd (post_signup bcrypt_hash name email password confirm role conn s)))
       = mkResponse 403
           (Failure (Some ("Incorrect role. Registered as " ++ stored_role role)%string)).
Proof.
  intros Hb Ho H. destruct (post_signup_success _ _ _ _ _ _ _ _ H) as [_ Hu].
  split.
  - rewrite post_login_cases, Hu. cbn [fst u_password]. now rewrite Ho.
  - intros r Hr. rewrite post_login_cases, Hu. cbn [fst u_password u_role]. rewrite Hb.
    unfold role_differs. cbn [u_role negb].
    assert (E : String.eqb (stored_role role) r = false).
    { apply String.eqb_neq. congruence. }
    now rewrite E.
Qed.

Lemma signup_then_wrong_login_witness :
  Standin.bcrypt_compare "secret" (Standin.bcrypt_hash "secret") = true
  /\ Standin.bcrypt_compare "guess" (Standin.bcrypt_hash "secret") = false
  /\ fst (post_login Standin.bcrypt_compare "bob@shoekart.test" "guess" (Some "user") healthy
            (snd (post_signup Standin.bcrypt_hash "Bob" "bob@shoekart.test" "secret"
                    "secret" None healthy (Sample.shop [] []))))
     = mkResponse 401 (Failure (Some "Invalid password")).
Proof.
  split; [reflexivity|]. split; [reflexivity|].
  exact (proj1 (signup_then_wrong_login Standin.bcrypt_hash Standin.bcrypt_compare
                  "Bob" "bob@shoekart.test" "secret" "secret" "guess" None healthy
                  (Sample.shop [] []) eq_refl eq_refl eq_refl)).
Defined.

(** After a successful signup, any further signup under the same email is
    refused with 409 and changes nothing. *)
Theorem signup_twice_conflict (bcrypt_hash : string -> string)
    (name email password confirm : string) (role : option string)
    (name2 password2 : string) (role2 : option string)
    (conn : Conn) (s : Store) :
  status (fst (post_signup bcrypt_hash name email password confirm role conn s)) = 200 ->
  post_signup bcrypt_hash name2 email password2 password2 role2 healthy
    (snd (post_signup bcrypt_hash name email password confirm role conn s))
  = (mkResponse 409 (Failure (Some "Email already exists")),
     snd (post_signup bcrypt_hash name email password confirm role conn s)).
Proof.
  intro H. destruct (post_signup_success _ _ _ _ _ _ _ _ H) as [_ Hu].
  set (s' := snd (post_signup bcrypt_hash name email password confirm role conn s)) in *.
  unfold post_signup. run_handler. rewrite String.eqb_refl. cbn.
  now rewrite Hu.
Qed.

Lemma signup_twice_conflict_witness :
  status (fst (post_signup Standin.bcrypt_hash "Bob" "bob@shoekart.test" "secret"
                 "secret" None healthy empty_store)) = 200
  /\ fst (post_signup Standin.bcrypt_hash "Robert" "bob@shoekart.test" "other" "other"
            (Some "admin") healthy
            (snd (post_signup Standin.bcrypt_hash "Bob" "bob@shoekart.test" "secret"
                    "secret" None healthy empty_store)))
     = mkResponse 409 (Failure (Some "Email already exists")).
Proof.
  split; [reflexivity|].
  exact (f_equal fst
           (signup_twice_conflict Standin.bcrypt_hash "Bob" "bob@shoekart.test" "secret"
              "secret" None "Robert" "other" (Some "admin") healthy empty_store eq_refl)).
Defined.

(** ** Reading a profile *)

Lemma get_profile_found (decodeURIComponent : string -> option string)
    (param email : string) (s : Store) (p : Profile) :
  decodeURIComponent param = Some email ->
  Profile_findOne email s = Some p ->
  get_profile decodeURIComponent param healthy s = (mkResponse 200 (ProfileOk None p), s).
Proof.
  intros Hd H. unfold get_profile. rewrite Hd. run_handler. cbn. now rewrite H.
Qed.

Lemma get_profile_missing (decodeURIComponent : string -> option string)
    (param email : string) (s : Store) :
  decodeURIComponent param = Some email ->
  Profile_findOne email s = None ->
  get_profile decodeURIComponent param healthy s
  = (mkResponse 200 (ProfileOk None
       (mkProfile (nextId s) (Some (name_or_placeholder (User_findOne email s))) email
          (Some "") (Some ""))),
     bump_id (set_profiles
       (profiles s ++ [mkProfile (nextId s)
                         (Some (name_or_placeholder (User_findOne email s))) email
                         (Some "") (Some "")]) s)).
Proof.
  intros Hd H. unfold get_profile. rewrite Hd. run_handler. cbn. now rewrite H.
Qed.

(** For a URL parameter that decodes to an email, the profile read over a
    healthy connection answers 200 with a profile, which is then the stored
    profile of that email.  An existing profile is returned as it is and
    nothing is written; a missing one is created with the name of the user
    of that email, or "New User" when there is no such user or the name is
    empty, and with empty phone and address.  A second read returns the
    same profile and writes nothing.  For a parameter that
    [decodeURIComponent] rejects, the read answers 500 and writes nothing,
    whatever the connection. *)
Theorem get_profile_creates_once (decodeURIComponent : string -> option string)
    (param email : string) (s : Store) :
  decodeURIComponent param = Some email ->
  let read := get_profile decodeURIComponent param healthy in
  (exists p,
    read s = (mkResponse 200 (ProfileOk None p), snd (read s))
    /\ Profile_findOne email (snd (read s)) = Some p
    /\ read (snd (read s)) = (mkResponse 200 (ProfileOk None p), snd (read s))
    /\ (forall p0, Profile_findOne email s = Some p0 -> p = p0 /\ snd (read s) = s)
    /\ (Profile_findOne email s = None ->
          exists name,
            p = mkProfile (nextId s) (Some name) email (Some "") (Some "")
            /\ profiles (snd (read s)) = profiles s ++ [p]
            /\ users (snd (read s)) = users s
            /\ (forall u, User_findOne email s = Some u -> u_name u <> "" ->
                  name = u_name u)
            /\ (forall u, User_findOne email s = Some u -> u_name u = "" ->
                  name = "New User")
            /\ (User_findOne email s = None -> name = "New User")))
  /\ (forall param' conn s0, decodeURIComponent param' = None ->
        get_profile decodeURIComponent param' conn s0
        = (mkResponse 500 (Failure (Some "Server error")), s0)).
Proof.
  intros Hd read. split.
  - unfold read. destruct (Profile_findOne email s) as [p0|] eqn:E.
    + exists p0. rewrite (get_profile_found _ param email s p0 Hd E). cbn [snd].
      rewrite (get_profile_found _ param email s p0 Hd E).
      repeat split; auto; try congruence; try discriminate.
    + rewrite (get_profile_missing _ param email s Hd E). cbn [snd]. eexists.
      assert (Hf : Profile_findOne email
                     (bump_id (set_profiles
                        (profiles s ++ [mkProfile (nextId s)
                           (Some (name_or_placeholder (User_findOne email s))) email
                           (Some "") (Some "")]) s))
                   = Some (mkProfile (nextId s)
                             (Some (name_or_placeholder (User_findOne email s))) email
                             (Some "") (Some ""))).
      { unfold Profile_findOne. cbn [profiles bump_id set_profiles].
        apply find_app_new; [exact E|]. cbn. apply String.eqb_refl. }
      split; [reflexivity|]. split; [exact Hf|]. split.
      * now rewrite (get_profile_found _ _ _ _ _ Hd Hf).
      * split; [discriminate|]. intros _.
        exists (name_or_placeholder (User_findOne email s)).
        split; [reflexivity|]. split; [reflexivity|]. split; [reflexivity|].
        split; [|split].
        -- intros u -> Hn. cbn. apply String.eqb_neq in Hn. now rewrite Hn.
        -- intros u -> Hn. cbn. now rewrite Hn.
        -- now intros ->.
  - intros param' conn s0 Hn. unfold get_profile. now rewrite Hn.
Qed.

(** Alice has no profile yet: the read creates it with her name; a
    parameter with a stray percent sign is answered 500. *)
Lemma get_profile_creates_once_witness :
  Standin.decodeURIComponent "alice%40shoekart.test" = Some Sample.email
  /\ (exists p,
        get_profile Standin.decodeURIComponent "alice%40shoekart.test" healthy
          (Sample.shop [] [])
        = (mkResponse 200 (ProfileOk None p),
           snd (get_profile Standin.decodeURIComponent "alice%40shoekart.test" healthy
                  (Sample.shop [] [])))
        /\ Profile_findOne Sample.email
             (snd (get_profile Standin.decodeURIComponent "alice%40shoekart.test" healthy
                     (Sample.shop [] [])))
           = Some p)
  /\ Profile_findOne Sample.email
       (snd (get_profile Standin.decodeURIComponent "alice%40shoekart.test" healthy
               (Sample.shop [] [])))
     = Some (mkProfile 20 (Some "Alice") Sample.email (Some "") (Some ""))
  /\ get_profile Standin.decodeURIComponent "a%zz@x.test" healthy (Sample.shop [] [])
     = (mkResponse 500 (Failure (Some "Server error")), Sample.shop [] []).
Proof.
  split; [reflexivity|].
  destruct (get_profile_creates_once Standin.decodeURIComponent "alice%40shoekart.test"
              Sample.email (Sample.shop [] []) eq_refl) as [(p & H1 & H2 & _) H3].
  split; [exists p; split; [exact H1|exact H2]|].
  split; [reflexivity|].
  apply H3. reflexivity.
Defined.

(** After a profile update over a healthy connection, the profile read of
    the same URL parameter returns a profile of the decoded email with
    exactly the name, phone and address that were sent, and writes
    nothing. *)
Theorem put_then_get_profile (decodeURIComponent : string -> option string)
    (param email : string) (name phone address : option string) (s : Store) :
  decodeURIComponent param = Some email ->
  exists p,
    get_profile decodeURIComponent param healthy
      (snd (put_profile decodeURIComponent param name phone address healthy s))
    = (mkResponse 200 (ProfileOk None p),
       snd (put_profile decodeURIComponent param name phone address healthy s))
    /\ pr_email p = email /\ pr_name p = name
    /\ pr_phone p = phone /\ pr_address p = address.
Proof.
  intro Hd.
  destruct (profile_written_is s email name phone address) as (Hf & (p & Hp & Hfields) & _).
  exists p. split; [|exact Hfields].
  apply get_profile_found with email; [exact Hd|].
  rewrite (put_profile_run _ _ _ _ _ _ _ healthy Hd eq_refl eq_refl). cbv zeta.
  destruct name as [n|]; [|exact Hp].
  change (healthy 2) with (@None string). cbv iota. cbn [snd]. exact Hp.
Qed.

Lemma put_then_get_profile_witness :
  Standin.decodeURIComponent "alice%40shoekart.test" = Some Sample.email
  /\ exists p,
       get_profile Standin.decodeURIComponent "alice%40shoekart.test" healthy
         (snd (put_profile Standin.decodeURIComponent "alice%40shoekart.test"
                 (Some "Alice B") (Some "555") None healthy (Sample.shop [] [])))
       = (mkResponse 200 (ProfileOk None p),
          snd (put_profile Standin.decodeURIComponent "alice%40shoekart.test"
                 (Some "Alice B") (Some "555") None healthy (Sample.shop [] [])))
       /\ pr_name p = Some "Alice B".
Proof.
  split; [reflexivity|].
  destruct (put_then_get_profile Standin.decodeURIComponent "alice%40shoekart.test"
              Sample.email (Some "Alice B") (Some "555") None (Sample.shop [] []) eq_refl)
    as (p & H1 & _ & H2 & _).
  exists p. split; [exact H1|exact H2].
Defined.

(** ** The wishlist *)

(** For an existing user the wishlist read lists, in the order of the stored
    wishlist, one product for each reference that resolves and nothing for
    a reference that dangles; every product listed is in the catalog. *)
Theorem get_wishlist_lists_resolved (email : string) (s : Store) (u : User) :
  User_findOne email s = Some u ->
  exists l,
    get_wishlist email healthy s = (mkResponse 200 (ProductArray l), s)
    /\ map p_id l = filter (resolves s) (u_wishlist u)
    /\ Forall (fun p => In p (products s) /\ In (p_id p) (u_wishlist u)) l.
Proof.
  intro H. exists (populate_wishlist s (u_wishlist u)).
  rewrite get_wishlist_healthy, H.
  split; [reflexivity|]. split; [apply populate_wishlist_ids|apply populate_wishlist_in].
Qed.

Lemma get_wishlist_lists_resolved_witness :
  User_findOne Sample.email (Sample.shop [] [3; 2; 1]) = Some (Sample.alice [] [3; 2; 1])
  /\ exists l,
       get_wishlist Sample.email healthy (Sample.shop [] [3; 2; 1])
       = (mkResponse 200 (ProductArray l), Sample.shop [] [3; 2; 1])
       /\ map p_id l = [2; 1].
Proof.
  split; [reflexivity|].
  destruct (get_wishlist_lists_resolved Sample.email (Sample.shop [] [3; 2; 1])
              (Sample.alice [] [3; 2; 1]) eq_refl) as (l & H1 & H2 & _).
  exists l. split; [exact H1|exact H2].
Defined.

Lemma post_wishlist_run (email idtext : string) (pid : ObjectId) (s : Store) (u : User) :
  User_findOne email s = Some u ->
  validates u = true ->
  castObjectId idtext = Some pid ->
  post_wishlist email idtext healthy s
  = (mkResponse 200 Success,
     if includes idtext (u_wishlist u) then s
     else User_save (set_wishlist u (u_wishlist u ++ [pid])) s).
Proof.
  intros H Hv Hc. unfold post_wishlist. run_handler. cbn. rewrite H.
  destruct (includes idtext (u_wishlist u)); [reflexivity|]. rewrite Hc.
  rewrite validates_set_wishlist, Hv. reflexivity.
Qed.

(** A user record that fails the validation cannot be saved: an add that
    has to push answers 500 and the store stays as it is. *)
Lemma post_wishlist_invalid (email idtext : string) (s : Store) (u : User) :
  User_findOne email s = Some u ->
  validates u = false ->
  includes idtext (u_wishlist u) = false ->
  post_wishlist email idtext healthy s = (mkResponse 500 (Failure None), s).
Proof.
  intros H Hv Hi. unfold post_wishlist. run_handler. cbn. rewrite H, Hi.
  destruct (castObjectId idtext); [|reflexivity].
  rewrite validates_set_wishlist, Hv. reflexivity.
Qed.

(** A wishlist without the product holds no id that prints as a text
    denoting the product. *)
Lemma includes_absent (idtext : string) (pid : ObjectId) (w : list ObjectId) :
  castObjectId idtext = Some pid -> ~ In pid w -> includes idtext w = false.
Proof.
  intros Hc Hn. destruct (includes idtext w) eqn:E; [|reflexivity].
  unfold includes in E. apply existsb_exists in E. destruct E as (x & Hx & E).
  apply String.eqb_eq in E. apply (toString_cast x pid idtext E) in Hc. now subst.
Qed.

(** No wishlist holds an id that prints as a text spelling its id in another
    way than the id prints. *)
Lemma includes_other_spelling (idtext : string) (pid : ObjectId) (w : list ObjectId) :
  castObjectId idtext = Some pid -> idtext <> toString pid -> includes idtext w = false.
Proof.
  intros Hc Hn. destruct (includes idtext w) eqn:E; [|reflexivity].
  unfold includes in E. apply existsb_exists in E. destruct E as (x & Hx & E).
  apply String.eqb_eq in E. pose proof (toString_cast x pid idtext E Hc) as Hid.
  subst x. now symmetry in E.
Qed.

Lemma wishlist_of_save (s : Store) (email : string) (u : User) (w : list ObjectId) :
  User_findOne email s = Some u ->
  User_findOne email (User_save (set_wishlist u w) s) = Some (hydrated (set_wishlist u w)).
Proof.
  intro H. apply (User_findOne_save s email u (set_wishlist u w) H eq_refl).
  cbn [set_wishlist u_email]. now apply User_findOne_email with s.
Qed.

(** For an existing user, whose record passes the validation of [save()]
    (its name and email are not empty), adding to the wishlist answers
    success whether or
    not the product exists, and the reference is in the wishlist
    afterwards.  The handler recognises a reference the wishlist holds only
    when the request names it by the text its id prints as: then the
    wishlist is left as it is when it holds the reference, the reference is
    appended when it does not, and a second identical request changes
    nothing.  When the request spells the id in another way (a letter in
    upper case), the reference is appended whether or not the wishlist
    holds it, and a second identical request appends it again. *)
Theorem post_wishlist_adds_once (email idtext : string) (pid : ObjectId) (s : Store)
    (u : User) :
  User_findOne email s = Some u ->
  u_name u <> "" -> u_email u <> "" ->
  castObjectId idtext = Some pid ->
  let add := post_wishlist email idtext healthy in
  fst (add s) = mkResponse 200 Success
  /\ (exists w, wishlist_of email (snd (add s)) = Some w /\ In pid w)
  /\ (idtext = toString pid ->
        (In pid (u_wishlist u) -> snd (add s) = s)
        /\ (~ In pid (u_wishlist u) ->
              wishlist_of email (snd (add s)) = Some (u_wishlist u ++ [pid]))
        /\ add (snd (add s)) = (mkResponse 200 Success, snd (add s)))
  /\ (idtext <> toString pid ->
        wishlist_of email (snd (add s)) = Some (u_wishlist u ++ [pid])
        /\ wishlist_of email (snd (add (snd (add s)))) = Some (u_wishlist u ++ [pid; pid])).
Proof.
  intros H Hname Hmail Hc add. unfold add.
  pose proof (validates_true u Hname Hmail) as Hv.
  rewrite (post_wishlist_run email idtext pid s u H Hv Hc). cbn [fst snd].
  pose proof (wishlist_of_save s email u (u_wishlist u ++ [pid]) H) as Hf.
  split; [reflexivity|]. split; [|split].
  - destruct (includes idtext (u_wishlist u)) eqn:E.
    + exists (u_wishlist u). unfold wishlist_of. rewrite H. split; [reflexivity|].
      unfold includes in E. apply existsb_exists in E. destruct E as (x & Hx & E).
      apply String.eqb_eq in E. now rewrite <- (toString_cast x pid idtext E Hc).
    + exists (u_wishlist u ++ [pid]). unfold wishlist_of. rewrite Hf.
      split; [reflexivity|]. apply in_or_app. right. now left.
  - intros ->. destruct (includes (toString pid) (u_wishlist u)) eqn:E.
    + split; [reflexivity|]. split.
      * intro Hn. apply includes_printed in E. contradiction.
      * rewrite (post_wishlist_run email _ pid s u H Hv Hc). now rewrite E.
    + split; [intro Hin; apply includes_printed in Hin; congruence|].
      split; [intros _; unfold wishlist_of; now rewrite Hf|].
      rewrite (post_wishlist_run email _ pid _ _ Hf Hv Hc).
      cbn [hydrated set_wishlist u_wishlist].
      assert (E' : includes (toString pid) (u_wishlist u ++ [pid]) = true).
      { apply includes_printed. apply in_or_app. right. now left. }
      now rewrite E'.
  - intro Hn.
    rewrite (includes_other_spelling idtext pid (u_wishlist u) Hc Hn).
    split; [unfold wishlist_of; now rewrite Hf|].
    rewrite (post_wishlist_run email idtext pid _ _ Hf Hv Hc). cbn [snd].
    cbn [hydrated set_wishlist u_wishlist].
    rewrite (includes_other_spelling idtext pid _ Hc Hn).
    unfold wishlist_of.
    rewrite (User_findOne_save _ email _ (set_wishlist (hydrated (set_wishlist u
               (u_wishlist u ++ [pid]))) ((u_wishlist u ++ [pid]) ++ [pid])) Hf eq_refl).
    + cbn [option_map hydrated set_wishlist u_wishlist]. now rewrite <- app_assoc.
    + cbn. now apply User_findOne_email with s.
Qed.

Lemma post_wishlist_adds_once_witness :
  User_findOne Sample.email (Sample.shop_with_clog [] [11])
  = Some (Sample.alice [] [11])
  /\ u_name (Sample.alice [] [11]) <> "" /\ u_email (Sample.alice [] [11]) <> ""
  /\ castObjectId "00000000000000000000000B" = Some 11
  /\ "00000000000000000000000B" <> toString 11
  /\ wishlist_of Sample.email
       (snd (post_wishlist Sample.email "00000000000000000000000B" healthy
               (Sample.shop_with_clog [] [11])))
     = Some [11; 11]
  /\ snd (post_wishlist Sample.email "00000000000000000000000b" healthy
            (Sample.shop_with_clog [] [11]))
     = Sample.shop_with_clog [] [11].
Proof.
  assert (Hname : u_name (Sample.alice [] [11]) <> "") by (cbn; discriminate).
  assert (Hmail : u_email (Sample.alice [] [11]) <> "") by (cbn; discriminate).
  assert (Hn : "00000000000000000000000B" <> toString 11) by (vm_compute; discriminate).
  split; [reflexivity|]. split; [exact Hname|]. split; [exact Hmail|].
  split; [reflexivity|]. split; [exact Hn|]. split.
  - exact (proj1 (proj2 (proj2 (proj2
             (post_wishlist_adds_once Sample.email "00000000000000000000000B" 11
                (Sample.shop_with_clog [] [11]) (Sample.alice [] [11])
                eq_refl Hname Hmail eq_refl))) Hn)).
  - apply (proj1 (proj1 (proj2 (proj2
             (post_wishlist_adds_once Sample.email "00000000000000000000000b" 11
                (Sample.shop_with_clog [] [11]) (Sample.alice [] [11])
                eq_refl Hname Hmail eq_refl)))
             eq_refl)).
    left. reflexivity.
Defined.

(** For an existing user, removing from the wishlist takes every occurrence
    of the reference out and keeps the other references in order; after an
    add of a reference the wishlist did not hold, to a user record that
    passes the validation of [save()] (its name and email are not empty),
    the remove gives back the wishlist as it was.  The reference is given by any text that denotes it. *)
Theorem wishlist_add_then_remove (email idtext : string) (pid : ObjectId) (s : Store)
    (u : User) :
  User_findOne email s = Some u ->
  castObjectId idtext = Some pid ->
  wishlist_of email (snd (delete_wishlist_remove email idtext healthy s))
  = Some (filter (fun id => negb (Nat.eqb id pid)) (u_wishlist u))
  /\ (~ In pid (u_wishlist u) -> u_name u <> "" -> u_email u <> "" ->
      wishlist_of email
        (snd (delete_wishlist_remove email idtext healthy
                (snd (post_wishlist email idtext healthy s))))
      = Some (u_wishlist u)).
Proof.
  intros H Hc. pose proof (User_findOne_email _ _ _ H) as Hem.
  assert (Hrem : forall s0 u0, User_findOne email s0 = Some u0 ->
            wishlist_of email (snd (delete_wishlist_remove email idtext healthy s0))
            = Some (filter (fun id => negb (Nat.eqb id pid)) (u_wishlist u0))).
  { intros s0 u0 H0. rewrite (delete_wishlist_remove_run s0 email idtext pid u0 H0 Hc).
    cbn [snd]. unfold wishlist_of, User_findOne. cbn [users set_users].
    rewrite (find_updateOne _ (pull_wishlist pid) _ u0 H0); [reflexivity|].
    unfold has_email. cbn. rewrite (User_findOne_email _ _ _ H0). apply String.eqb_refl. }
  split; [now apply Hrem|].
  intros Hn Hname Hmail. pose proof (validates_true u Hname Hmail) as Hv.
  rewrite (post_wishlist_run email idtext pid s u H Hv Hc). cbn [snd].
  rewrite (includes_absent idtext pid _ Hc Hn).
  rewrite (Hrem _ _ (wishlist_of_save s email u (u_wishlist u ++ [pid]) H)).
  cbn [hydrated set_wishlist u_wishlist]. rewrite filter_app. cbn [filter].
  rewrite Nat.eqb_refl. cbn [negb]. rewrite app_nil_r. f_equal.
  apply filter_all. intros x Hx. apply negb_true_iff, Nat.eqb_neq. intros ->. contradiction.
Qed.

Lemma wishlist_add_then_remove_witness :
  User_findOne Sample.email (Sample.shop [] [2; 1]) = Some (Sample.alice [] [2; 1])
  /\ castObjectId "000000000000000000000002" = Some 2
  /\ wishlist_of Sample.email
       (snd (delete_wishlist_remove Sample.email "000000000000000000000002" healthy
               (Sample.shop [] [2; 1])))
     = Some [1].
Proof.
  split; [reflexivity|]. split; [reflexivity|].
  exact (proj1 (wishlist_add_then_remove Sample.email "000000000000000000000002" 2
                  (Sample.shop [] [2; 1]) (Sample.alice [] [2; 1]) eq_refl eq_refl)).
Defined.

(** ** The cart, operations composed *)

Lemma get_cart_healthy (email : string) (s : Store) (u : User) :
  User_findOne email s = Some u ->
  get_cart email healthy s
  = (mkResponse 200 (CartArray (cleanedCart (populate_cart s (hydrated_cart u)))), s).
Proof.
  intro H. unfold get_cart. run_handler. cbn. rewrite H. cbn.
  unfold hydrated_cart. now destruct (u_cart u).
Qed.

Lemma cleanedCart_app (c1 c2 : list PopulatedItem) :
  cleanedCart (c1 ++ c2) = cleanedCart c1 ++ cleanedCart c2.
Proof.
  induction c1 as [|x c1 IH]; [reflexivity|]. cbn.
  destruct (pi_productId x); cbn; now rewrite IH.
Qed.

Lemma populate_cart_app (s : Store) (c1 c2 : list CartItem) :
  populate_cart s (c1 ++ c2) = populate_cart s c1 ++ populate_cart s c2.
Proof. unfold populate_cart. apply map_app. Qed.

Lemma lines_after_post_cart (email idtext : string) (q : option Z)
    (s : Store) (u : User) (cart : list CartItem) :
  User_findOne email s = Some u ->
  validates u = true ->
  cart_add idtext q (hydrated_cart u) = Some cart ->
  get_cart email healthy (snd (post_cart email idtext q healthy s))
  = (mkResponse 200 (CartArray (cleanedCart (populate_cart s cart))),
     snd (post_cart email idtext q healthy s)).
Proof.
  intros H Hv Hc.
  rewrite (get_cart_healthy _ _ _ (cart_of_post_cart s email idtext q u _ H Hv Hc)).
  rewrite (post_cart_run _ _ _ _ _ _ H Hv Hc). reflexivity.
Qed.

(** For an existing user, adding to the cart never checks the product
    reference: on a user record that passes the validation of [save()] (its
    name and email are not empty) it answers success and stores the
    reference.  When the product was not in
    the cart and exists, the next cart read shows the lines it showed before
    followed by a line with the product's current name and price and the
    added amount; when the product does not exist, the next cart read shows
    exactly what it showed before.  The reference is given by any text that
    denotes it. *)
Theorem cart_read_after_add (email idtext : string) (pid : ObjectId) (q : option Z)
    (s : Store) (u : User) :
  User_findOne email s = Some u ->
  castObjectId idtext = Some pid ->
  (u_name u <> "" -> u_email u <> "" ->
     fst (post_cart email idtext q healthy s) = mkResponse 200 Success)
  /\ (u_name u <> "" -> u_email u <> "" ->
        exists c, cart_of email (snd (post_cart email idtext q healthy s)) = Some c
                  /\ In pid (refs c))
  /\ (forall p, Product_findById pid s = Some p -> ~ In pid (refs (hydrated_cart u)) ->
        u_name u <> "" -> u_email u <> "" ->
        lines_of (fst (get_cart email healthy (snd (post_cart email idtext q healthy s))))
        = lines_of (fst (get_cart email healthy s))
          ++ [mkCartLine pid (p_name p) (p_price p) (or_one q)])
  /\ (Product_findById pid s = None ->
        fst (get_cart email healthy (snd (post_cart email idtext q healthy s)))
        = fst (get_cart email healthy s)).
Proof.
  intros H Hcast.
  destruct (cart_add_refs idtext pid q (hydrated_cart u) Hcast) as (c' & Hc' & Hin').
  split; [intros Hname Hmail; pose proof (validates_true u Hname Hmail) as Hv;
          now rewrite (post_cart_run _ _ _ _ _ _ H Hv Hc')|]. split.
  - intros Hname Hmail. pose proof (validates_true u Hname Hmail) as Hv.
    exists c'. unfold cart_of.
    rewrite (cart_of_post_cart s email idtext q u _ H Hv Hc').
    split; [reflexivity|exact Hin'].
  - split.
    + intros p Hp Hn Hname Hmail. pose proof (validates_true u Hname Hmail) as Hv.
      rewrite (lines_after_post_cart email idtext q s u c' H Hv Hc'),
        (get_cart_healthy _ _ _ H).
      cbn [fst lines_of body].
      rewrite (cart_add_no_entry idtext pid q _ Hcast (no_entry_absent _ _ _ Hcast Hn)) in Hc'.
      injection Hc' as <-.
      rewrite populate_cart_app, cleanedCart_app. f_equal.
      cbn. rewrite Hp. cbn. now rewrite (Product_findById_id _ _ _ Hp).
    + intro Hnone. destruct (validates u) eqn:Hv;
        [|now rewrite (post_cart_invalid s email idtext q u H Hv)].
      rewrite (lines_after_post_cart email idtext q s u c' H Hv Hc'),
        (get_cart_healthy _ _ _ H).
      cbn [fst]. do 2 f_equal.
      destruct (findIndex (is_for idtext) (hydrated_cart u)) as [i|] eqn:E.
      * destruct (cart_add_entry idtext pid q _ i Hcast E)
          as (l1 & x & l2 & Hc & Hx & _ & _ & Ha).
        rewrite Ha in Hc'. injection Hc' as <-.
        rewrite Hc. rewrite !populate_cart_app, !cleanedCart_app. f_equal.
        cbn [populate_cart map cleanedCart pi_productId productId].
        now rewrite Hx, Hnone.
      * rewrite (cart_add_no_entry idtext pid q _ Hcast (proj1 (findIndex_None _ _) E)) in Hc'.
        injection Hc' as <-.
        rewrite populate_cart_app, cleanedCart_app. cbn. rewrite Hnone.
        now rewrite app_nil_r.
Qed.

Lemma cart_read_after_add_witness :
  User_findOne Sample.email (Sample.shop [mkCartItem 1 2] [])
  = Some (Sample.alice [mkCartItem 1 2] [])
  /\ castObjectId "000000000000000000000003" = Some 3
  /\ Product_findById 3 (Sample.shop [mkCartItem 1 2] []) = None
  /\ fst (get_cart Sample.email healthy
            (snd (post_cart Sample.email "000000000000000000000003" (Some 4%Z) healthy
                    (Sample.shop [mkCartItem 1 2] []))))
     = fst (get_cart Sample.email healthy (Sample.shop [mkCartItem 1 2] [])).
Proof.
  split; [reflexivity|]. split; [reflexivity|]. split; [reflexivity|].
  exact (proj2 (proj2 (proj2 (cart_read_after_add Sample.email "000000000000000000000003" 3
                                (Some 4%Z) (Sample.shop [mkCartItem 1 2] [])
                                (Sample.alice [mkCartItem 1 2] []) eq_refl eq_refl)))
           eq_refl).
Defined.

(** For an existing user whose record passes the validation of [save()]
    (its name and email are not empty) and whose cart holds only references that resolve, adding a product that was not in the cart and then removing it gives
    back the stored cart as it was, provided both requests name the product
    by the text its id prints as.  When they spell the id in another way (a
    letter in upper case), the remove finds nothing to take out and the
    entry that was added stays. *)
Theorem cart_add_then_remove (email idtext : string) (pid : ObjectId) (q : option Z)
    (s : Store) (u : User) :
  User_findOne email s = Some u ->
  u_name u <> "" -> u_email u <> "" ->
  castObjectId idtext = Some pid ->
  ~ In pid (refs (hydrated_cart u)) ->
  (forall item, In item (hydrated_cart u) -> resolves s (productId item) = true) ->
  let after :=
    cart_of email
      (snd (delete_cart_remove email idtext healthy
              (snd (post_cart email idtext q healthy s)))) in
  (idtext = toString pid -> after = Some (hydrated_cart u))
  /\ (idtext <> toString pid -> resolves s pid = true ->
        after = Some (hydrated_cart u ++ [mkCartItem pid (or_one q)])).
Proof.
  intros H Hname Hmail Hcast Hn Hall after.
  pose proof (validates_true u Hname Hmail) as Hv.
  pose proof (no_entry_absent idtext pid _ Hcast Hn) as Hno.
  pose proof (cart_add_no_entry idtext pid q _ Hcast Hno) as Ha.
  pose proof (cart_of_post_cart s email idtext q u _ H Hv Ha) as H1.
  assert (Hafter : after = Some (filter (survives s idtext)
                                   (hydrated_cart u ++ [mkCartItem pid (or_one q)]))).
  { unfold after, cart_of. rewrite (cart_of_delete_cart_remove _ email idtext _ H1 Hv).
    cbn [option_map]. change (hydrated_cart (set_cart ?a ?c)) with c.
    rewrite (post_cart_run _ _ _ _ _ _ H Hv Ha). reflexivity. }
  assert (Hold : filter (survives s idtext) (hydrated_cart u) = hydrated_cart u).
  { apply filter_all. intros item Hin. unfold survives. rewrite (Hall item Hin).
    specialize (Hno item Hin). unfold is_for in Hno. now rewrite Hno. }
  rewrite Hafter, filter_app, Hold. cbn [filter]. unfold survives at 1 2. cbn [productId].
  split.
  - intros ->. now rewrite String.eqb_refl, andb_false_r, app_nil_r.
  - intros Hne Hr. rewrite Hr.
    assert (E : String.eqb (toString pid) idtext = false)
      by (apply String.eqb_neq; congruence).
    now rewrite E.
Qed.

Lemma cart_add_then_remove_witness :
  User_findOne Sample.email (Sample.shop_with_clog [mkCartItem 1 2] [])
  = Some (Sample.alice [mkCartItem 1 2] [])
  /\ u_name (Sample.alice [mkCartItem 1 2] []) <> ""
  /\ u_email (Sample.alice [mkCartItem 1 2] []) <> ""
  /\ castObjectId "00000000000000000000000b" = Some 11
  /\ cart_of Sample.email
       (snd (delete_cart_remove Sample.email "00000000000000000000000b" healthy
               (snd (post_cart Sample.email "00000000000000000000000b" None healthy
                       (Sample.shop_with_clog [mkCartItem 1 2] [])))))
     = Some [mkCartItem 1 2]
  /\ cart_of Sample.email
       (snd (delete_cart_remove Sample.email "00000000000000000000000B" healthy
               (snd (post_cart Sample.email "00000000000000000000000B" None healthy
                       (Sample.shop_with_clog [mkCartItem 1 2] [])))))
     = Some [mkCartItem 1 2; mkCartItem 11 1].
Proof.
  assert (Hname : u_name (Sample.alice [mkCartItem 1 2] []) <> "") by (cbn; discriminate).
  assert (Hmail : u_email (Sample.alice [mkCartItem 1 2] []) <> "") by (cbn; discriminate).
  split; [reflexivity|]. split; [exact Hname|]. split; [exact Hmail|].
  split; [reflexivity|].
  assert (Hn : ~ In 11 (refs (hydrated_cart (Sample.alice [mkCartItem 1 2] []))))
    by (cbn; intros [E|[]]; discriminate E).
  assert (Hall : forall item, In item (hydrated_cart (Sample.alice [mkCartItem 1 2] [])) ->
            resolves (Sample.shop_with_clog [mkCartItem 1 2] []) (productId item) = true)
    by (intros item [<-|[]]; reflexivity).
  split.
  - apply (cart_add_then_remove Sample.email "00000000000000000000000b" 11 None
             (Sample.shop_with_clog [mkCartItem 1 2] []) (Sample.alice [mkCartItem 1 2] [])
             eq_refl Hname Hmail eq_refl Hn Hall).
    reflexivity.
  - apply (cart_add_then_remove Sample.email "00000000000000000000000B" 11 None
             (Sample.shop_with_clog [mkCartItem 1 2] []) (Sample.alice [mkCartItem 1 2] [])
             eq_refl Hname Hmail eq_refl Hn Hall).
    + vm_compute. discriminate.
    + reflexivity.
Defined.

(** ** The catalog *)

(** [rating ? Number(rating) : null], case by case. *)
Lemma rating_or_null_spec (r : option RatingField) :
  (r = None \/ r = Some (JsonNumber 0) -> rating_or_null r = None)
  /\ (forall n, r = Some (JsonNumber n) -> n <> 0%Z -> rating_or_null r = Some n)
  /\ (forall n, r = Some (NumberText n) -> rating_or_null r = Some n).
Proof.
  split; [|split].
  - intros [->| ->]; reflexivity.
  - intros n -> Hn. destruct n; [contradiction|reflexivity|reflexivity].
  - now intros n ->.
Qed.

Lemma new_product_valid (now : Z) (b : ProductBody) (image : string)
    (fields : ObjectId -> Product) :
  new_product now b image = Some fields ->
  exists name price cat,
    b_name b = Some name /\ name <> "" /\ b_price b = Some price
    /\ b_category b = Some cat /\ In cat ["men"; "women"; "kids"]
    /\ (forall r, rating_or_null (b_rating b) = Some r -> (1 <= r <= 5)%Z)
    /\ fields = (fun id =>
         mkProduct id name price cat (or_empty (b_description b)) image
           (or_empty (b_size b)) (or_empty (b_brand b)) (rating_or_null (b_rating b))
           (or_empty (b_color b)) now).
Proof.
  unfold new_product, truthy.
  destruct (b_name b) as [[|c name]|]; try discriminate.
  destruct (b_price b) as [price|]; [|discriminate].
  destruct (b_category b) as [cat|]; [|discriminate].
  cbv zeta.
  destruct (valid_category cat) eqn:Ec; [|discriminate].
  destruct (valid_rating (rating_or_null (b_rating b))) eqn:Er; [|discriminate].
  cbn [andb]. intros [= <-]. exists (String c name), price, cat.
  repeat split; try reflexivity; try discriminate.
  - unfold valid_category in Ec. apply orb_true_iff in Ec.
    destruct Ec as [Ec|Ec]; [apply orb_true_iff in Ec; destruct Ec as [Ec|Ec]|];
      apply String.eqb_eq in Ec; subst; cbn; auto.
  - unfold valid_rating in Er. rewrite H in Er. apply andb_true_iff in Er. lia.
  - unfold valid_rating in Er. rewrite H in Er. apply andb_true_iff in Er. lia.
Qed.

(** The product creation handler, by what the validation and the
    connection give. *)
Lemma post_products_run_conn (now : Z) (file : option string) (b : ProductBody)
    (conn : Conn) (s : Store) :
  post_products now file b conn s
  = match image_path file (b_imageUrl b) with
    | None => (mkResponse 400 (Failure (Some "Image required")), s)
    | Some image =>
        match new_product now b image with
        | None => (mkResponse 500 (Failure (Some "Server error")), s)
        | Some fields =>
            match conn 0 with
            | Some _ => (mkResponse 500 (Failure (Some "Server error")), s)
            | None =>
                (mkResponse 200 (ProductOk (Some (fields (nextId s)))),
                 bump_id (set_products (products s ++ [fields (nextId s)]) s))
            end
        end
    end.
Proof.
  unfold post_products. run_handler.
  destruct (image_path file (b_imageUrl b)) as [image|]; [|reflexivity].
  destruct (new_product now b image); [|reflexivity].
  destruct (conn 0); reflexivity.
Qed.

(** Whatever the connection does, a product creation either answers 200 and
    has appended exactly one product, or answers another status and has
    left the store as it was.  It can succeed only with an image (the
    uploaded file, which takes precedence, or else a non-empty image URL),
    a non-empty name, a price, a category among men, women and kids, and
    a rating that is falsy or between 1 and 5.  A falsy rating (no rating,
    a blank field, the JSON number 0) is stored as null; the text "0" of a
    form is not falsy and is refused like any other rating below 1.  The
    new product has the next id, the path of the upload (or the URL) as
    image, and the empty text for an absent description, size, brand or
    color. *)
Theorem post_products_all_or_nothing (now : Z) (file : option string) (b : ProductBody)
    (conn : Conn) (s : Store) :
  (exists name price cat image rating p,
     b_name b = Some name /\ name <> "" /\ b_price b = Some price
     /\ b_category b = Some cat /\ In cat ["men"; "women"; "kids"]
     /\ (b_rating b = None \/ b_rating b = Some (JsonNumber 0) -> rating = None)
     /\ (forall n, b_rating b = Some (JsonNumber n) -> n <> 0%Z ->
           rating = Some n /\ (1 <= n <= 5)%Z)
     /\ (forall n, b_rating b = Some (NumberText n) ->
           rating = Some n /\ (1 <= n <= 5)%Z)
     /\ image_path file (b_imageUrl b) = Some image
     /\ (forall filename, file = Some filename -> image = ("/uploads/" ++ filename)%string)
     /\ (file = None -> b_imageUrl b = Some image /\ image <> "")
     /\ p = mkProduct (nextId s) name price cat (or_empty (b_description b)) image
              (or_empty (b_size b)) (or_empty (b_brand b)) rating
              (or_empty (b_color b)) now
     /\ post_products now file b conn s
        = (mkResponse 200 (ProductOk (Some p)),
           bump_id (set_products (products s ++ [p]) s))
     /\ products (snd (post_products now file b conn s)) = products s ++ [p])
  \/ (status (fst (post_products now file b conn s)) <> 200
      /\ snd (post_products now file b conn s) = s).
Proof.
  unfold post_products. run_handler.
  destruct (image_path file (b_imageUrl b)) as [image|] eqn:Ei;
    [|right; split; [discriminate|reflexivity]].
  destruct (new_product now b image) as [fields|] eqn:En;
    [|right; split; [discriminate|reflexivity]].
  destruct (conn 0); [right; split; [discriminate|reflexivity]|].
  left. destruct (new_product_valid _ _ _ _ En)
    as (name & price & cat & H1 & H2 & H3 & H4 & H5 & H6 & ->).
  destruct (rating_or_null_spec (b_rating b)) as (R0 & R1 & R2).
  exists name, price, cat, image, (rating_or_null (b_rating b)),
    (mkProduct (nextId s) name price cat
       (or_empty (b_description b)) image (or_empty (b_size b)) (or_empty (b_brand b))
       (rating_or_null (b_rating b)) (or_empty (b_color b)) now).
  split; [exact H1|]. split; [exact H2|]. split; [exact H3|]. split; [exact H4|].
  split; [exact H5|]. split; [exact R0|].
  split; [intros n Hb Hn; split; [now apply R1|apply H6; now apply R1]|].
  split; [intros n Hb; split; [now apply R2|apply H6; now apply R2]|].
  split; [reflexivity|]. split; [|split; [|repeat split; reflexivity]].
  - intros filename ->. cbn in Ei. now injection Ei as <-.
  - intros ->. cbn in Ei. unfold truthy in Ei.
    destruct (b_imageUrl b) as [[|c url]|]; try discriminate.
    injection Ei as <-. split; [reflexivity|discriminate].
Qed.

(** A JSON body with rating 0 creates a product without a rating; a form
    with the text "0" for the rating is refused. *)
Example post_products_rating_zero :
  fst (post_products 9 None
         (mkProductBody (Some "Clog") (Some 50%Z) (Some "kids") None None None
            (Some (JsonNumber 0)) None (Some "http://img.test/clog.png"))
         healthy (Sample.shop [] []))
  = mkResponse 200 (ProductOk (Some
      (mkProduct 20 "Clog" 50 "kids" "" "http://img.test/clog.png" "" "" None "" 9)))
  /\ fst (post_products 9 (Some "17-clog.png")
            (mkProductBody (Some "Clog") (Some 50%Z) (Some "kids") None None None
               (Some (NumberText 0)) None None)
            healthy (Sample.shop [] []))
     = mkResponse 500 (Failure (Some "Server error")).
Proof. split; reflexivity. Qed.

Lemma find_fresh_id (l : list Product) (p : Product) :
  Forall (fun id => id < p_id p) (map p_id l) ->
  find (fun x => Nat.eqb (p_id x) (p_id p)) (l ++ [p]) = Some p.
Proof.
  intro H. apply find_app_new; [|apply Nat.eqb_refl].
  induction l as [|a l IH]; [reflexivity|]. cbn in *.
  inversion H as [|? ? Ha Hl]; subst.
  destruct (Nat.eqb (p_id a) (p_id p)) eqn:E; [apply Nat.eqb_eq in E; lia|now apply IH].
Qed.

(** On a store whose ids were drawn from the counter, the product a
    successful creation answers with is the one a read of its id returns
    afterwards. *)
Theorem create_then_get_product (now : Z) (file : option string) (b : ProductBody)
    (conn : Conn) (s : Store) :
  store_wf s ->
  status (fst (post_products now file b conn s)) = 200 ->
  exists p,
    fst (post_products now file b conn s) = mkResponse 200 (ProductOk (Some p))
    /\ get_product (p_id p) healthy (snd (post_products now file b conn s))
       = (mkResponse 200 (ProductDoc p), snd (post_products now file b conn s)).
Proof.
  intros Hwf. rewrite post_products_run_conn.
  destruct (image_path file (b_imageUrl b)) as [image|]; [|discriminate].
  destruct (new_product now b image) as [fields|] eqn:En; [|discriminate].
  destruct (conn 0); [discriminate|]. intros _.
  destruct (new_product_valid _ _ _ _ En) as (name & price & cat & _ & _ & _ & _ & _ & _ & Hf).
  assert (Hid : p_id (fields (nextId s)) = nextId s) by now rewrite Hf.
  exists (fields (nextId s)). cbn [fst snd]. split; [reflexivity|].
  unfold get_product. run_handler. cbn.
  unfold Product_findById. cbn [products bump_id set_products].
  rewrite find_fresh_id; [reflexivity|].
  rewrite Hid. now destruct Hwf as (_ & (_ & Hb) & _).
Qed.

Lemma create_then_get_product_witness :
  store_wf (Sample.shop [] [])
  /\ get_product 20 healthy
       (snd (post_products 9 (Some "17-clog.png")
               (mkProductBody (Some "Clog") (Some 50%Z) (Some "kids") None None None None
                  None (Some "http://img.test/clog.png"))
               healthy (Sample.shop [] [])))
     = (mkResponse 200 (ProductDoc
          (mkProduct 20 "Clog" 50 "kids" "" "/uploads/17-clog.png" "" "" None "" 9)),
        snd (post_products 9 (Some "17-clog.png")
               (mkProductBody (Some "Clog") (Some 50%Z) (Some "kids") None None None None
                  None (Some "http://img.test/clog.png"))
               healthy (Sample.shop [] []))).
Proof.
  assert (Hwf : store_wf (Sample.shop [] [])).
  { unfold store_wf, ids_ok. cbn.
    repeat split; repeat constructor; cbn; try lia; intuition discriminate. }
  split; [exact Hwf|].
  destruct (create_then_get_product 9 (Some "17-clog.png")
              (mkProductBody (Some "Clog") (Some 50%Z) (Some "kids") None None None None
                 None (Some "http://img.test/clog.png"))
              healthy (Sample.shop [] []) Hwf eq_refl) as (p & Hp & Hg).
  cbn in Hp. injection Hp as <-. exact Hg.
Defined.

Lemma find_deleteOne_same (id : ObjectId) (l : list Product) :
  NoDup (map p_id l) ->
  find (fun p => Nat.eqb (p_id p) id) (deleteOne (fun p => Nat.eqb (p_id p) id) l) = None.
Proof.
  induction l as [|a l IH]; [reflexivity|]. cbn. intro Hd.
  inversion Hd as [|? ? Ha Hl]; subst.
  destruct (Nat.eqb (p_id a) id) eqn:E.
  - apply Nat.eqb_eq in E. subst id.
    destruct (find (fun p => Nat.eqb (p_id p) (p_id a)) l) as [p|] eqn:F; [|reflexivity].
    apply find_some in F. destruct F as [Hin Heq]. apply Nat.eqb_eq in Heq.
    exfalso. apply Ha. rewrite <- Heq. now apply in_map.
  - cbn. rewrite E. now apply IH.
Qed.

Lemma find_deleteOne_other (id id' : ObjectId) (l : list Product) :
  id' <> id ->
  find (fun p => Nat.eqb (p_id p) id') (deleteOne (fun p => Nat.eqb (p_id p) id) l)
  = find (fun p => Nat.eqb (p_id p) id') l.
Proof.
  intro Hne. induction l as [|a l IH]; [reflexivity|]. cbn.
  destruct (Nat.eqb (p_id a) id) eqn:E.
  - apply Nat.eqb_eq in E.
    assert (E' : Nat.eqb (p_id a) id' = false) by (apply Nat.eqb_neq; congruence).
    now rewrite E'.
  - cbn. destruct (Nat.eqb (p_id a) id'); [reflexivity|exact IH].
Qed.

Lemma get_product_run (id : ObjectId) (s : Store) :
  get_product id healthy s
  = (match Product_findById id s with
     | None => mkResponse 404 (Failure (Some "Product not found"))
     | Some p => mkResponse 200 (ProductDoc p)
     end, s).
Proof.
  unfold get_product. run_handler. cbn. now destruct (Product_findById id s).
Qed.

Lemma get_cart_unknown (email : string) (s : Store) :
  User_findOne email s = None ->
  get_cart email healthy s = (mkResponse 200 (CartArray []), s).
Proof.
  intro H. unfold get_cart. run_handler. cbn. now rewrite H.
Qed.

Lemma deleteOne_none {A} (cond : A -> bool) (l : list A) :
  find cond l = None -> deleteOne cond l = l.
Proof.
  induction l as [|a l IH]; [reflexivity|]. cbn.
  destruct (cond a); [discriminate|]. intro H. now rewrite IH.
Qed.

Lemma set_products_same (s : Store) : set_products (products s) s = s.
Proof. now destruct s. Qed.

Lemma delete_products_run (id : ObjectId) (s : Store) :
  delete_products id healthy s
  = match Product_findById id s with
    | Some _ =>
        (mkResponse 200 Success,
         set_products (deleteOne (fun p => Nat.eqb (p_id p) id) (products s)) s)
    | None => (mkResponse 404 (Failure (Some "Product not found")), s)
    end.
Proof.
  unfold delete_products, Product_findById. run_handler. cbn.
  destruct (find (fun p => Nat.eqb (p_id p) id) (products s)) eqn:E; [reflexivity|].
  now rewrite (deleteOne_none _ _ E), set_products_same.
Qed.

Lemma cleanedCart_after_delete (s s' : Store) (id : ObjectId) (c : list CartItem) :
  Product_findById id s' = None ->
  (forall id', id' <> id -> Product_findById id' s' = Product_findById id' s) ->
  cleanedCart (populate_cart s' c)
  = filter (fun l => negb (Nat.eqb (cl_id l) id)) (cleanedCart (populate_cart s c)).
Proof.
  intros Hnone Hother. induction c as [|item c IH]; [reflexivity|].
  cbn [populate_cart map cleanedCart pi_productId pi_quantity].
  fold (populate_cart s' c). fold (populate_cart s c).
  destruct (Nat.eqb (productId item) id) eqn:E.
  - apply Nat.eqb_eq in E. rewrite E, Hnone.
    destruct (Product_findById id s) as [p|] eqn:F; [|exact IH].
    cbn [filter cl_id]. rewrite (Product_findById_id _ _ _ F), Nat.eqb_refl. exact IH.
  - apply Nat.eqb_neq in E. rewrite (Hother _ E).
    destruct (Product_findById (productId item) s) as [p|] eqn:F; [|exact IH].
    cbn [filter cl_id]. rewrite (Product_findById_id _ _ _ F).
    apply Nat.eqb_neq in E. rewrite E. cbn [negb]. now rewrite IH.
Qed.

(** On a store whose product ids are pairwise distinct, deleting an
    existing product answers success, after which a read of that id answers
    404 while every other product is found as before.  No user is touched,
    so carts and wishlists keep their references to the product; from then
    on every cart read shows the lines it showed before except the lines of
    the deleted product. *)
Theorem delete_product_then_read (id : ObjectId) (s : Store) (p : Product) :
  store_wf s ->
  Product_findById id s = Some p ->
  fst (delete_products id healthy s) = mkResponse 200 Success
  /\ get_product id healthy (snd (delete_products id healthy s))
     = (mkResponse 404 (Failure (Some "Product not found")),
        snd (delete_products id healthy s))
  /\ (forall id', id' <> id ->
        Product_findById id' (snd (delete_products id healthy s))
        = Product_findById id' s)
  /\ users (snd (delete_products id healthy s)) = users s
  /\ (forall email,
        lines_of (fst (get_cart email healthy (snd (delete_products id healthy s))))
        = filter (fun l => negb (Nat.eqb (cl_id l) id))
            (lines_of (fst (get_cart email healthy s)))).
Proof.
  intros Hwf Hp. rewrite delete_products_run, Hp. cbn [fst snd].
  set (s' := set_products (deleteOne (fun p => Nat.eqb (p_id p) id) (products s)) s).
  assert (Hnone : Product_findById id s' = None).
  { unfold Product_findById, s'. cbn [products set_products].
    apply find_deleteOne_same. apply Hwf. }
  assert (Hother : forall id', id' <> id -> Product_findById id' s' = Product_findById id' s).
  { intros id' Hne. unfold Product_findById, s'. cbn [products set_products].
    now apply find_deleteOne_other. }
  split; [reflexivity|]. split.
  { now rewrite get_product_run, Hnone. }
  split; [exact Hother|]. split; [reflexivity|].
  intro email.
  assert (Hu : User_findOne email s' = User_findOne email s) by reflexivity.
  destruct (User_findOne email s) as [u|] eqn:E.
  - rewrite (get_cart_healthy email s' u Hu), (get_cart_healthy email s u E).
    cbn [fst lines_of body]. now apply cleanedCart_after_delete.
  - now rewrite (get_cart_unknown email s' Hu), (get_cart_unknown email s E).
Qed.

Lemma delete_product_then_read_witness :
  Product_findById 2 (Sample.shop [mkCartItem 2 1; mkCartItem 1 4] []) = Some Sample.boot
  /\ lines_of (fst (get_cart Sample.email healthy
                      (snd (delete_products 2 healthy
                              (Sample.shop [mkCartItem 2 1; mkCartItem 1 4] [])))))
     = [mkCartLine 1 "Runner" 100 4].
Proof.
  split; [reflexivity|].
  assert (Hwf : store_wf (Sample.shop [mkCartItem 2 1; mkCartItem 1 4] [])).
  { unfold store_wf, ids_ok. cbn.
    repeat split; repeat constructor; cbn; try lia; intuition discriminate. }
  rewrite (proj2 (proj2 (proj2 (proj2
             (delete_product_then_read 2 (Sample.shop [mkCartItem 2 1; mkCartItem 1 4] [])
                Sample.boot Hwf eq_refl)))) Sample.email).
  reflexivity.
Defined.

(** Deleting a product that is not in the catalog answers 404 and changes
    nothing. *)
Lemma delete_products_missing (id : ObjectId) (s : Store) :
  Product_findById id s = None ->
  delete_products id healthy s = (mkResponse 404 (Failure (Some "Product not found")), s).
Proof. intro H. now rewrite delete_products_run, H. Qed.

(** ** Updating a product *)

(** A product update runs no validator: for an existing product it writes
    whatever category and price were sent, and it always writes the rating:
    the number that was sent, whatever its size, or null when the rating is
    falsy (no rating, a blank field, the JSON number 0); the id and the
    creation time stay.  For an id that is not in the catalog it answers
    200 with a null product and changes nothing. *)
Theorem put_products_unvalidated (id : ObjectId) (file : option string) (b : ProductBody)
    (s : Store) :
  (Product_findById id s = None ->
     put_products id file b healthy s = (mkResponse 200 (ProductOk None), s))
  /\ (forall p, Product_findById id s = Some p ->
        exists p',
          fst (put_products id file b healthy s) = mkResponse 200 (ProductOk (Some p'))
          /\ (exists before after,
                products s = before ++ p :: after
                /\ snd (put_products id file b healthy s)
                   = set_products (before ++ p' :: after) s
                /\ products (snd (put_products id file b healthy s))
                   = before ++ p' :: after)
          /\ p_id p' = p_id p /\ p_createdAt p' = p_createdAt p
          /\ (b_rating b = None \/ b_rating b = Some (JsonNumber 0) -> p_rating p' = None)
          /\ (forall n, b_rating b = Some (JsonNumber n) -> n <> 0%Z ->
                p_rating p' = Some n)
          /\ (forall n, b_rating b = Some (NumberText n) -> p_rating p' = Some n)
          /\ (forall c, b_category b = Some c -> p_category p' = c)
          /\ (forall n, b_price b = Some n -> p_price p' = n)).
Proof.
  unfold put_products, Product_findById. run_handler. cbn. split.
  - intro H. rewrite H. cbn.
    now rewrite (updateOne_none _ _ _ H), set_products_same.
  - intros p H. rewrite H. cbn.
    exists (apply_update b (image_path file (b_imageUrl b)) p).
    destruct (rating_or_null_spec (b_rating b)) as (R0 & R1 & R2).
    split; [reflexivity|]. split.
    + destruct (find_split _ (apply_update b (image_path file (b_imageUrl b))) _ _ H)
        as (before & after & Hb & _ & Hu).
      exists before, after. split; [exact Hb|]. now rewrite Hu.
    + split; [reflexivity|]. split; [reflexivity|].
      split; [exact R0|]. split; [exact R1|]. split; [exact R2|].
      split; cbn; intros ? ->; reflexivity.
Qed.

(** A JSON rating of 0 clears the rating of the runner, and a rating of 9
    is written although the schema allows 1 to 5. *)
Example put_products_rating :
  option_map p_rating
    (Product_findById 1
       (snd (put_products 1 None
               (mkProductBody None None None None None None (Some (JsonNumber 0)) None None)
               healthy (Sample.shop [] []))))
  = Some None
  /\ option_map p_rating
       (Product_findById 1
          (snd (put_products 1 None
                  (mkProductBody None None None None None None (Some (JsonNumber 9)) None None)
                  healthy (Sample.shop [] []))))
     = Some (Some 9%Z).
Proof. split; reflexivity. Qed.

(** ** Orders *)

Lemma resolve_all_returns (items : list LineItem) (conn : Conn) (k : nat) (s : Store)
    (lines : list OrderLine) (ks : nat * Store) :
  promise_all_map resolve_line items conn (k, s) = (inr lines, ks) ->
  map (snapshot s) items = map Some lines.
Proof.
  revert k lines ks. induction items as [|x items IH]; intros k lines ks.
  - cbn [promise_all_map]. unfold ret. now intros [= <- _].
  - cbn [promise_all_map]. unfold bind at 1, resolve_line at 1. run_handler.
    destruct (conn k); [discriminate|]. cbn [query].
    unfold snapshot at 1. cbn [map].
    destruct (Product_findById (li_productId x) s) as [p|]; [|discriminate].
    destruct (promise_all_map resolve_line items conn (S k, s)) as [[e|ls] ks'] eqn:E;
      [discriminate|].
    intros [= <- _]. cbn [option_map map]. f_equal. now apply IH with (S k) ks'.
Qed.

Lemma post_orders_run_conn (now : Z) (email : string) (items : list LineItem)
    (total : Z) (conn : Conn) (s : Store) :
  post_orders now email items total conn s
  = match conn 0 with
    | Some _ => (mkResponse 500 (Failure (Some "Failed to create order")), s)
    | None =>
        match User_findOne email s with
        | None => (mkResponse 404 (Failure (Some "User not found")), s)
        | Some u =>
            match promise_all_map resolve_line items conn (1, s) with
            | (inl _, _) => (mkResponse 500 (Failure (Some "Failed to create order")), s)
            | (inr lines, (k, _)) =>
                match conn k with
                | Some _ => (mkResponse 500 (Failure (Some "Failed to create order")), s)
                | None =>
                    (mkResponse 200
                       (OrderOk (Some (mkOrder (nextId s) (u_id u) lines total
                                         "Pending" now))),
                     bump_id (set_orders
                       (orders s ++ [mkOrder (nextId s) (u_id u) lines total
                                       "Pending" now]) s))
                end
            end
        end
    end.
Proof.
  unfold post_orders, try_catch, bind, await, query, ret.
  destruct (conn 0); [reflexivity|].
  destruct (User_findOne email s) as [u|]; [|reflexivity].
  pose proof (resolve_all_store items conn 1 s) as Hs.
  destruct (promise_all_map resolve_line items conn (1, s)) as [[e|lines] [k s']];
    cbn [snd] in Hs; subst s'; [reflexivity|].
  destruct (conn k); reflexivity.
Qed.

(** Whatever the connection does, an order creation either answers 200 and
    has appended exactly one order, or answers another status and has left
    the store as it was.  The order that is created belongs to the user of
    the email, is Pending, carries the total amount that was sent (the
    handler does not compute it from the lines) and one line per line item,
    in order, each with the current name and price of its product and the
    quantity sent; it is created only when every line item resolves. *)
Theorem post_orders_all_or_nothing (now : Z) (email : string) (items : list LineItem)
    (total : Z) (conn : Conn) (s : Store) :
  (exists u lines,
     User_findOne email s = Some u
     /\ map (snapshot s) items = map Some lines
     /\ post_orders now email items total conn s
        = (mkResponse 200
             (OrderOk (Some (mkOrder (nextId s) (u_id u) lines total "Pending" now))),
           bump_id (set_orders
             (orders s ++ [mkOrder (nextId s) (u_id u) lines total "Pending" now]) s))
     /\ orders (snd (post_orders now email items total conn s))
        = orders s ++ [mkOrder (nextId s) (u_id u) lines total "Pending" now])
  \/ (status (fst (post_orders now email items total conn s)) <> 200
      /\ snd (post_orders now email items total conn s) = s).
Proof.
  rewrite post_orders_run_conn.
  destruct (conn 0); [right; split; [discriminate|reflexivity]|].
  destruct (User_findOne email s) as [u|] eqn:Hu;
    [|right; split; [discriminate|reflexivity]].
  destruct (promise_all_map resolve_line items conn (1, s)) as [[e|lines] [k s']] eqn:E;
    [right; split; [discriminate|reflexivity]|].
  destruct (conn k); [right; split; [discriminate|reflexivity]|].
  left. exists u, lines. split; [reflexivity|].
  split; [now apply resolve_all_returns with conn 1 (k, s')|split; reflexivity].
Qed.

(** ** Listing the orders *)

Lemma insert_newest_perm (o : Order) (l : list Order) :
  Permutation (insert_newest o l) (o :: l).
Proof.
  induction l as [|x l IH]; [apply Permutation_refl|]. cbn.
  destruct (o_createdAt x <? o_createdAt o)%Z; [apply Permutation_refl|].
  eapply Permutation_trans; [apply perm_skip, IH|apply perm_swap].
Qed.

Lemma sort_newest_perm (l : list Order) : Permutation (sort_newest l) l.
Proof.
  induction l as [|o l IH]; [constructor|]. cbn.
  eapply Permutation_trans; [apply insert_newest_perm|now apply perm_skip].
Qed.

Lemma insert_newest_sorted (o : Order) (l : list Order) :
  newest_first l -> newest_first (insert_newest o l).
Proof.
  unfold newest_first. induction l as [|x l IH]; intro H.
  - repeat constructor.
  - cbn. inversion H as [|? ? Hl Hx]; subst.
    destruct (o_createdAt x <? o_createdAt o)%Z eqn:E.
    + apply Z.ltb_lt in E. constructor; [exact H|].
      constructor; [lia|]. revert Hx. apply Forall_impl. intros; lia.
    + apply Z.ltb_ge in E. constructor; [now apply IH|].
      apply (Permutation_Forall (Permutation_sym (insert_newest_perm o l))).
      now constructor.
Qed.

Lemma sort_newest_sorted (l : list Order) : newest_first (sort_newest l).
Proof.
  induction l as [|o l IH]; [constructor|]. cbn. now apply insert_newest_sorted.
Qed.

(** Over a healthy connection the order listing answers 200 with all the
    stored orders, each once, from the newest to the oldest, each beside
    the email of its owner (or null when no user has the owner's id), and
    changes nothing. *)
Theorem get_orders_newest_first (s : Store) :
  get_orders healthy s
  = (mkResponse 200 (OrderArray (listed_orders (fst (get_orders healthy s)))), s)
  /\ Permutation (map fst (listed_orders (fst (get_orders healthy s)))) (orders s)
  /\ newest_first (map fst (listed_orders (fst (get_orders healthy s))))
  /\ Forall (fun oe => snd oe = owner_email s (fst oe))
       (listed_orders (fst (get_orders healthy s))).
Proof.
  unfold get_orders. run_handler. cbn [query healthy fst snd listed_orders body res_json].
  rewrite map_map. cbn [fst]. rewrite map_id.
  split; [reflexivity|]. split; [apply sort_newest_perm|].
  split; [apply sort_newest_sorted|].
  apply Forall_map. apply Forall_forall. now intros.
Qed.

(** ** Analytics *)

Lemma amounts_sum (os : list Order) :
  fold_right (fun o acc => (totalAmount o + acc)%Z) 0%Z os
  = fold_right Z.add 0%Z (map totalAmount os).
Proof. induction os as [|o os IH]; cbn; [reflexivity|]. now rewrite IH. Qed.

Lemma sum_app (l1 l2 : list Z) :
  fold_right Z.add 0%Z (l1 ++ l2)
  = (fold_right Z.add 0%Z l1 + fold_right Z.add 0%Z l2)%Z.
Proof. induction l1 as [|x l IH]; cbn; [reflexivity|]. rewrite IH. lia. Qed.

Lemma magnitudes_app (l1 l2 : list Z) :
  fold_right (fun x acc => (Z.abs x + acc)%Z) 0%Z (l1 ++ l2)
  = (fold_right (fun x acc => (Z.abs x + acc)%Z) 0%Z l1
     + fold_right (fun x acc => (Z.abs x + acc)%Z) 0%Z l2)%Z.
Proof. induction l1 as [|x l IH]; cbn [app fold_right]; [reflexivity|]. rewrite IH. lia. Qed.

Lemma sum_within_magnitudes (l : list Z) :
  (Z.abs (fold_right Z.add 0%Z l)
   <= fold_right (fun x acc => (Z.abs x + acc)%Z) 0%Z l)%Z.
Proof. induction l as [|x l IH]; cbn [fold_right]; lia. Qed.

Lemma revenue_exact (os : list Order) :
  exactly_summable (map totalAmount os) ->
  revenue os = fold_right Z.add 0%Z (map totalAmount os).
Proof.
  unfold exactly_summable, revenue. intro H. rewrite amounts_sum.
  apply round_double_exact. pose proof (sum_within_magnitudes (map totalAmount os)). lia.
Qed.

Lemma get_analytics_run (s : Store) :
  get_analytics healthy s
  = (mkResponse 200 (AnalyticsDoc
       (mkAnalytics (List.length (users s)) (List.length (filter is_admin (users s)))
          (List.length (products s)) (List.length (orders s)) (revenue (orders s)))), s).
Proof. reflexivity. Qed.

(** Over a healthy connection the analytics answer 200 and change nothing;
    they count the users, the users whose role is "admin" (never more than
    the users), the products and the orders, and give as revenue the sum of
    the total amounts of the orders: 0 when there is no order, and the
    exact sum as long as the amounts are integers whose magnitudes add up
    to at most 2^53.  After an order creation that succeeded they show one
    more order, the counts of users, admins and products are as before,
    and the revenue is larger by exactly the total amount that was sent,
    again as long as the magnitudes, that amount included, add up to at
    most 2^53. *)
Theorem analytics_after_order (now : Z) (email : string) (items : list LineItem)
    (total : Z) (conn : Conn) (s : Store) :
  (exists a,
     get_analytics healthy s = (mkResponse 200 (AnalyticsDoc a), s)
     /\ totalUsers a = List.length (users s)
     /\ totalAdmins a
        = List.length (filter (fun u => String.eqb (u_role u) "admin") (users s))
     /\ totalProducts a = List.length (products s)
     /\ totalOrders a = List.length (orders s)
     /\ totalAdmins a <= totalUsers a
     /\ (orders s = [] -> totalRevenue a = 0%Z)
     /\ (exactly_summable (map totalAmount (orders s)) ->
           totalRevenue a = fold_right Z.add 0%Z (map totalAmount (orders s))))
  /\ (status (fst (post_orders now email items total conn s)) = 200 ->
      exists a a',
        figures (fst (get_analytics healthy s)) = Some a
        /\ figures (fst (get_analytics healthy
                           (snd (post_orders now email items total conn s))))
           = Some a'
        /\ totalOrders a' = S (totalOrders a)
        /\ totalUsers a' = totalUsers a /\ totalAdmins a' = totalAdmins a
        /\ totalProducts a' = totalProducts a
        /\ (exactly_summable (total :: map totalAmount (orders s)) ->
              totalRevenue a' = (totalRevenue a + total)%Z)).
Proof.
  split.
  - rewrite get_analytics_run. eexists. split; [reflexivity|].
    cbn [totalUsers totalAdmins totalProducts totalOrders totalRevenue].
    split; [reflexivity|]. split; [reflexivity|]. split; [reflexivity|].
    split; [reflexivity|]. split; [apply filter_length_le|].
    split; [now intros ->|apply revenue_exact].
  - rewrite post_orders_run_conn.
    destruct (conn 0); [discriminate|].
    destruct (User_findOne email s) as [u|]; [|discriminate].
    destruct (promise_all_map resolve_line items conn (1, s)) as [[e|lines] [k s']];
      [discriminate|].
    destruct (conn k); [discriminate|]. intros _.
    cbn [snd]. rewrite !get_analytics_run. cbn [fst figures body].
    eexists _, _. split; [reflexivity|]. split; [reflexivity|].
    cbn [totalUsers totalAdmins totalProducts totalOrders totalRevenue
         users products orders bump_id set_orders].
    split; [rewrite length_app; cbn; lia|].
    split; [reflexivity|]. split; [reflexivity|]. split; [reflexivity|].
    intro Hsafe. unfold exactly_summable in Hsafe. cbn [fold_right] in Hsafe.
    rewrite !revenue_exact.
    + rewrite map_app, sum_app. cbn. lia.
    + unfold exactly_summable. lia.
    + unfold exactly_summable. rewrite map_app, magnitudes_app. cbn. lia.
Qed.

Lemma analytics_after_order_witness :
  status (fst (post_orders 7 Sample.email [mkLineItem 1 2] 200 healthy
                 Sample.shop_with_order)) = 200
  /\ exactly_summable [200%Z; 200%Z]
  /\ exists a a',
       figures (fst (get_analytics healthy Sample.shop_with_order)) = Some a
       /\ figures (fst (get_analytics healthy
                          (snd (post_orders 7 Sample.email [mkLineItem 1 2] 200 healthy
                                  Sample.shop_with_order))))
          = Some a'
       /\ totalOrders a' = S (totalOrders a)
       /\ totalRevenue a' = (totalRevenue a + 200)%Z.
Proof.
  split; [reflexivity|].
  assert (Hs : exactly_summable [200%Z; 200%Z]) by (unfold exactly_summable; cbn; lia).
  split; [exact Hs|].
  destruct (proj2 (analytics_after_order 7 Sample.email [mkLineItem 1 2] 200 healthy
                     Sample.shop_with_order) eq_refl)
    as (a & a' & Ha & Ha' & Ho & _ & _ & _ & Hr).
  exists a, a'. split; [exact Ha|]. split; [exact Ha'|]. split; [exact Ho|].
  apply Hr. exact Hs.
Defined.

(** ** Failures *)

(** When the store rejects the query or the save of a cart removal, and
    when no user has the email, the handler answers 200 with an empty
    array, as if the cart were empty, and nothing is removed. *)
Theorem delete_cart_remove_fault (email idtext : string) (conn : Conn)
    (s : Store) :
  conn 0 <> None \/ conn 1 <> None \/ User_findOne email s = None ->
  delete_cart_remove email idtext conn s = (mkResponse 200 (CartArray []), s).
Proof.
  intro H. unfold delete_cart_remove. run_handler.
  destruct (conn 0); [reflexivity|]. cbn [query].
  destruct (User_findOne email s) as [u|]; [|reflexivity]. cbn [option_map].
  destruct (validates _); [|reflexivity].
  destruct (conn 1); [reflexivity|].
  destruct H as [H|[H|H]]; congruence.
Qed.

Lemma delete_cart_remove_fault_witness :
  fails_third 0 = None
  /\ cart_of Sample.email (Sample.shop [mkCartItem 1 2] []) = Some [mkCartItem 1 2]
  /\ delete_cart_remove Sample.email "000000000000000000000001"
       (fun k => fails_third (S k)) (Sample.shop [mkCartItem 1 2] [])
     = (mkResponse 200 (CartArray []), Sample.shop [mkCartItem 1 2] []).
Proof.
  split; [reflexivity|]. split; [reflexivity|].
  apply delete_cart_remove_fault. right. left. discriminate.
Defined.

Ltac split_cases :=
  repeat match goal with
         | |- context [match ?c ?k with _ => _ end] =>
             match type of c with Conn => destruct (c k) end
         | |- context [match User_findOne ?e ?s with _ => _ end] =>
             destruct (User_findOne e s)
         | |- context [match Profile_findOne ?e ?s with _ => _ end] =>
             destruct (Profile_findOne e s)
         | |- context [match find ?f ?l with _ => _ end] => destruct (find f l) eqn:?
         | |- context [match castObjectId ?t with _ => _ end] => destruct (castObjectId t)
         | |- context [match cart_add ?t ?q ?c with _ => _ end] => destruct (cart_add t q c)
         | |- context [match ?f ?x with _ => _ end] =>
             match type of f with string -> option string => destruct (f x) end
         | |- context [if ?b then _ else _] => destruct b
         end.

(** Every route but the profile update is all or nothing: when it answers
    a status other than 200, whatever the connection did, it has left the
    store as it was. *)
Theorem failure_leaves_store (bcrypt_hash : string -> string)
    (bcrypt_compare : string -> string -> bool)
    (RegExp_i : string -> string + (string -> bool))
    (decodeURIComponent : string -> option string)
    (r : Request) (conn : Conn) (s : Store) :
  (forall email name phone address, r <> PutProfile email name phone address) ->
  status (fst (handle bcrypt_hash bcrypt_compare RegExp_i decodeURIComponent r conn s)) <> 200 ->
  snd (handle bcrypt_hash bcrypt_compare RegExp_i decodeURIComponent r conn s) = s.
Proof.
  intros Hr.
  destruct r;
    try solve [intros _; symmetry; cbn [handle]; unfold_handler;
               (apply hoare_try_catch with (P := eq s); [|reflexivity]);
               hoare_invariant (eq s); frame_goals];
    cbn [handle].
  - unfold get_profile. run_handler. cbn [query]. split_cases; cbn; congruence.
  - exfalso. now apply (Hr param name phone address).
  - rewrite post_signup_run_conn.
    destruct (new_user name email (bcrypt_hash password) role);
      split_cases; cbn; congruence.
  - intros _. apply post_login_store.
  - unfold post_wishlist. run_handler. cbn [query command]. split_cases; cbn; congruence.
  - unfold delete_wishlist_remove. run_handler. cbn [query command].
    split_cases; cbn; congruence.
  - unfold post_cart. run_handler. cbn [query command]. split_cases; cbn; congruence.
  - unfold delete_cart_remove. run_handler. cbn [query command].
    destruct (conn 0); [cbn; congruence|].
    destruct (User_findOne email s); cbn; [|congruence].
    destruct (validates _); cbn; [|congruence].
    destruct (conn 1); cbn; congruence.
  - rewrite post_products_run_conn.
    destruct (image_path file (b_imageUrl b)) as [image|]; [|reflexivity].
    destruct (new_product now b image); [|reflexivity].
    destruct (conn 0); cbn; congruence.
  - unfold put_products. run_handler. split_cases; cbn; congruence.
  - unfold delete_products. run_handler. destruct (conn 0); [reflexivity|].
    cbn. destruct (find (fun p => Nat.eqb (p_id p) id) (products s)) eqn:E;
      cbn; [congruence|].
    intros _. now rewrite (deleteOne_none _ _ E), set_products_same.
  - rewrite post_orders_run_conn.
    destruct (conn 0); [reflexivity|].
    destruct (User_findOne email s); [|reflexivity].
    destruct (promise_all_map resolve_line items conn (1, s)) as [[e|lines] [k s']];
      [reflexivity|].
    destruct (conn k); cbn; congruence.
  - unfold put_orders. run_handler. split_cases; cbn; congruence.
Qed.

Lemma failure_leaves_store_witness :
  status (fst (handle Standin.bcrypt_hash Standin.bcrypt_compare Standin.RegExp_i
      Standin.decodeURIComponent
                 (PostCart "nobody@shoekart.test" "000000000000000000000001" None) healthy
                 (Sample.shop [] [])))
  = 404
  /\ snd (handle Standin.bcrypt_hash Standin.bcrypt_compare Standin.RegExp_i
      Standin.decodeURIComponent
            (PostCart "nobody@shoekart.test" "000000000000000000000001" None) healthy
            (Sample.shop [] []))
     = Sample.shop [] [].
Proof.
  split; [reflexivity|].
  apply failure_leaves_store.
  - intros. discriminate.
  - cbn. discriminate.
Defined.

(** ** Users stay, and orders keep their owner *)

Lemma users_grow_refl (s : Store) : users_grow s s.
Proof. exists []. now rewrite app_nil_r. Qed.

Lemma users_grow_same (s0 s s' : Store) :
  map u_id (users s') = map u_id (users s) -> users_grow s0 s -> users_grow s0 s'.
Proof. intros H [x Hx]. exists x. now rewrite H. Qed.

Lemma users_grow_trans (s s' s'' : Store) :
  users_grow s s' -> users_grow s' s'' -> users_grow s s''.
Proof.
  intros [c1 H1] [c2 H2]. exists (c1 ++ c2). now rewrite H2, H1, app_assoc.
Qed.

Lemma users_grow_insert (s0 s : Store) (fields : ObjectId -> User) :
  users_grow s0 s -> users_grow s0 (snd (User_insert fields s)).
Proof.
  intros [x Hx]. exists (x ++ [u_id (fields (nextId s))]).
  cbn [User_insert snd users bump_id set_users].
  now rewrite map_app, Hx, app_assoc.
Qed.

Lemma handle_users_grow (bcrypt_hash : string -> string)
    (bcrypt_compare : string -> string -> bool)
    (RegExp_i : string -> string + (string -> bool))
    (decodeURIComponent : string -> option string)
    (r : Request) (conn : Conn) (s : Store) :
  users_grow s (snd (handle bcrypt_hash bcrypt_compare RegExp_i decodeURIComponent r conn s)).
Proof.
  destruct r; cbn [handle];
    try (rewrite post_login_store; apply users_grow_refl);
    unfold_handler;
    (apply hoare_try_catch with (P := users_grow s); [|apply users_grow_refl]);
    hoare_invariant (users_grow s);
    try (eapply users_grow_same; [|eassumption]; reflexivity);
    try (now apply users_grow_insert);
    try (eapply users_grow_same; [|eassumption]; cbn [snd command users set_users];
         first [apply (map_id_replace u_id); reflexivity
               |apply (map_id_updateOne u_id); intros ?; reflexivity]).
  destruct a; (eapply users_grow_same; [|eassumption]; reflexivity).
Qed.

Lemma owners_exist_step (bcrypt_hash : string -> string)
    (bcrypt_compare : string -> string -> bool)
    (RegExp_i : string -> string + (string -> bool))
    (decodeURIComponent : string -> option string)
    (r : Request) (conn : Conn) (s : Store) :
  owners_exist s ->
  owners_exist (snd (handle bcrypt_hash bcrypt_compare RegExp_i decodeURIComponent r conn s)).
Proof.
  intro H. unfold owners_exist in *.
  destruct (handle_users_grow bcrypt_hash bcrypt_compare RegExp_i decodeURIComponent r conn s) as [x Hx].
  assert (Hold : Forall (fun o => In (userId o)
                   (map u_id (users (snd (handle bcrypt_hash bcrypt_compare RegExp_i decodeURIComponent
                                            r conn s))))) (orders s)).
  { revert H. apply Forall_impl. intros o Ho. rewrite Hx. apply in_or_app. now left. }
  destruct (writes_orders r) eqn:W.
  - destruct r; try discriminate W; cbn [handle] in *.
    + rewrite post_orders_run_conn in *.
      destruct (conn 0); [exact Hold|].
      destruct (User_findOne email s) as [u|] eqn:Hu; [|exact Hold].
      destruct (promise_all_map resolve_line items conn (1, s)) as [[e|lines] [k s']];
        [exact Hold|].
      destruct (conn k); [exact Hold|].
      cbn [snd orders users bump_id set_orders] in *.
      apply Forall_app. split; [exact Hold|]. constructor; [|constructor].
      cbn [userId]. apply in_map. unfold User_findOne in Hu. now apply find_some in Hu.
    + unfold put_orders in *. revert Hold. run_handler.
      destruct (conn 0); [easy|].
      cbn [Order_findByIdAndUpdate snd fst orders users set_orders].
      intro Hold. clear -Hold.
      induction (orders s) as [|o l IH]; [constructor|]. cbn.
      inversion Hold as [|? ? Ho Hl]; subst.
      destruct (Nat.eqb (o_id o) id); constructor; auto.
      now destruct st.
  - now rewrite (handle_orders_frame bcrypt_hash bcrypt_compare RegExp_i decodeURIComponent r conn s W).
Qed.

Lemma owners_exist_serve (bcrypt_hash : string -> string)
    (bcrypt_compare : string -> string -> bool)
    (RegExp_i : string -> string + (string -> bool))
    (decodeURIComponent : string -> option string)
    (rs : list (Request * Conn)) (s : Store) :
  owners_exist s -> owners_exist (serve bcrypt_hash bcrypt_compare RegExp_i decodeURIComponent rs s).
Proof.
  revert s. induction rs as [|[r conn] rs IH]; intros s H; cbn [serve]; [exact H|].
  apply IH. now apply owners_exist_step.
Qed.

Lemma owner_email_found (s : Store) (o : Order) :
  In (userId o) (map u_id (users s)) -> owner_email s o <> None.
Proof.
  intro H. unfold owner_email.
  destruct (find (fun u => Nat.eqb (u_id u) (userId o)) (users s)) as [u|] eqn:E;
    [discriminate|].
  apply in_map_iff in H. destruct H as (u & Hid & Hin).
  pose proof (find_none _ _ E u Hin) as Hf. cbn in Hf.
  rewrite Hid, Nat.eqb_refl in Hf. discriminate.
Qed.

(** No sequence of requests, over whatever connections, removes a user or
    changes the id of a user: the users that were stored are still stored,
    in place, followed by the users that signed up since. *)
Theorem users_never_removed (bcrypt_hash : string -> string)
    (bcrypt_compare : string -> string -> bool)
    (RegExp_i : string -> string + (string -> bool))
    (decodeURIComponent : string -> option string)
    (rs : list (Request * Conn)) (s : Store) :
  users_grow s (serve bcrypt_hash bcrypt_compare RegExp_i decodeURIComponent rs s).
Proof.
  revert s. induction rs as [|[r conn] rs IH]; intro s; cbn [serve].
  - apply users_grow_refl.
  - eapply users_grow_trans; [apply handle_users_grow|apply IH].
Qed.

(** Starting from an empty store, whatever requests are served over whatever
    connections, every order belongs to a stored user, so the order listing
    shows an owner email beside every order. *)
Theorem orders_always_have_owner (bcrypt_hash : string -> string)
    (bcrypt_compare : string -> string -> bool)
    (RegExp_i : string -> string + (string -> bool))
    (decodeURIComponent : string -> option string)
    (rs : list (Request * Conn)) :
  owners_exist (serve bcrypt_hash bcrypt_compare RegExp_i decodeURIComponent rs empty_store)
  /\ Forall (fun oe => snd oe <> None)
       (listed_orders (fst (get_orders healthy
          (serve bcrypt_hash bcrypt_compare RegExp_i decodeURIComponent rs empty_store)))).
Proof.
  assert (H : owners_exist (serve bcrypt_hash bcrypt_compare RegExp_i decodeURIComponent rs empty_store))
    by (apply owners_exist_serve; constructor).
  split; [exact H|].
  set (s := serve bcrypt_hash bcrypt_compare RegExp_i decodeURIComponent rs empty_store) in *.
  unfold get_orders. run_handler. cbn [query healthy fst snd listed_orders body res_json].
  apply Forall_map. cbn [snd fst].
  unfold owners_exist in H. rewrite Forall_forall in *.
  intros o Ho. apply owner_email_found. apply H.
  apply (Permutation_in _ (sort_newest_perm (orders s)) Ho).
Qed.

(** ** Listing products, whatever the expression engine *)

Lemma truthy_some (x : option string) (c : string) :
  x = Some c -> c <> "" -> truthy x = Some c.
Proof. intros -> H. destruct c; [contradiction|reflexivity]. Qed.

Lemma matches_sound (f : ProductFilter) (p : Product) :
  matches f p = true ->
  (forall c, f_category f = Some c -> p_category p = c)
  /\ (forall v, f_size f = Some v -> p_size p = v)
  /\ (forall v, f_brand f = Some v -> p_brand p = v)
  /\ (forall r, f_rating_gte f = Some r -> exists x, p_rating p = Some x /\ (r <= x)%Z)
  /\ (forall lo, f_price_gte f = Some lo -> (lo <= p_price p)%Z)
  /\ (forall hi, f_price_lte f = Some hi -> (p_price p <= hi)%Z).
Proof.
  unfold matches. intro H.
  apply andb_true_iff in H. destruct H as [H Hhi].
  apply andb_true_iff in H. destruct H as [H Hlo].
  apply andb_true_iff in H. destruct H as [H Hr].
  apply andb_true_iff in H. destruct H as [H _].
  apply andb_true_iff in H. destruct H as [H Hb].
  apply andb_true_iff in H. destruct H as [Hc Hs].
  repeat split.
  - intros c E. rewrite E in Hc. now apply String.eqb_eq in Hc.
  - intros v E. rewrite E in Hs. now apply String.eqb_eq in Hs.
  - intros v E. rewrite E in Hb. now apply String.eqb_eq in Hb.
  - intros r E. rewrite E in Hr. cbn in Hr. unfold rating_gte in Hr.
    destruct (p_rating p) as [x|]; [|discriminate]. exists x. split; [reflexivity|lia].
  - intros lo E. rewrite E in Hlo. cbn in Hlo. lia.
  - intros hi E. rewrite E in Hhi. cbn in Hhi. lia.
Qed.

(** Whatever the expression engine and the connection do, when the product
    listing answers with an array, the array is a selection of the catalog
    in catalog order, and every product in it has the category, size and
    brand that were asked for (when non-empty), a rating that is present
    and at least the minimum asked for, and a price within the bounds asked
    for. *)
Theorem get_products_sound (RegExp_i : string -> string + (string -> bool))
    (q : ProductQuery) (conn : Conn) (s : Store) (l : list Product) :
  body (fst (get_products RegExp_i q conn s)) = ProductArray l ->
  (exists f, l = filter f (products s))
  /\ Forall (fun p =>
       In p (products s)
       /\ (forall c, category q = Some c -> c <> "" -> p_category p = c)
       /\ (forall v, size q = Some v -> v <> "" -> p_size p = v)
       /\ (forall v, brand q = Some v -> v <> "" -> p_brand p = v)
       /\ (forall r, rating q = Some r -> exists x, p_rating p = Some x /\ (r <= x)%Z)
       /\ (forall lo, priceMin q = Some lo -> (lo <= p_price p)%Z)
       /\ (forall hi, priceMax q = Some hi -> (p_price p <= hi)%Z)) l.
Proof.
  unfold get_products. run_handler.
  assert (Hgen : forall colorRegex,
    l = Product_find (mkProductFilter (truthy (category q)) (truthy (size q))
          (truthy (brand q)) colorRegex (rating q) (priceMin q) (priceMax q)) s ->
    (exists f, l = filter f (products s))
    /\ Forall (fun p =>
         In p (products s)
         /\ (forall c, category q = Some c -> c <> "" -> p_category p = c)
         /\ (forall v, size q = Some v -> v <> "" -> p_size p = v)
         /\ (forall v, brand q = Some v -> v <> "" -> p_brand p = v)
         /\ (forall r, rating q = Some r -> exists x, p_rating p = Some x /\ (r <= x)%Z)
         /\ (forall lo, priceMin q = Some lo -> (lo <= p_price p)%Z)
         /\ (forall hi, priceMax q = Some hi -> (p_price p <= hi)%Z)) l).
  { intros colorRegex ->. split; [eexists; reflexivity|].
    apply Forall_forall. intros p Hp. unfold Product_find in Hp.
    apply filter_In in Hp. destruct Hp as [Hin Hm].
    destruct (matches_sound _ _ Hm) as (H1 & H2 & H3 & H4 & H5 & H6).
    cbn in H1, H2, H3, H4, H5, H6.
    repeat split; auto.
    - intros c Hc Hne. apply H1. now apply truthy_some.
    - intros v Hv Hne. apply H2. now apply truthy_some.
    - intros v Hv Hne. apply H3. now apply truthy_some. }
  destruct (truthy (color q)) as [c|].
  - destruct (RegExp_i ("^" ++ c ++ "$")%string) as [msg|test]; [discriminate|].
    destruct (conn 0); [discriminate|]. cbn.
    intros [= <-]. now apply Hgen with (Some test).
  - destruct (conn 0); [discriminate|]. cbn.
    intros [= <-]. now apply Hgen with None.
Qed.

Lemma get_products_sound_witness :
  body (fst (get_products Standin.RegExp_i
               (mkProductQuery (Some "women") (Some 150%Z) None None None None (Some "B.*"))
               healthy (Sample.shop [] [])))
  = ProductArray [Sample.boot]
  /\ Forall (fun p => (150 <= p_price p)%Z) [Sample.boot].
Proof.
  split; [reflexivity|].
  destruct (get_products_sound Standin.RegExp_i
              (mkProductQuery (Some "women") (Some 150%Z) None None None None (Some "B.*"))
              healthy (Sample.shop [] []) [Sample.boot] eq_refl) as [_ H].
  revert H. apply Forall_impl. intros p (_ & _ & _ & _ & _ & Hlo & _).
  now apply Hlo.
Defined.

Lemma unless_truthy_spec (x : option string) (test : string -> bool) :
  unless_absent (truthy x) test = true
  <-> (forall c, x = Some c -> c <> "" -> test c = true).
Proof.
  destruct x as [[|a c]|]; cbn [truthy unless_absent]; split; intro H;
    try reflexivity; try (intros; congruence).
  apply H; [reflexivity|discriminate].
Qed.

Lemma unless_absent_spec {A} (x : option A) (test : A -> bool) :
  unless_absent x test = true <-> (forall v, x = Some v -> test v = true).
Proof.
  destruct x as [v|]; cbn [unless_absent]; split; intro H;
    try reflexivity; try (intros; congruence).
  now apply H.
Qed.

(** What a query asks of a product, parameter by parameter. *)
Lemma satisfies_spec (q : ProductQuery) (p : Product) :
  satisfies q p = true
  <-> (forall c, category q = Some c -> c <> "" -> p_category p = c)
      /\ (forall v, size q = Some v -> v <> "" -> p_size p = v)
      /\ (forall v, brand q = Some v -> v <> "" -> p_brand p = v)
      /\ (forall c, color q = Some c -> c <> "" -> ci_eqb c (p_color p) = true)
      /\ (forall r, rating q = Some r -> exists x, p_rating p = Some x /\ (r <= x)%Z)
      /\ (forall lo, priceMin q = Some lo -> (lo <= p_price p)%Z)
      /\ (forall hi, priceMax q = Some hi -> (p_price p <= hi)%Z).
Proof.
  unfold satisfies. rewrite !andb_true_iff, !unless_truthy_spec, !unless_absent_spec.
  split.
  - intros ((((((H1 & H2) & H3) & H4) & H5) & H6) & H7). repeat split.
    + intros c Hc Hne. now apply String.eqb_eq, H1.
    + intros v Hv Hne. now apply String.eqb_eq, H2.
    + intros v Hv Hne. now apply String.eqb_eq, H3.
    + exact H4.
    + intros r Hr. specialize (H5 r Hr). destruct (p_rating p) as [x|]; [|discriminate].
      exists x. split; [reflexivity|lia].
    + intros lo Hlo. specialize (H6 lo Hlo). lia.
    + intros hi Hhi. specialize (H7 hi Hhi). lia.
  - intros (H1 & H2 & H3 & H4 & H5 & H6 & H7). repeat split.
    + intros c Hc Hne. now apply String.eqb_eq, H1.
    + intros v Hv Hne. now apply String.eqb_eq, H2.
    + intros v Hv Hne. now apply String.eqb_eq, H3.
    + exact H4.
    + intros r Hr. destruct (H5 r Hr) as (x & -> & Hx). lia.
    + intros lo Hlo. specialize (H6 lo Hlo). lia.
    + intros hi Hhi. specialize (H7 hi Hhi). lia.
Qed.

(** As long as the expression built from the color matches exactly the texts
    equal to the color up to letter case, which is so for a color without
    special characters, the product listing over a healthy connection
    answers 200 with a selection of the catalog, in catalog order, and a
    product of the catalog is listed if and only if it meets every
    parameter of the query: the category, size and brand asked for, the
    color asked for up to letter case, a rating that is present and at
    least the minimum, and a price within the bounds; an absent or empty
    parameter does not constrain. *)
Theorem get_products_exact_when_literal (RegExp_i : string -> string + (string -> bool))
    (q : ProductQuery) (s : Store) :
  (forall c, truthy (color q) = Some c ->
     exists test, RegExp_i ("^" ++ c ++ "$")%string = inr test
                  /\ forall t, test t = ci_eqb c t) ->
  exists l,
    get_products RegExp_i q healthy s = (mkResponse 200 (ProductArray l), s)
    /\ (exists f, l = filter f (products s))
    /\ forall p,
         In p l
         <-> In p (products s)
             /\ (forall c, category q = Some c -> c <> "" -> p_category p = c)
             /\ (forall v, size q = Some v -> v <> "" -> p_size p = v)
             /\ (forall v, brand q = Some v -> v <> "" -> p_brand p = v)
             /\ (forall c, color q = Some c -> c <> "" -> ci_eqb c (p_color p) = true)
             /\ (forall r, rating q = Some r ->
                   exists x, p_rating p = Some x /\ (r <= x)%Z)
             /\ (forall lo, priceMin q = Some lo -> (lo <= p_price p)%Z)
             /\ (forall hi, priceMax q = Some hi -> (p_price p <= hi)%Z).
Proof.
  intro H. exists (filter (satisfies q) (products s)).
  split; [|split; [now exists (satisfies q)|]].
  - destruct (truthy (color q)) as [c|] eqn:E.
    + destruct (H c eq_refl) as (test & Hre & Ht).
      rewrite (get_products_run RegExp_i q s (Some test)).
      * unfold Product_find. do 3 f_equal. apply filter_ext. intro p.
        apply matches_satisfies. rewrite E. now exists test.
      * rewrite E. now exists test.
    + rewrite (get_products_run RegExp_i q s None).
      * unfold Product_find. do 3 f_equal. apply filter_ext. intro p.
        apply matches_satisfies. now rewrite E.
      * now rewrite E.
  - intro p. rewrite filter_In, satisfies_spec. reflexivity.
Qed.

Lemma get_products_exact_when_literal_witness :
  exists l,
    get_products Standin.RegExp_i
      (mkProductQuery (Some "women") None (Some 250%Z) (Some "") None (Some "Acme")
         (Some "BLACK"))
      healthy (Sample.shop [] [])
    = (mkResponse 200 (ProductArray l), Sample.shop [] [])
    /\ (In Sample.boot l <-> In Sample.boot (products (Sample.shop [] []))).
Proof.
  destruct (get_products_exact_when_literal Standin.RegExp_i
              (mkProductQuery (Some "women") None (Some 250%Z) (Some "") None (Some "Acme")
                 (Some "BLACK")) (Sample.shop [] [])) as (l & Hl & _ & Hp).
  - intros c [= <-]. apply Standin_plain. reflexivity.
  - exists l. split; [exact Hl|]. rewrite Hp. split; [now intros [? _]|].
    intro Hin. split; [exact Hin|]. cbn.
    repeat split; intros ? [= <-]; try reflexivity; try lia; try congruence.
Defined.
